(** * ax: configuration profiles, env-var expansion, error classification

    A shallow embedding of the parts of the [ax] command line client that
    carry real logic:

    - [src/ax/config/schema.py]   the pydantic models, their validators and
                                  the conversion to the SDK configuration,
    - [src/ax/config/manager.py]  the profile store, env-var expansion and
                                  the scalar coercion helpers,
    - [src/ax/config/setup.py]    detection of [ARIZE_*] variables and the
                                  configuration made of references to them,
    - [src/ax/core/error_formatter.py]  classification of gRPC and API
                                  errors and the messages made of them,
    - [src/ax/core/output.py]     the output formatter dispatcher,
    - [src/ax/core/pydantic.py]   the split of model fields for export,
    - [src/ax/utils/file_io.py]   format detection, the [--output] option
                                  and reading and writing data files,
    - [src/ax/utils/console.py]   masking of secrets.

    Python [str] values are modelled by [string]; a character is a code
    point below 256 (the Latin-1 range), on which the Unicode notions of
    whitespace, decimal digit and lower case used by [str.strip], [re] and
    [str.lower] are written out.  Exceptions are values of [exc] carried by
    the [result] monad.  What lies outside the repository is a parameter:
    the region table of the SDK ([Region]), pydantic's lax coercions
    ([PydanticLax]), the text and TOML codecs ([Codec]), the renderers
    behind the formatters ([Renderer]), the readers and writers of pandas
    ([DataFrameIO]) and the region enumeration and [int] of the SDK
    conversion ([SDK]).

    The file has the model first, one module per source file, then the
    vocabulary of the statements, then the properties. *)

From Stdlib Require Import ZArith Bool Ascii String List Lia.
From stdpp Require Import base option list gmap strings sorting pretty.

Set Default Proof Using "Type".
Set Warnings "-register-all".

(* ================================================================== *)
(** ** Python strings *)

Module PyStr.

Definition code (c : ascii) : N := N_of_ascii c.

(** [str.isspace] on one character: the code points below 256 with the
    Unicode white-space property.  [str.strip()] and the [\s] class of
    [re] (on [str] patterns) both use it. *)
Definition is_space (c : ascii) : bool :=
  let n := code c in
  ((9 <=? n) && (n <=? 13) || (28 <=? n) && (n <=? 32)
   || (n =? 133) || (n =? 160))%N.

(** [\d] of [re] on a [str] pattern: decimal digits; below 256 these are
    the ASCII digits only. *)
Definition is_digit (c : ascii) : bool :=
  let n := code c in ((48 <=? n) && (n <=? 57))%N.

(** One character of [str.lower()]: [A-Z] and the Latin-1 capitals
    U+00C0..U+00DE (without the multiplication sign U+00D7) move up by 32. *)
Definition lower_char (c : ascii) : ascii :=
  let n := code c in
  if ((65 <=? n) && (n <=? 90)
      || (192 <=? n) && (n <=? 222) && negb (n =? 215))%N
  then ascii_of_N (n + 32) else c.

Fixpoint lower (s : string) : string :=
  match s with
  | EmptyString => EmptyString
  | String c s' => String (lower_char c) (lower s')
  end.

Fixpoint lstrip (s : string) : string :=
  match s with
  | EmptyString => EmptyString
  | String c s' => if is_space c then lstrip s' else s
  end.

Fixpoint rstrip (s : string) : string :=
  match s with
  | EmptyString => EmptyString
  | String c s' =>
      match rstrip s' with
      | EmptyString => if is_space c then EmptyString else String c EmptyString
      | r => String c r
      end
  end.

(** [s.strip()] *)
Definition strip (s : string) : string := lstrip (rstrip s).

(** [bool(s)] for a [str]: non-empty. *)
Definition truthy (s : string) : bool :=
  match s with EmptyString => false | String _ _ => true end.

Fixpoint startswith (s p : string) : bool :=
  match p, s with
  | EmptyString, _ => true
  | String a p', String b s' => if ascii_dec a b then startswith s' p' else false
  | String _ _, EmptyString => false
  end.

(** [s[len(p):]] when [s.startswith(p)] *)
Fixpoint drop_prefix (p s : string) : option string :=
  match p, s with
  | EmptyString, _ => Some s
  | String a p', String b s' => if ascii_dec a b then drop_prefix p' s' else None
  | String _ _, EmptyString => None
  end.

Fixpoint endswith (s p : string) : bool :=
  match s with
  | EmptyString => if string_dec p EmptyString then true else false
  | String _ s' => if string_dec s p then true else endswith s' p
  end.

(** [s[:n]] *)
Fixpoint take (n : nat) (s : string) : string :=
  match n, s with
  | S n', String c s' => String c (take n' s')
  | _, _ => EmptyString
  end.

(** [s.rfind(c)], as [None] for [-1]. *)
Fixpoint rfind (c : ascii) (s : string) : option nat :=
  match s with
  | EmptyString => None
  | String a s' =>
      match rfind c s' with
      | Some i => Some (S i)
      | None => if ascii_dec a c then Some 0 else None
      end
  end.

Fixpoint contains_char (c : ascii) (s : string) : bool :=
  match s with
  | EmptyString => false
  | String a s' => if ascii_dec a c then true else contains_char c s'
  end.

Definition first_char (s : string) : option ascii :=
  match s with EmptyString => None | String c _ => Some c end.

Fixpoint last_char (s : string) : option ascii :=
  match s with
  | EmptyString => None
  | String c EmptyString => Some c
  | String _ s' => last_char s'
  end.

(** [", ".join(l)] *)
Definition join (sep : string) (l : list string) : string := String.concat sep l.

(** Vocabulary for statements: every character of [s] is white space;
    [s] does not start, does not end, with white space. *)
Fixpoint all_space (s : string) : bool :=
  match s with
  | EmptyString => true
  | String c s' => is_space c && all_space s'
  end.

Definition no_leading_space (s : string) : Prop :=
  forall c, first_char s = Some c -> is_space c = false.

Definition no_trailing_space (s : string) : Prop :=
  forall c, last_char s = Some c -> is_space c = false.

(** [s[n:]] *)
Fixpoint drop (n : nat) (s : string) : string :=
  match n, s with
  | S n', String _ s' => drop n' s'
  | _, _ => s
  end.

(** [s[:k]] and [s[j:]] for any integer: a negative index counts from the
    end, and an index beyond either end is the end. *)
Definition slice_to (s : string) (k : Z) : string :=
  let len := Z.of_nat (String.length s) in
  take (Z.to_nat (if (k <? 0)%Z then Z.max (k + len) 0 else k)) s.

Definition slice_from (s : string) (j : Z) : string :=
  let len := Z.of_nat (String.length s) in
  drop (Z.to_nat (if (j <? 0)%Z then Z.max (j + len) 0 else j)) s.

(** [s.split(sep)] for a separator of one character: the pieces between
    the separators, empty ones included. *)
Fixpoint split (sep : ascii) (s : string) : list string :=
  match s with
  | EmptyString => [EmptyString]
  | String c s' =>
      if ascii_dec c sep then EmptyString :: split sep s'
      else
        match split sep s' with
        | w :: ws => String c w :: ws
        | [] => [String c EmptyString]
        end
  end.

End PyStr.

(* ================================================================== *)
(** ** Exceptions *)

(** The exception classes the modelled code raises or meets.  A message
    built by an f-string is kept as the string it evaluates to; an
    exception wrapped by [raise ... from e] keeps its cause. *)
Inductive exc : Type :=
| ValueError (msg : string)
| OSError (msg : string)              (* IsADirectoryError, PermissionError, ... *)
| UnicodeDecodeError
| TOMLDecodeError
| TypeError (msg : string)
| ValidationError (errors : list (list string * string))  (* pydantic: location, message *)
| ConfigError (msg : string)
| ConfigErrorFrom (prefix : string) (cause : exc)  (* ConfigError(f"{prefix}{e}") from e *)
| FileIOError (msg : string).

Inductive result (A : Type) : Type :=
| Ok (a : A)
| Raise (e : exc).
Arguments Ok {A} a.
Arguments Raise {A} e.

Definition bind {A B} (r : result A) (k : A -> result B) : result B :=
  match r with Ok a => k a | Raise e => Raise e end.

Notation "x <- r ;; k" := (bind r (fun x => k))
  (at level 100, r at next level, right associativity).

Definition is_ok {A} (r : result A) : bool :=
  match r with Ok _ => true | Raise _ => false end.

(** [try: r  except Exception: h] *)
Definition try_except {A} (r : result A) (h : exc -> result A) : result A :=
  match r with Ok a => Ok a | Raise e => h e end.

(* ================================================================== *)
(** ** Regular expressions of [re]

    [re] is a backtracking matcher: a greedy repetition takes as many
    characters as it can and gives them back one at a time while the rest
    of the pattern fails.  The patterns of the source are written with the
    combinators below, each taking the continuation that matches the rest
    of the pattern. *)

Module Re.

  Section Combinators.
    Context {A : Type}.

(** [cls*] with the matched text and the remaining input handed on. *)
Fixpoint star (cls : ascii -> bool) (s : string)
    (k : string -> string -> option A) : option A :=
  match s with
  | EmptyString => k EmptyString EmptyString
  | String c s' =>
      if cls c then
        match star cls s' (fun m r => k (String c m) r) with
        | Some a => Some a
        | None => k EmptyString s
        end
      else k EmptyString s
  end.

(** [cls+] *)
Definition plus (cls : ascii -> bool) (s : string)
    (k : string -> string -> option A) : option A :=
  match s with
  | EmptyString => None
  | String c s' =>
      if cls c then star cls s' (fun m r => k (String c m) r) else None
  end.

(** a literal *)
Definition lit (p : string) (s : string) (k : string -> option A) : option A :=
  match PyStr.drop_prefix p s with
  | Some r => k r
  | None => None
  end.

(** [p?] for a literal [p], greedy *)
Definition opt_lit (p : string) (s : string) (k : string -> option A) : option A :=
  match lit p s k with
  | Some a => Some a
  | None => k s
  end.

(** [re.search]: the match at the leftmost position that has one. *)
Fixpoint search (m : string -> option A) (s : string) : option A :=
  match m s with
  | Some a => Some a
  | None =>
      match s with
      | EmptyString => None
      | String _ s' => search m s'
      end
  end.
  End Combinators.

(** [re.sub(pattern, repl, s)] with a function [repl]: the input is
    scanned left to right; at a position where the pattern matches, the
    replacement of the match is emitted and the scan resumes after the
    match ([skip] counts the characters of the match still to pass);
    elsewhere the character is copied.  The text a replacement returns
    is not scanned again.  [m] gives the groups and the input left after
    the match; the patterns used here never match the empty string. *)
Fixpoint sub_from {G} (m : string -> option (G * string))
    (repl : G -> result string) (skip : nat) (s : string) : result string :=
  match s with
  | EmptyString => Ok EmptyString
  | String c s' =>
      match skip with
      | S n => sub_from m repl n s'
      | O =>
          match m s with
          | Some (g, rest) =>
              v <- repl g ;;
              r <- sub_from m repl (String.length s' - String.length rest) s' ;;
              Ok (v +:+ r)
          | None =>
              r <- sub_from m repl 0 s' ;;
              Ok (String c r)
          end
      end
  end.

Definition sub {G} (m : string -> option (G * string))
    (repl : G -> result string) (s : string) : result string :=
  sub_from m repl 0 s.

End Re.

(* ================================================================== *)
(** ** Raw configuration data

    What [tomllib.load] returns and [model_dump] produces: a tree of
    dicts with scalar leaves.  A Python dict keeps insertion order and has
    unique keys; it is an association list here, read by first match. *)

Inductive value : Type :=
| VNone
| VBool (b : bool)
| VInt (z : Z)
| VStr (s : string)
| VOther (repr : string)          (* a float or a date-time, kept opaque *)
| VList (l : list value)
| VDict (d : list (string * value)).

Abbreviation dict := (list (string * value)).

Fixpoint dict_get (d : dict) (k : string) : option value :=
  match d with
  | [] => None
  | (k', v) :: d' => if string_dec k' k then Some v else dict_get d' k
  end.

Definition dict_keys (d : dict) : list string := map fst d.

(* ================================================================== *)
(** ** src/ax/config/schema.py *)

(** [arize.Region.list_regions()]: the region identifiers of the SDK, a
    table outside this repository. *)
Class Region := { list_regions : list string }.

Inductive int_or_str := IS_int (z : Z) | IS_str (s : string).   (* int | str *)
Inductive bool_or_str := BS_bool (b : bool) | BS_str (s : string). (* bool | str *)
Inductive output_format := table | json | csv | parquet.

(** pydantic validates a union or a [bool] field in two passes: an input
    of exactly one member type is taken as it is; any other input goes
    through the library's lax coercions, which are outside this
    repository and taken as given. *)
Class PydanticLax := {
  lax_int_or_str : value -> option int_or_str;
  lax_bool_or_str : value -> option bool_or_str;
  lax_bool : value -> option bool
}.

Module Schema.

Record ProfileConfig := { name : string }.

Record AuthConfig := { api_key : string }.

Record RoutingConfig := {
    region : string;
    single_host : string;
    single_port : string;
    base_domain : string;
    api_host : string;
    api_scheme : string;
    otlp_host : string;
    otlp_scheme : string;
    flight_host : string;
    flight_port : string;
    flight_scheme : string
  }.

Record TransportConfig := {
    stream_max_workers : int_or_str;
    stream_max_queue_bound : int_or_str;
    pyarrow_max_chunksize : int_or_str;
    max_http_payload_size_mb : int_or_str
  }.

Record SecurityConfig := { request_verify : bool_or_str }.

Record StorageConfig := { directory : string; cache_enabled : bool }.

Record OutputConfig := { format : output_format }.

Record Config := {
    profile : ProfileConfig;
    auth : AuthConfig;
    routing : RoutingConfig;
    transport : TransportConfig;
    security : SecurityConfig;
    storage : StorageConfig;
    output : OutputConfig
  }.

  (** *** Field defaults *)

Definition ProfileConfig_default : ProfileConfig := {| name := "default" |}.

Definition RoutingConfig_default : RoutingConfig :=
  {| region := ""; single_host := ""; single_port := ""; base_domain := "";
     api_host := "api.arize.com"; api_scheme := "https";
     otlp_host := "otlp.arize.com"; otlp_scheme := "https";
     flight_host := "flight.arize.com"; flight_port := "443";
     flight_scheme := "grpc+tls" |}.

Definition TransportConfig_default : TransportConfig :=
  {| stream_max_workers := IS_int 8;
     stream_max_queue_bound := IS_int 5000;
     pyarrow_max_chunksize := IS_int 10000;
     max_http_payload_size_mb := IS_int 8 |}.

Definition SecurityConfig_default : SecurityConfig :=
  {| request_verify := BS_bool true |}.

Definition StorageConfig_default : StorageConfig :=
  {| directory := "~/.arize"; cache_enabled := true |}.

Definition OutputConfig_default : OutputConfig := {| format := table |}.

  (** *** Field and model validators *)

(** [AuthConfig.validate_api_key] *)
Definition validate_api_key (v : string) : result string :=
  if negb (PyStr.truthy v) || negb (PyStr.truthy (PyStr.strip v))
  then Raise (ValueError "api_key cannot be empty")
  else Ok (PyStr.strip v).

(** [RoutingConfig.validate_region] *)
Definition validate_region `{Region} (v : string) : result string :=
  if string_dec v "" then Ok v
  else if PyStr.startswith v "${" && PyStr.endswith v "}" then Ok v
  else
    let valid_regions := list_regions in
    if negb (bool_decide (v ∈ valid_regions))
    then Raise (ValueError
           ("Invalid region: " +:+ v +:+ ". Must be empty string or one of: "
            +:+ PyStr.join ", " valid_regions))
    else Ok v.

Definition b2n (b : bool) : nat := if b then 1 else 0.

(** [RoutingConfig.validate_mutually_exclusive] *)
Definition validate_mutually_exclusive (self : RoutingConfig) : result RoutingConfig :=
  let has_region := PyStr.truthy (region self) in
  let has_single :=
    PyStr.truthy (single_host self) || PyStr.truthy (single_port self) in
  let has_base_domain := PyStr.truthy (base_domain self) in
  let active_count := b2n has_region + b2n has_single + b2n has_base_domain in
  if 1 <? active_count
  then Raise (ValueError
         "Only one routing option allowed: region, single_host/port, or base_domain")
  else Ok self.

  (** *** Model construction from a raw dict (keyword arguments)

      pydantic validates every field, collects the errors of all of them
      and raises one [ValidationError]; a model validator of mode "after"
      runs only when all fields passed.  A default is used without being
      validated.  Only [Config] forbids unknown keys. *)

Definition verr : Type := list string * string.      (* location, message *)
Definition vres (A : Type) : Type := list verr + A.  (* errors or the value *)

Definition vap {A B} (f : vres (A -> B)) (x : vres A) : vres B :=
  match f, x with
  | inr g, inr a => inr (g a)
  | inl e, inr _ => inl e
  | inr _, inl e => inl e
  | inl e1, inl e2 => inl (e1 ++ e2)
  end.
  Notation "f <*> x" := (vap f x) (at level 50, left associativity).

Definition at_loc {A} (sec : string) (x : vres A) : vres A :=
  match x with
  | inl es => inl (map (fun e : verr => (sec :: fst e, snd e)) es)
  | inr a => inr a
  end.

(** the outcome of a field validator as pydantic reports it *)
Definition run_validator {A} (k : string) (r : result A) : vres A :=
  match r with
  | Ok a => inr a
  | Raise (ValueError m) => inl [([k], "Value error, " +:+ m)]
  | Raise _ => inl [([k], "error")]
  end.

Definition required {A} (k : string) : vres A := inl [([k], "Field required")].

Definition str_field (d : dict) (k : string) (default : option string)
    (validator : string -> result string) : vres string :=
  match dict_get d k with
  | None => match default with Some s => inr s | None => required k end
  | Some (VStr s) => run_validator k (validator s)
  | Some _ => inl [([k], "Input should be a valid string")]
  end.

  Section Fields.
    Context `{PydanticLax}.

Definition int_or_str_field (d : dict) (k : string) (default : int_or_str)
    : vres int_or_str :=
  match dict_get d k with
  | None => inr default
  | Some (VInt z) => inr (IS_int z)
  | Some (VStr s) => inr (IS_str s)
  | Some v =>
      match lax_int_or_str v with
      | Some x => inr x
      | None => inl [([k], "Input should be a valid integer or string")]
      end
  end.

Definition bool_or_str_field (d : dict) (k : string) (default : bool_or_str)
    : vres bool_or_str :=
  match dict_get d k with
  | None => inr default
  | Some (VBool b) => inr (BS_bool b)
  | Some (VStr s) => inr (BS_str s)
  | Some v =>
      match lax_bool_or_str v with
      | Some x => inr x
      | None => inl [([k], "Input should be a valid boolean or string")]
      end
  end.

Definition bool_field (d : dict) (k : string) (default : bool) : vres bool :=
  match dict_get d k with
  | None => inr default
  | Some (VBool b) => inr b
  | Some v =>
      match lax_bool v with
      | Some b => inr b
      | None => inl [([k], "Input should be a valid boolean")]
      end
  end.
  End Fields.

Definition format_of_string (s : string) : option output_format :=
  if string_dec s "table" then Some table
  else if string_dec s "json" then Some json
  else if string_dec s "csv" then Some csv
  else if string_dec s "parquet" then Some parquet
  else None.

Definition string_of_format (f : output_format) : string :=
  match f with
  | table => "table" | json => "json" | csv => "csv" | parquet => "parquet"
  end.

Definition format_field (d : dict) (k : string) (default : output_format)
    : vres output_format :=
  let bad := inl [([k], "Input should be 'table', 'json', 'csv' or 'parquet'")] in
  match dict_get d k with
  | None => inr default
  | Some (VStr s) => match format_of_string s with Some f => inr f | None => bad end
  | Some _ => bad
  end.

Definition model_field {M} (data : dict) (k : string) (default : option M)
    (validate : dict -> vres M) : vres M :=
  match dict_get data k with
  | None => match default with Some m => inr m | None => required k end
  | Some (VDict d) => at_loc k (validate d)
  | Some _ => inl [([k], "Input should be a valid dictionary or instance")]
  end.

Definition ProfileConfig_validate (d : dict) : vres ProfileConfig :=
  inr Build_ProfileConfig <*> str_field d "name" (Some "default") Ok.

Definition AuthConfig_validate (d : dict) : vres AuthConfig :=
  inr Build_AuthConfig <*> str_field d "api_key" None validate_api_key.

  Section Models.
    Context `{Region} `{PydanticLax}.

Definition RoutingConfig_validate (d : dict) : vres RoutingConfig :=
  let fields :=
    inr Build_RoutingConfig
      <*> str_field d "region" (Some "") validate_region
      <*> str_field d "single_host" (Some "") Ok
      <*> str_field d "single_port" (Some "") Ok
      <*> str_field d "base_domain" (Some "") Ok
      <*> str_field d "api_host" (Some "api.arize.com") Ok
      <*> str_field d "api_scheme" (Some "https") Ok
      <*> str_field d "otlp_host" (Some "otlp.arize.com") Ok
      <*> str_field d "otlp_scheme" (Some "https") Ok
      <*> str_field d "flight_host" (Some "flight.arize.com") Ok
      <*> str_field d "flight_port" (Some "443") Ok
      <*> str_field d "flight_scheme" (Some "grpc+tls") Ok in
  match fields with
  | inl es => inl es
  | inr self =>
      match validate_mutually_exclusive self with
      | Ok self' => inr self'
      | Raise (ValueError m) => inl [([], "Value error, " +:+ m)]
      | Raise _ => inl [([], "error")]
      end
  end.

Definition TransportConfig_validate (d : dict) : vres TransportConfig :=
  inr Build_TransportConfig
    <*> int_or_str_field d "stream_max_workers" (IS_int 8)
    <*> int_or_str_field d "stream_max_queue_bound" (IS_int 5000)
    <*> int_or_str_field d "pyarrow_max_chunksize" (IS_int 10000)
    <*> int_or_str_field d "max_http_payload_size_mb" (IS_int 8).

Definition SecurityConfig_validate (d : dict) : vres SecurityConfig :=
  inr Build_SecurityConfig <*> bool_or_str_field d "request_verify" (BS_bool true).

Definition StorageConfig_validate (d : dict) : vres StorageConfig :=
  inr Build_StorageConfig
    <*> str_field d "directory" (Some "~/.arize") Ok
    <*> bool_field d "cache_enabled" true.

Definition OutputConfig_validate (d : dict) : vres OutputConfig :=
  inr Build_OutputConfig <*> format_field d "format" table.

Definition Config_fields : list string :=
  ["profile"; "auth"; "routing"; "transport"; "security"; "storage"; "output"].

(** [model_config = {"extra": "forbid"}] *)
Definition extra_forbidden (data : dict) : vres unit :=
  match filter (fun k => bool_decide (k ∉ Config_fields)) (dict_keys data) with
  | [] => inr tt
  | ks => inl (map (fun k => ([k], "Extra inputs are not permitted")) ks)
  end.

(** constructing [Config] from the parsed file contents *)
Definition Config_validate (data : dict) : result Config :=
  let r :=
    inr (fun p a r t s st o (_ : unit) => Build_Config p a r t s st o)
      <*> model_field data "profile" (Some ProfileConfig_default) ProfileConfig_validate
      <*> model_field data "auth" None AuthConfig_validate
      <*> model_field data "routing" (Some RoutingConfig_default) RoutingConfig_validate
      <*> model_field data "transport" (Some TransportConfig_default) TransportConfig_validate
      <*> model_field data "security" (Some SecurityConfig_default) SecurityConfig_validate
      <*> model_field data "storage" (Some StorageConfig_default) StorageConfig_validate
      <*> model_field data "output" (Some OutputConfig_default) OutputConfig_validate
      <*> extra_forbidden data in
  match r with
  | inl es => Raise (ValidationError es)
  | inr c => Ok c
  end.

(** A configuration that validation can have produced: every validator
    accepts its field and leaves it as it is. *)
Definition Config_valid (c : Config) : Prop :=
  validate_api_key (api_key (auth c)) = Ok (api_key (auth c))
  /\ validate_region (region (routing c)) = Ok (region (routing c))
  /\ validate_mutually_exclusive (routing c) = Ok (routing c).
  End Models.

  (** *** [model_dump(mode="json", exclude_none=True)]

      No field of the models is optional, so nothing is [None] and nothing
      is excluded; fields come in declaration order. *)

Definition dump_int_or_str (x : int_or_str) : value :=
  match x with IS_int z => VInt z | IS_str s => VStr s end.

Definition dump_bool_or_str (x : bool_or_str) : value :=
  match x with BS_bool b => VBool b | BS_str s => VStr s end.

Definition RoutingConfig_dump (r : RoutingConfig) : dict :=
  [("region", VStr (region r)); ("single_host", VStr (single_host r));
   ("single_port", VStr (single_port r)); ("base_domain", VStr (base_domain r));
   ("api_host", VStr (api_host r)); ("api_scheme", VStr (api_scheme r));
   ("otlp_host", VStr (otlp_host r)); ("otlp_scheme", VStr (otlp_scheme r));
   ("flight_host", VStr (flight_host r)); ("flight_port", VStr (flight_port r));
   ("flight_scheme", VStr (flight_scheme r))].

Definition TransportConfig_dump (t : TransportConfig) : dict :=
  [("stream_max_workers", dump_int_or_str (stream_max_workers t));
   ("stream_max_queue_bound", dump_int_or_str (stream_max_queue_bound t));
   ("pyarrow_max_chunksize", dump_int_or_str (pyarrow_max_chunksize t));
   ("max_http_payload_size_mb", dump_int_or_str (max_http_payload_size_mb t))].

Definition model_dump (c : Config) : dict :=
  [("profile", VDict [("name", VStr (name (profile c)))]);
   ("auth", VDict [("api_key", VStr (api_key (auth c)))]);
   ("routing", VDict (RoutingConfig_dump (routing c)));
   ("transport", VDict (TransportConfig_dump (transport c)));
   ("security", VDict [("request_verify", dump_bool_or_str (request_verify (security c)))]);
   ("storage", VDict [("directory", VStr (directory (storage c)));
                      ("cache_enabled", VBool (cache_enabled (storage c)))]);
   ("output", VDict [("format", VStr (string_of_format (format (output c))))])].

  (** *** [Config.to_sdk_config]

      The arguments [SDKConfiguration] is called with.  The [Region]
      enumeration of the SDK and the builtin [int] on a string are outside
      this repository: [Region_call v] is [Region(v)] and [int_of v] is
      [int(v)], each with the [ValueError] it may raise. *)

Class SDK (region : Type) := {
  Region_call : string -> result region;
  Region_UNSET : region;
  int_of : string -> result Z
}.

Record SDKConfiguration (region : Type) := {
    sdk_api_key : string;
    sdk_region : region;
    sdk_single_host : string;
    sdk_single_port : Z;
    sdk_base_domain : string;
    sdk_api_host : string;
    sdk_api_scheme : string;
    sdk_otlp_host : string;
    sdk_otlp_scheme : string;
    sdk_flight_host : string;
    sdk_flight_port : Z;
    sdk_flight_scheme : string;
    sdk_stream_max_workers : Z;
    sdk_stream_max_queue_bound : Z;
    sdk_pyarrow_max_chunksize : Z;
    sdk_max_http_payload_size_mb : Z;
    sdk_request_verify : bool
  }.
  Arguments Build_SDKConfiguration {region}.
  Arguments sdk_api_key {region} s.
  Arguments sdk_region {region} s.
  Arguments sdk_single_host {region} s.
  Arguments sdk_single_port {region} s.
  Arguments sdk_base_domain {region} s.
  Arguments sdk_api_host {region} s.
  Arguments sdk_api_scheme {region} s.
  Arguments sdk_otlp_host {region} s.
  Arguments sdk_otlp_scheme {region} s.
  Arguments sdk_flight_host {region} s.
  Arguments sdk_flight_port {region} s.
  Arguments sdk_flight_scheme {region} s.
  Arguments sdk_stream_max_workers {region} s.
  Arguments sdk_stream_max_queue_bound {region} s.
  Arguments sdk_pyarrow_max_chunksize {region} s.
  Arguments sdk_max_http_payload_size_mb {region} s.
  Arguments sdk_request_verify {region} s.

  Section ToSdk.
    Context {region : Type} `{SDK region}.

(** [int(x)] on an [int | str] *)
Definition int_int_or_str (x : int_or_str) : result Z :=
  match x with
  | IS_int z => Ok z
  | IS_str s => int_of s
  end.

(** [bool(x)] on a [bool | str] *)
Definition bool_bool_or_str (x : bool_or_str) : bool :=
  match x with
  | BS_bool b => b
  | BS_str s => PyStr.truthy s
  end.

(** [Config.to_sdk_config] *)
Definition to_sdk_config (self : Config) : result (SDKConfiguration region) :=
  region <-
    (if PyStr.truthy (Schema.region (routing self))
     then Region_call (Schema.region (routing self))
     else Ok Region_UNSET) ;;
  single_port <-
    (if PyStr.truthy (single_port (routing self)) then int_of (single_port (routing self))
     else Ok 0%Z) ;;
  flight_port <-
    (if PyStr.truthy (flight_port (routing self)) then int_of (flight_port (routing self))
     else Ok 0%Z) ;;
  stream_max_workers <- int_int_or_str (stream_max_workers (transport self)) ;;
  stream_max_queue_bound <- int_int_or_str (stream_max_queue_bound (transport self)) ;;
  pyarrow_max_chunksize <- int_int_or_str (pyarrow_max_chunksize (transport self)) ;;
  max_http_payload_size_mb <- int_int_or_str (max_http_payload_size_mb (transport self)) ;;
  Ok {| sdk_api_key := api_key (auth self);
        sdk_region := region;
        sdk_single_host := single_host (routing self);
        sdk_single_port := single_port;
        sdk_base_domain := base_domain (routing self);
        sdk_api_host := api_host (routing self);
        sdk_api_scheme := api_scheme (routing self);
        sdk_otlp_host := otlp_host (routing self);
        sdk_otlp_scheme := otlp_scheme (routing self);
        sdk_flight_host := flight_host (routing self);
        sdk_flight_port := flight_port;
        sdk_flight_scheme := flight_scheme (routing self);
        sdk_stream_max_workers := stream_max_workers;
        sdk_stream_max_queue_bound := stream_max_queue_bound;
        sdk_pyarrow_max_chunksize := pyarrow_max_chunksize;
        sdk_max_http_payload_size_mb := max_http_payload_size_mb;
        sdk_request_verify := bool_bool_or_str (request_verify (security self)) |}.
  End ToSdk.

End Schema.

(* ================================================================== *)
(** ** src/ax/config/manager.py *)

(** The two codecs the store relies on, both outside this repository:
    text decoding of [Path.read_text] / [Path.write_text] and the TOML
    reader and writer ([tomllib], [tomli_w]) over file contents [bytes]. *)
Class Codec (bytes : Type) := {
  decode_text : bytes -> option string;   (* None: UnicodeDecodeError *)
  encode_text : string -> bytes;
  toml_load : bytes -> option dict;       (* None: TOMLDecodeError *)
  toml_dump : dict -> option bytes        (* None: TypeError, a value TOML lacks *)
}.

Module Manager.
  Import Schema.

  (** *** Scalar coercion *)

(** [_to_bool] *)
Definition _to_bool (value : bool_or_str) : bool :=
  match value with
  | BS_bool b => b
  | BS_str s =>
      bool_decide (PyStr.lower (PyStr.strip s) ∈ ["1"; "true"; "yes"; "on"])
  end.

  (** *** Dropping empty values *)

(** [v != "" and v is not None] *)
Definition not_empty (v : value) : bool :=
  match v with
  | VNone => false
  | VStr s => PyStr.truthy s
  | _ => true
  end.

(** [_remove_empty_values] *)
Fixpoint _remove_empty_values (obj : value) : value :=
  match obj with
  | VDict d =>
      VDict ((fix items (l : dict) : dict :=
                match l with
                | [] => []
                | (k, v) :: l' =>
                    if not_empty v then (k, _remove_empty_values v) :: items l'
                    else items l'
                end) d)
  | _ => obj
  end.

(** the dict comprehension of [_remove_empty_values], on the items *)
Fixpoint remove_empty_items (l : dict) : dict :=
  match l with
  | [] => []
  | (k, v) :: l' =>
      if not_empty v then (k, _remove_empty_values v) :: remove_empty_items l'
      else remove_empty_items l'
  end.

  (** *** Environment variable expansion *)

  Section Expand.
    (** [os.environ] *)
    Variable environ : gmap string string.

Definition is_name_char (c : ascii) : bool :=
  negb (bool_decide (c = "}"%char)) && negb (bool_decide (c = ":"%char)).
Definition is_default_char (c : ascii) : bool :=
  negb (bool_decide (c = "}"%char)).

(** The pattern of [_expand_env_var] tried at the head of [s]: a dollar
    sign and an opening brace; group 1, one or more characters other
    than the closing brace and the colon; optionally a colon and group
    2, any number of characters other than the closing brace; a closing
    brace.  The result has group 1, group 2 when the optional part took
    part in the match, and the input after the match. *)
Definition pattern (s : string) : option ((string * option string) * string) :=
  Re.lit "${" s (fun s1 =>
  Re.plus is_name_char s1 (fun g1 s2 =>
    match
      Re.lit ":" s2 (fun s3 =>
      Re.star is_default_char s3 (fun g2 s4 =>
      Re.lit "}" s4 (fun rest => Some ((g1, Some g2), rest))))
    with
    | Some m => Some m
    | None => Re.lit "}" s2 (fun rest => Some ((g1, None), rest))
    end)).

(** the nested function [replace_var] *)
Definition replace_var (m : string * option string) : result string :=
  let var_name := fst m in
  let default_value := snd m in
  match environ !! var_name with
  | Some env_value => Ok env_value
  | None =>
      match default_value with
      | Some d => Ok d
      | None =>
          Raise (ValueError ("Environment variable " +:+ var_name
                             +:+ " is not set and no default provided"))
      end
  end.

(** [_expand_env_var] *)
Definition _expand_env_var (value : string) : result string :=
  Re.sub pattern replace_var value.

(** [_expand_config_dict]: what the loop does with one value, a dict
    being expanded by the recursive call, and the loop over the items *)
Fixpoint expand_value (v : value) : result value :=
  match v with
  | VDict d =>
      d' <- (fix items (l : dict) : result dict :=
               match l with
               | [] => Ok []
               | (key, value) :: l' =>
                   value' <- expand_value value ;;
                   rest <- items l' ;;
                   Ok ((key, value') :: rest)
               end) d ;;
      Ok (VDict d')
  | VStr s => s' <- _expand_env_var s ;; Ok (VStr s')
  | _ => Ok v
  end.

Fixpoint _expand_config_dict (data : dict) : result dict :=
  match data with
  | [] => Ok []
  | (key, value) :: data' =>
      value' <- expand_value value ;;
      rest <- _expand_config_dict data' ;;
      Ok ((key, value') :: rest)
  end.
  End Expand.

  (** *** The profile store on disk

      The state is the part of the file system [ConfigManager] touches:
      [CONFIG_DIR/.active_profile], [CONFIG_DIR/config.toml] and the entries
      of [CONFIG_DIR/profiles], by file name.  An entry is a directory or a
      regular file, readable or not.  Not modelled: write permissions (a
      regular file can always be replaced or unlinked, a missing one
      created), a [CONFIG_DIR] that cannot be searched or created, and a
      [profiles] that is not a directory.  A profile name is a file name
      component: a name with a path separator addresses another directory
      and is outside the model (see [simple_name]). *)

Inductive node (bytes : Type) : Type :=
  | Dir
  | File (readable : bool) (data : bytes).
  Arguments Dir {bytes}.
  Arguments File {bytes} readable data.

Record store (bytes : Type) : Type := {
    active_profile_file : option (node bytes);
    default_config_file : option (node bytes);
    profiles_dir : option (gmap string (node bytes))   (* None: no such directory *)
  }.
  Arguments active_profile_file {bytes} s.
  Arguments default_config_file {bytes} s.
  Arguments profiles_dir {bytes} s.
  Arguments Build_store {bytes} _ _ _.

Inductive path : Type :=
  | ACTIVE_PROFILE_FILE
  | DEFAULT_CONFIG_FILE
  | InProfilesDir (filename : string).     (* PROFILES_DIR / filename *)

Definition simple_name (profile : string) : Prop :=
  PyStr.contains_char "/"%char profile = false.

(** [Path.stem]: the file name without its last suffix; a leading or a
    final dot starts no suffix. *)
Definition stem (fname : string) : string :=
  match PyStr.rfind "."%char fname with
  | Some i =>
      if (0 <? i) && (i <? String.length fname - 1) then PyStr.take i fname
      else fname
  | None => fname
  end.

  Section Store.
    Context {bytes : Type} `{Codec bytes}.

Definition lookup_path (st : store bytes) (p : path) : option (node bytes) :=
  match p with
  | ACTIVE_PROFILE_FILE => active_profile_file st
  | DEFAULT_CONFIG_FILE => default_config_file st
  | InProfilesDir f =>
      match profiles_dir st with
      | Some entries => entries !! f
      | None => None
      end
  end.

(** [Path.exists] *)
Definition path_exists (st : store bytes) (p : path) : bool :=
  bool_decide (is_Some (lookup_path st p)).

Definition set_path (st : store bytes) (p : path) (n : option (node bytes))
    : store bytes :=
  match p with
  | ACTIVE_PROFILE_FILE =>
      Build_store n (default_config_file st) (profiles_dir st)
  | DEFAULT_CONFIG_FILE =>
      Build_store (active_profile_file st) n (profiles_dir st)
  | InProfilesDir f =>
      Build_store (active_profile_file st) (default_config_file st)
        (match profiles_dir st with
         | Some entries => Some (partial_alter (fun _ => n) f entries)
         | None => None
         end)
  end.

(** [open(p, "rb").read()] *)
Definition read_bytes (st : store bytes) (p : path) : result bytes :=
  match lookup_path st p with
  | None => Raise (OSError "FileNotFoundError")
  | Some Dir => Raise (OSError "IsADirectoryError")
  | Some (File false _) => Raise (OSError "PermissionError")
  | Some (File true data) => Ok data
  end.

(** [Path.read_text] *)
Definition read_text (st : store bytes) (p : path) : result string :=
  data <- read_bytes st p ;;
  match decode_text data with
  | Some text => Ok text
  | None => Raise UnicodeDecodeError
  end.

(** [open(p, "wb").write(data)]: a new file is readable, an existing one
    keeps its mode. *)
Definition write_bytes (st : store bytes) (p : path) (data : bytes)
    : result (store bytes) :=
  match lookup_path st p with
  | Some Dir => Raise (OSError "IsADirectoryError")
  | Some (File r _) => Ok (set_path st p (Some (File r data)))
  | None =>
      match p, profiles_dir st with
      | InProfilesDir _, None => Raise (OSError "FileNotFoundError")
      | _, _ => Ok (set_path st p (Some (File true data)))
      end
  end.

(** [open(p, "wb")]: what opening for writing can raise *)
Definition open_wb (st : store bytes) (p : path) : result unit :=
  match lookup_path st p with
  | Some Dir => Raise (OSError "IsADirectoryError")
  | Some (File _ _) => Ok tt
  | None =>
      match p, profiles_dir st with
      | InProfilesDir _, None => Raise (OSError "FileNotFoundError")
      | _, _ => Ok tt
      end
  end.

(** [Path.unlink] *)
Definition unlink (st : store bytes) (p : path) : result (store bytes) :=
  match lookup_path st p with
  | None => Raise (OSError "FileNotFoundError")
  | Some Dir => Raise (OSError "IsADirectoryError")
  | Some (File _ _) => Ok (set_path st p None)
  end.

(** [ConfigManager._get_config_path] *)
Definition _get_config_path (profile : string) : path :=
  if string_dec profile "default" then DEFAULT_CONFIG_FILE
  else InProfilesDir (profile +:+ ".toml").

(** [PROFILES_DIR.glob("*.toml")]: the entries whose name ends in
    [.toml]; hidden files are matched like any other. *)
Definition glob_toml (st : store bytes) : list string :=
  match profiles_dir st with
  | Some entries =>
      filter (fun f => PyStr.endswith f ".toml" = true) (map_to_list entries).*1
  | None => []
  end.

(** [sorted] on strings: by code points *)
Definition sorted (l : list string) : list string := merge_sort String.le l.

(** [ConfigManager.list_profiles] *)
Definition list_profiles (st : store bytes) : list string :=
  let profiles :=
    if path_exists st DEFAULT_CONFIG_FILE then ["default"] else [] in
  let profiles :=
    profiles ++
    (if bool_decide (is_Some (profiles_dir st))
     then stem <$> glob_toml st else []) in
  sorted profiles.

(** [ConfigManager.exists] *)
Definition exists_ (st : store bytes) (profile : string) : bool :=
  path_exists st (_get_config_path profile).

(** [ConfigManager.get_active_profile] *)
Definition get_active_profile (st : store bytes) : result string :=
  if path_exists st ACTIVE_PROFILE_FILE then
    try_except
      (text <- read_text st ACTIVE_PROFILE_FILE ;; Ok (PyStr.strip text))
      (fun _ => Ok "default")
  else Ok "default".


(** [ConfigManager.delete_profile] *)
Definition delete_profile (st : store bytes) (profile : string)
    : result (store bytes) :=
  if string_dec profile "default" then
    Raise (ConfigError "Cannot delete the default profile")
  else
    active <- get_active_profile st ;;
    if string_dec profile active then
      Raise (ConfigError
        ("Cannot delete active profile '" +:+ profile
         +:+ "'. Switch to another profile first."))
    else
      let config_path := _get_config_path profile in
      if path_exists st config_path then unlink st config_path
      else Ok st.

(** [ConfigManager._ensure_dirs] *)
Definition _ensure_dirs (st : store bytes) : store bytes :=
  Build_store (active_profile_file st) (default_config_file st)
    (Some (default ∅ (profiles_dir st))).

    Section Load.
      Context `{Region} `{PydanticLax}.
      Variable environ : gmap string string.

(** [ConfigManager.load] *)
Definition load (st : store bytes) (profile : string)
          (expand_env_vars : bool) : result Config :=
        profile <- (if negb (PyStr.truthy profile) then get_active_profile st
                    else Ok profile) ;;
        let config_path := _get_config_path profile in
        if negb (path_exists st config_path) then
          Raise (ConfigError
            ("Profile '" +:+ profile +:+ "' not found.

Run 'ax config init' to create a configuration.
Or specify a different profile with --profile"))
        else
          try_except
            (raw <- read_bytes st config_path ;;
             data <- match toml_load raw with
                     | Some d => Ok d
                     | None => Raise TOMLDecodeError
                     end ;;
             data <- (if expand_env_vars then _expand_config_dict environ data
                      else Ok data) ;;
             Config_validate data)
            (fun e =>
               match e with
               | ValidationError _ => Raise (ConfigErrorFrom "Invalid config file: " e)
               | _ => Raise (ConfigErrorFrom "Failed to load config: " e)
               end).
    End Load.

Definition with_profile_name (config : Config) (profile : string) : Config :=
  Build_Config {| name := profile |} (auth config) (routing config)
    (transport config) (security config) (storage config) (output config).

(** [ConfigManager.save].  The configuration object is mutated in place
    ([config.profile.name = profile]); the caller's object is the one
    returned here. *)
Definition save (st : store bytes) (config : Config) (profile : string)
    : result (Config * store bytes) :=
  let st := _ensure_dirs st in
  let config_path := _get_config_path profile in
  try_except
    (let config := with_profile_name config profile in
     let data := model_dump config in
     let data := _remove_empty_values (VDict data) in
     _ <- open_wb st config_path ;;
     raw <- match data with
            | VDict d =>
                match toml_dump d with
                | Some raw => Ok raw
                | None => Raise (TypeError "Object is not TOML serializable")
                end
            | _ => Raise (TypeError "Object is not TOML serializable")
            end ;;
     st' <- write_bytes st config_path raw ;;
     Ok (config, st'))
    (fun e => Raise (ConfigErrorFrom "Failed to save config: " e)).
  End Store.

End Manager.

(* ================================================================== *)
(** ** src/ax/core/error_formatter.py *)

Module ErrorFormatter.

(** [grpc_to_http]: gRPC codes to HTTP status and reason *)
Definition grpc_to_http : list (Z * (Z * string)) :=
  [ (0, (200, "OK"));
    (1, (499, "Client Closed Request"));
    (2, (500, "Internal Server Error"));
    (3, (400, "Invalid Argument"));
    (4, (504, "Gateway Timeout"));
    (5, (404, "Not Found"));
    (6, (409, "Conflict"));
    (7, (403, "Permission Denied"));
    (8, (429, "Too Many Requests"));
    (9, (412, "Failed Precondition"));
    (10, (409, "Conflict"));
    (11, (400, "Out of Range"));
    (12, (501, "Not Implemented"));
    (13, (500, "Internal Server Error"));
    (14, (503, "Service Unavailable"));
    (15, (500, "Internal Server Error"));
    (16, (401, "Unauthenticated")) ]%Z.

(** [d.get(key, default)] *)
Fixpoint get {V} (d : list (Z * V)) (key : Z) (default : V) : V :=
  match d with
  | [] => default
  | (k, v) :: d' => if Z.eqb k key then v else get d' key default
  end.

Record ParsedError := {
    title : option string;
    status : option Z;
    type : option string;
    detail : option string;
    instance : option string;
    reason : option string;
    headers : option (list (string * string));
    body : option string
  }.

(** An exception as the classifier sees it: whether it is a
    [RuntimeError], its text [str(e)] and its [__cause__]. *)
Inductive exception : Type :=
  | Exception (is_runtime_error : bool) (text : string) (cause : option exception).

Definition dquote : ascii := "034"%char.

(** the pattern of the first [re.search]: the literal [with message:],
    white space, group 1 of one or more characters other than the full
    stop, an optional full stop, white space, the literal [gRPC] *)
Definition with_message_re (s : string) : option string :=
  Re.lit "with message:" s (fun s1 =>
  Re.star PyStr.is_space s1 (fun _ s2 =>
  Re.plus (fun c => negb (bool_decide (c = "."%char))) s2 (fun g s3 =>
  Re.opt_lit "." s3 (fun s4 =>
  Re.star PyStr.is_space s4 (fun _ s5 =>
  Re.lit "gRPC" s5 (fun _ => Some g)))))).

(** the pattern of the second: the literal [grpc_message:], a double
    quote, group 1 of one or more characters other than the double
    quote, a double quote *)
Definition grpc_message_re (s : string) : option string :=
  Re.lit ("grpc_message:" +:+ String dquote "") s (fun s1 =>
  Re.plus (fun c => negb (bool_decide (c = dquote))) s1 (fun g s2 =>
  Re.lit (String dquote "") s2 (fun _ => Some g))).

(** the pattern of the third: the literal [grpc_status:] and group 1 of
    one or more digits *)
Definition grpc_status_re (s : string) : option string :=
  Re.lit "grpc_status:" s (fun s1 =>
  Re.plus PyStr.is_digit s1 (fun g _ => Some g)).

(** [int(s)] on a string of decimal digits *)
Definition int_of_digits (s : string) : Z :=
  (fix go (acc : Z) (s : string) : Z :=
     match s with
     | EmptyString => acc
     | String c s' => go (10 * acc + (Z.of_N (PyStr.code c) - 48))%Z s'
     end) 0%Z s.

(** what [parse_grpc_error] builds from the text of one [RuntimeError]
    once a message matched *)
Definition parsed_from_text (error_text user_message : string) : ParsedError :=
  let grpc_status :=
    match Re.search grpc_status_re error_text with
    | Some g => int_of_digits g
    | None => (-1)%Z
    end in
  let '(http_status, reason) := get grpc_to_http grpc_status (500%Z, "Server Error") in
  {| title := None;
     status := Some http_status;
     type := None;
     detail := Some user_message;
     instance := None;
     reason := Some reason;
     headers := None;
     body := Some (if String.length error_text <? 500 then error_text
                   else PyStr.take 500 error_text +:+ "...") |}.

Definition message_match (error_text : string) : option string :=
  match Re.search with_message_re error_text with
  | Some g => Some g
  | None => Re.search grpc_message_re error_text
  end.

(** [parse_grpc_error]: the first [RuntimeError] of the cause chain whose
    text holds a message *)
Fixpoint parse_grpc_error (e : exception) : option ParsedError :=
  match e with
  | Exception is_runtime_error error_text cause =>
      let next :=
        match cause with
        | Some c => parse_grpc_error c
        | None => None
        end in
      if is_runtime_error then
        match message_match error_text with
        | Some g => Some (parsed_from_text error_text (PyStr.strip g))
        | None => next
        end
      else next
  end.

  (** *** Parsing an exception chain *)

(** The [Problem] model of the SDK, as far as it is read. *)
Record Problem := {
    problem_title : option string;
    problem_detail : option string;
    problem_type : option string;
    problem_instance : option string
  }.

(** An [ApiException] of the SDK as [parse_api_exception] reads it:
    [api_headers] is the items of the attribute [headers], [api_data] the
    attribute [data] when it is a [Problem]. *)
Record ApiException := {
    api_status : option Z;
    api_reason : option string;
    api_headers : option (list (string * string));
    api_body : option string;
    api_data : option Problem
  }.

(** An exception with its cause chain: the [ApiException] it is, when it
    is one, and what [parse_grpc_error] reads of it. *)
Inductive chained : Type :=
  | Chained (api : option ApiException) (is_runtime_error : bool) (text : string)
            (cause : option chained).

Fixpoint as_exception (e : chained) : exception :=
  match e with
  | Chained _ is_runtime_error text cause =>
      Exception is_runtime_error text
        match cause with
        | Some c => Some (as_exception c)
        | None => None
        end
  end.

(** the loop of [parse_api_exception]: the first [ApiException] of the
    chain *)
Fixpoint api_exception_of (current : chained) : option ApiException :=
  match current with
  | Chained api _ _ cause =>
      match api with
      | Some api_exception => Some api_exception
      | None =>
          match cause with
          | Some c => api_exception_of c
          | None => None
          end
      end
  end.

(** [parse_api_exception] *)
Definition parse_api_exception (exception : chained) : option ParsedError :=
  match api_exception_of exception with
  | None => None
  | Some api_exception =>
      let parsed :=
        {| title := None;
           status := api_status api_exception;
           type := None;
           detail := None;
           instance := None;
           reason := api_reason api_exception;
           headers := match api_headers api_exception with
                      | Some (kv :: h) => Some (kv :: h)
                      | _ => None
                      end;
           body := api_body api_exception |} in
      match api_data api_exception with
      | Some problem =>
          Some {| title := problem_title problem;
                  status := status parsed;
                  type := problem_type problem;
                  detail := problem_detail problem;
                  instance := problem_instance problem;
                  reason := reason parsed;
                  headers := headers parsed;
                  body := body parsed |}
      | None => Some parsed
      end
  end.

(** [parse_exception] *)
Definition parse_exception (exception : chained) : option ParsedError :=
  match parse_api_exception exception with
  | Some parsed => Some parsed
  | None =>
      match parse_grpc_error (as_exception exception) with
      | Some parsed => Some parsed
      | None => None
      end
  end.

  (** *** Formatting *)

(** the dict [suggestions] of [get_error_suggestion] *)
Definition suggestions : list (Z * string) :=
  [ (400, "Check your input parameters and try again.");
    (401, "Authentication failed. Run 'ax config init' to configure credentials.");
    (403, "You don't have permission. Check your API key or space access.");
    (404, "Resource not found. Verify the ID exists using the list command.");
    (409, "Resource already exists. Choose a different name or use the list command.");
    (422, "Validation failed. Check the error details for specific field issues.");
    (429, "Rate limit exceeded. Wait a moment and try again.");
    (500, "Server error. Try again later or contact support if the issue persists.");
    (502, "Bad gateway. The server is temporarily unavailable. Try again later.");
    (503, "Service unavailable. The server is temporarily down. Try again later.");
    (504, "Gateway timeout. The server took too long to respond. Try again later.") ]%Z.

(** [get_error_suggestion] *)
Definition get_error_suggestion (status : Z) : string := get suggestions status "".

(** truth of an optional string and of an optional integer *)
Definition truthy_str (s : option string) : bool :=
  match s with Some s => PyStr.truthy s | None => false end.

Definition truthy_int (z : option Z) : bool :=
  match z with Some z => negb (z =? 0)%Z | None => false end.

(** [str(x)] of an attribute inside an f-string *)
Definition str_int (z : option Z) : string :=
  match z with Some z => pretty z | None => "None" end.

Definition str_str (s : option string) : string :=
  match s with Some s => s | None => "None" end.

Definition newline : string := String "010"%char "".

(** [_format_clean_error]: the list [lines] it builds, and the text *)
Definition clean_error_lines (error : ParsedError) : list string :=
  let lines := [] in
  let status_line_parts := [] in
  let status_line_parts :=
    if truthy_int (status error) && truthy_str (reason error)
    then status_line_parts ++ [str_int (status error) +:+ " " +:+ str_str (reason error)]
    else status_line_parts in
  let detail_text := if truthy_str (detail error) then detail error else title error in
  let status_line_parts :=
    if truthy_str detail_text then status_line_parts ++ [str_str detail_text]
    else status_line_parts in
  let lines :=
    match status_line_parts with
    | [] => lines
    | _ => lines ++ [PyStr.join "; " status_line_parts]
    end in
  let status := if truthy_int (status error) then default 0%Z (status error) else 0%Z in
  let suggestion := get_error_suggestion status in
  let lines :=
    if PyStr.truthy suggestion
    then lines ++ [""; "  [dim]Suggestion: " +:+ suggestion +:+ "[/dim]"]
    else lines in
  lines ++ ["  [dim]Run with --verbose for technical details.[/dim]"].

Definition _format_clean_error (error : ParsedError) : string :=
  PyStr.join newline (clean_error_lines error).

(** [_format_verbose_error], section by section: the response, the
    headers, the raw body, the suggestion *)
Definition response_lines (error : ParsedError) : list string :=
  ["[bold]HTTP Response:[/bold]"]
  ++ (if truthy_int (status error) && truthy_str (reason error)
      then ["  Status: " +:+ str_int (status error) +:+ " " +:+ str_str (reason error)]
      else [])
  ++ (if truthy_str (title error) then ["  Title: " +:+ str_str (title error)] else [])
  ++ (if truthy_str (detail error) then ["  Detail: " +:+ str_str (detail error)] else [])
  ++ (if truthy_str (type error) then ["  Type: " +:+ str_str (type error)] else [])
  ++ (if truthy_str (instance error) then ["  Instance: " +:+ str_str (instance error)]
      else []).

Definition relevant_headers : list string :=
  ["content-type"; "x-request-id"; "x-trace-id"; "retry-after"].

Definition header_lines (error : ParsedError) : list string :=
  match headers error with
  | Some (kv :: h) =>
      [""; "[bold]Response Headers:[/bold]"]
      ++ flat_map
           (fun '(key, value) =>
              if bool_decide (PyStr.lower key ∈ relevant_headers)
                 || PyStr.startswith (PyStr.lower key) "x-"
              then ["  " +:+ key +:+ ": " +:+ value]
              else [])
           (kv :: h)
  | _ => []
  end.

Definition body_lines (error : ParsedError) : list string :=
  if truthy_str (body error) then
    let body := str_str (body error) in
    let body :=
      if 1000 <? String.length body then PyStr.take 1000 body +:+ "... (truncated)"
      else body in
    [""; "[bold]Raw Response Body:[/bold]"]
    ++ map (fun line => "  " +:+ line) (PyStr.split "010"%char body)
  else [].

Definition suggestion_lines (error : ParsedError) : list string :=
  let status := if truthy_int (status error) then default 0%Z (status error) else 0%Z in
  let suggestion := get_error_suggestion status in
  if PyStr.truthy suggestion then [""; "[dim]Suggestion: " +:+ suggestion +:+ "[/dim]"]
  else [].

Definition verbose_error_lines (error : ParsedError) : list string :=
  [""] ++ response_lines error ++ header_lines error ++ body_lines error
  ++ suggestion_lines error.

Definition _format_verbose_error (error : ParsedError) : string :=
  PyStr.join newline (verbose_error_lines error).

(** [format_error_message] *)
Definition format_error_message (parsed_error : ParsedError) (verbose : bool) : string :=
  if verbose then _format_verbose_error parsed_error
  else _format_clean_error parsed_error.

(** [is_verbose_mode], on the arguments of the process *)
Definition is_verbose_mode (argv : list string) : bool :=
  bool_decide ("--verbose" ∈ argv) || bool_decide ("-v" ∈ argv).

End ErrorFormatter.

(* ================================================================== *)
(** ** src/ax/core/output.py *)

(** What a formatter does once its guard has passed (rich tables, pandas,
    file writes): libraries outside this repository. *)
Class Renderer (data : Type) := {
  render_table : data -> result unit;
  render_json : data -> string -> result unit;
  render_csv : data -> string -> result unit;
  render_parquet : data -> string -> result unit
}.

Module Output.

Inductive OutputFormatter := TableFormatter | JSONFormatter | CSVFormatter | ParquetFormatter.

(** the dict [formatters] of [get_formatter] *)
Definition formatters : list (string * OutputFormatter) :=
  [("table", TableFormatter); ("json", JSONFormatter);
   ("csv", CSVFormatter); ("parquet", ParquetFormatter)].

Fixpoint formatters_get (d : list (string * OutputFormatter)) (k : string)
    : option OutputFormatter :=
  match d with
  | [] => None
  | (k', v) :: d' => if string_dec k' k then Some v else formatters_get d' k
  end.

(** [get_formatter] *)
Definition get_formatter (format_type : string) : result OutputFormatter :=
  match formatters_get formatters (PyStr.lower format_type) with
  | None =>
      Raise (ValueError ("Unsupported format: " +:+ format_type
                         +:+ ". Supported formats: "
                         +:+ PyStr.join ", " (map fst formatters)))
  | Some formatter_class => Ok formatter_class
  end.

  Section Format.
    Context {data : Type} `{Renderer data}.

(** the [format] method of each formatter class *)
Definition format (self : OutputFormatter) (d : data) (output_file : string)
    : result unit :=
  match self with
  | TableFormatter =>
      if PyStr.truthy output_file then
        Raise (FileIOError "Table format can only be output to terminal (stdout)")
      else render_table d
  | JSONFormatter => render_json d output_file
  | CSVFormatter => render_csv d output_file
  | ParquetFormatter =>
      if negb (PyStr.truthy output_file) then
        Raise (FileIOError
          "Parquet format requires an output file. Use --output to specify a file path.")
      else render_parquet d output_file
  end.

(** [output_data] *)
Definition output_data (d : data) (format_type : string) (output_file : string)
    : result unit :=
  formatter <- get_formatter format_type ;;
  format formatter d output_file.
  End Format.

End Output.

(* ================================================================== *)
(** ** src/ax/utils/file_io.py *)


Module FileIO.

(** [Path(path).name] on a POSIX path: the last component that is
    neither empty nor a single dot, if there is one. *)
Definition path_name (path : string) : string :=
  default "" (last (filter (fun x => x <> "" /\ x <> ".") (PyStr.split "/"%char path))).

(** [Path(path).suffix] (Python 3.11 to 3.13): the name from its last
    dot on; a leading or a final dot starts no suffix. *)
Definition suffix (path : string) : string :=
  let name := path_name path in
  match PyStr.rfind "."%char name with
  | Some i =>
      if (0 <? i) && (i <? String.length name - 1) then PyStr.drop i name else ""
  | None => ""
  end.

(** the dict [format_map] *)
Definition format_map : list (string * string) :=
  [(".csv", "csv"); (".json", "json"); (".jsonl", "jsonl");
   (".parquet", "parquet"); (".pq", "parquet")].

Fixpoint format_map_get (d : list (string * string)) (k : string) : option string :=
  match d with
  | [] => None
  | (k', v) :: d' => if string_dec k' k then Some v else format_map_get d' k
  end.

(** [not format_type] for the result of [format_map.get] *)
Definition found (format_type : option string) : option string :=
  match format_type with
  | Some f => if PyStr.truthy f then Some f else None
  | None => None
  end.

(** [_detect_format] *)
Definition _detect_format (path : string) : result string :=
  let suffix := PyStr.lower (suffix path) in
  let format_type := format_map_get format_map suffix in
  match found format_type with
  | None =>
      Raise (FileIOError
        ("Cannot detect format from extension: " +:+ suffix +:+ "
Supported extensions: " +:+ PyStr.join ", " (map fst format_map)))
  | Some format_type => Ok format_type
  end.

(** [parse_output_option].  [valid_formats] is the set literal of the
    four format names, as a list in the order the interpreter iterates
    it, which the language leaves open and the message shows. *)
Definition parse_output_option (valid_formats : list string) (output : string)
    : result (string * string) :=
  if bool_decide (output ∈ valid_formats) then Ok (output, "")
  else
    match _detect_format output with
    | Raise (FileIOError _) =>
        Raise (FileIOError
          ("Invalid output option: " +:+ output +:+ "
Must be either:
  - A format: " +:+ PyStr.join ", " valid_formats +:+ "
  - A file path with extension: .json, .csv, .jsonl, .parquet, .pq"))
    | Raise e => Raise e
    | Ok format_type => Ok (format_type, output)
    end.

  Section Frames.
    Context {frame : Type} `{DataFrameIO frame}.



  End Frames.

End FileIO.

(* ================================================================== *)
(** ** src/ax/utils/console.py *)

Module Console.

(** [round(n / 2)] for an integer [n]: a half goes to the even
    neighbour.  The division is in floating point and exact for an [n]
    below 2^53 in absolute value. *)
Definition round_half (n : Z) : Z :=
  let q := (n / 2)%Z in
  if Z.even n then q else if Z.even q then q else (q + 1)%Z.

(** [mask] *)
Definition mask (val : string) (num_visible : Z) : string :=
  let N := round_half num_visible in
  if (N <? Z.of_nat (String.length val))%Z
  then PyStr.slice_to val (2 + N) +:+ "..." +:+ PyStr.slice_from val (- N)
  else "***".

End Console.

(* ================================================================== *)
(** ** src/ax/core/pydantic.py

    The helpers work on what [model.model_dump()] returns: a dict whose
    values are scalars, lists and dicts, nested models being dumped to
    dicts, so that no value is a model instance. *)

Module CorePydantic.

(** [is_list_of_structured_data] *)
Definition is_list_of_structured_data (v : value) : bool :=
  match v with
  | VList (first_item :: _) =>
      match first_item with
      | VDict (_ :: _) => true
      | _ => false
      end
  | _ => false
  end.

(** [d[k] = v]: the value of a key that is there is replaced in place, a
    new key goes to the end *)
Fixpoint dict_set (d : dict) (k : string) (v : value) : dict :=
  match d with
  | [] => [(k, v)]
  | (k', v') :: d' =>
      if string_dec k' k then (k, v) :: d' else (k', v') :: dict_set d' k v
  end.

(** [categorize_basemodel_fields], on the dump of the model: the body of
    its loop, and the loop *)
Definition categorize_step (acc : dict * dict) (item : string * value) : dict * dict :=
  let '(metadata, list_fields) := acc in
  let '(field_name, value) := item in
  if is_list_of_structured_data value
  then (metadata, dict_set list_fields field_name value)
  else (dict_set metadata field_name value, list_fields).

Definition categorize_basemodel_fields (dump : dict) : dict * dict :=
  fold_left categorize_step dump ([], []).

(** [len(value)] *)
Definition len (v : value) : Z :=
  match v with
  | VList l => Z.of_nat (length l)
  | VDict d => Z.of_nat (length d)
  | VStr s => Z.of_nat (String.length s)
  | _ => 0%Z
  end.

(** [d.update(other)] *)
Definition dict_update (d other : dict) : dict :=
  fold_left (fun (d : dict) (item : string * value) => dict_set d (fst item) (snd item))
    other d.

(** the body of the loop that turns list fields into counts *)
Definition count_step (flattened : dict) (item : string * value) : dict :=
  dict_set flattened ("num_" +:+ fst item) (VInt (len (snd item))).

(** [flatten_basemodel_for_export], on the dump of the model *)
Definition flatten_basemodel_for_export (dump : dict) : dict :=
  let flattened := [] in
  let '(metadata, list_fields) := categorize_basemodel_fields dump in
  let flattened := dict_update flattened metadata in
  fold_left count_step list_fields flattened.

End CorePydantic.

(* ================================================================== *)
(** ** src/ax/config/setup.py *)

Module Setup.
  Import Schema.



(** [env_vars[field]], and [field in env_vars] as [is_Some] of it *)
Fixpoint env_vars_get (env_vars : list (string * string)) (field : string)
    : option string :=
  match env_vars with
  | [] => None
  | (k, v) :: rest => if string_dec k field then Some v else env_vars_get rest field
  end.

(** the nested function [env_ref] *)
Definition env_ref (env_var_name : string) : string := "${" +:+ env_var_name +:+ "}".

(** the loops that fill the keyword arguments of a section: a reference
    for every field of [fields] that is in [env_vars] *)
Definition kwargs (fields : list string) (env_vars : list (string * string)) : dict :=
  flat_map
    (fun field =>
       match env_vars_get env_vars field with
       | Some env_var => [(field, VStr (env_ref env_var))]
       | None => []
       end)
    fields.

(** the set literals [routing_fields] and [transport_fields]; the order
    a set is iterated in decides the order of the keyword arguments only *)
Definition routing_fields : list string :=
  ["region"; "single_host"; "single_port"; "base_domain"; "api_host"; "api_scheme";
   "otlp_host"; "otlp_scheme"; "flight_host"; "flight_port"; "flight_scheme"].

Definition transport_fields : list string :=
  ["stream_max_workers"; "stream_max_queue_bound"; "pyarrow_max_chunksize";
   "max_http_payload_size_mb"].

(** constructing a model from keyword arguments *)
Definition construct {M} (r : vres M) : result M :=
  match r with
  | inl errors => Raise (ValidationError errors)
  | inr m => Ok m
  end.

  Section Create.
    Context `{Region} `{PydanticLax}.
    (** what [read_output_format()] returns: the choice of the user, or
        [None] when the prompt was cancelled *)
    Variable read_output_format : value.

(** [create_config_from_env_vars] *)
Definition create_config_from_env_vars (profile : string)
    (env_vars : list (string * string)) : result Config :=
  auth_kwargs <-
    match env_vars_get env_vars "api_key" with
    | Some env_var => Ok [("api_key", VStr (env_ref env_var))]
    | None => Raise (ValueError "api_key must be present in detected env vars")
    end ;;
  auth_config <- construct (AuthConfig_validate auth_kwargs) ;;
  let routing_kwargs := kwargs routing_fields env_vars in
  routing_config <- construct (RoutingConfig_validate routing_kwargs) ;;
  let transport_kwargs := kwargs transport_fields env_vars in
  transport_config <- construct (TransportConfig_validate transport_kwargs) ;;
  let security_kwargs := kwargs ["request_verify"] env_vars in
  security_config <- construct (SecurityConfig_validate security_kwargs) ;;
  storage_config <- construct (StorageConfig_validate []) ;;
  output_config <- construct (OutputConfig_validate [("format", read_output_format)]) ;;
  Ok (Build_Config {| name := profile |} auth_config routing_config transport_config
        security_config storage_config output_config).
  End Create.

End Setup.

(* ================================================================== *)
(** ** Sample instances of the outside libraries

    Concrete instances of the parameters, used to run the model on
    examples: a region table, a pydantic without lax coercions, and a
    codec whose file contents are either a text or a TOML document. *)

Definition sample_regions : Region :=
  {| list_regions := ["ca-central-1a"; "eu-west-1a"; "us-central-1a"; "us-east-1b"] |}.

Definition strict_pydantic : PydanticLax :=
  {| lax_int_or_str := fun _ => None;
     lax_bool_or_str := fun _ => None;
     lax_bool := fun _ => None |}.

Definition tree_codec : Codec (string + dict) :=
  {| decode_text := fun b => match b with inl text => Some text | inr _ => None end;
     encode_text := inl;
     toml_load := fun b => match b with inr d => Some d | inl _ => None end;
     toml_dump := fun d => Some (inr d) |}.

(** A renderer that prints nothing and writes nothing. *)
Definition silent_renderer : Renderer unit :=
  {| render_table := fun _ => Ok tt;
     render_json := fun _ _ => Ok tt;
     render_csv := fun _ _ => Ok tt;
     render_parquet := fun _ _ => Ok tt |}.

(** Sample inputs *)

Definition padded_key_data : dict :=
  [("auth", VDict [("api_key", VStr "  ak-test123  ")])].

(* ================================================================== *)
(** ** Vocabulary of the statements

    The notions the specification speaks in, written from its words. *)

(** The three routing strategies of a routing section and how many of
    them are active. *)
Definition has_region (r : Schema.RoutingConfig) : bool :=
  bool_decide (Schema.region r <> "").

Definition has_single (r : Schema.RoutingConfig) : bool :=
  bool_decide (Schema.single_host r <> "") || bool_decide (Schema.single_port r <> "").

Definition has_base_domain (r : Schema.RoutingConfig) : bool :=
  bool_decide (Schema.base_domain r <> "").

Definition active_strategies (r : Schema.RoutingConfig) : nat :=
  length (List.filter (fun b : bool => b) [has_region r; has_single r; has_base_domain r]).

Definition mutually_exclusive_error : exc :=
  ValueError "Only one routing option allowed: region, single_host/port, or base_domain".

(** A store whose marker names a profile that has no file, and one whose
    marker holds white space only. *)
Definition ghost_marker_store : Manager.store (string + dict) :=
  Manager.Build_store (Some (Manager.File true (inl "  ghost
"))) None (Some ∅).

Definition blank_marker_store : Manager.store (string + dict) :=
  Manager.Build_store (Some (Manager.File true (inl "   "))) None (Some ∅).

(** The layout of the profiles directory: a profile file is named by its
    profile, the stem, followed by [.toml]. *)
Definition profile_files_named_by_profile {bytes : Type}
    (st : Manager.store bytes) : Prop :=
  Forall (fun f => f = Manager.stem f +:+ ".toml") (Manager.glob_toml st).

Definition default_profile_error : exc :=
  ConfigError "Cannot delete the default profile".

Definition active_profile_error (profile : string) : exc :=
  ConfigError ("Cannot delete active profile '" +:+ profile
               +:+ "'. Switch to another profile first.").

(** A store with the default profile and the profiles [dev] and [prod],
    [prod] being active. *)
Definition three_profiles_store : Manager.store (string + dict) :=
  Manager.Build_store
    (Some (Manager.File true (inl "prod")))
    (Some (Manager.File true (inr [])))
    (Some (<["dev.toml" := Manager.File true (inr [])]>
            (<["prod.toml" := Manager.File true (inr [])]> ∅))).

(** A store with a stray hidden file named [.toml] beside the file of the
    profile [.toml]. *)
Definition stray_dot_toml_store : Manager.store (string + dict) :=
  Manager.Build_store None None
    (Some (<[".toml" := Manager.File true (inr [])]>
            (<[".toml.toml" := Manager.File true (inr [])]> ∅))).

(** The words [_to_bool] takes for true, and a string spelling a word in
    some letter case: each character is the word's or its capital. *)
Definition true_words : list string := ["1"; "true"; "yes"; "on"].

Definition upper_char (c : ascii) : ascii :=
  let n := PyStr.code c in
  if ((97 <=? n) && (n <=? 122))%N then ascii_of_N (n - 32) else c.

Fixpoint same_word_any_case (s w : string) : bool :=
  match s, w with
  | EmptyString, EmptyString => true
  | String a s', String b w' =>
      (bool_decide (a = b) || bool_decide (a = upper_char b))
      && same_word_any_case s' w'
  | _, _ => false
  end.

Definition is_true_word (s : string) : bool :=
  existsb (same_word_any_case s) true_words.

(** The coercion as the specification words it: true on the true words in
    any letter case, false on every other string. *)
Definition to_bool_as_specified : Prop :=
  forall s : string, Manager._to_bool (BS_str s) = is_true_word s.

(** The same with surrounding white space allowed around the word. *)
Definition is_padded_true_word (s : string) : Prop :=
  exists pre w post,
    s = pre +:+ w +:+ post
    /\ PyStr.all_space pre = true /\ PyStr.all_space post = true
    /\ is_true_word w = true.

(** The format names of the dispatcher and the message that enumerates
    them. *)
Definition format_names : list string := ["table"; "json"; "csv"; "parquet"].

Definition unsupported_format_error (format_type : string) : exc :=
  ValueError ("Unsupported format: " +:+ format_type
              +:+ ". Supported formats: table, json, csv, parquet").

Definition table_to_file_error : exc :=
  FileIOError "Table format can only be output to terminal (stdout)".

Definition parquet_without_file_error : exc :=
  FileIOError "Parquet format requires an output file. Use --output to specify a file path.".

(** The dispatcher as the specification words it: every format name
    outside the four is refused. *)
Definition dispatcher_as_specified : Prop :=
  forall format_type : string,
    format_type ∉ format_names ->
    exists e, Output.get_formatter format_type = Raise e.

(** The gRPC to HTTP table as the specification lists it. *)
Definition specified_http_status (grpc_status : Z) : Z * string :=
  match grpc_status with
  | 0 => (200, "OK")
  | 1 => (499, "Client Closed Request")
  | 2 => (500, "Internal Server Error")
  | 3 => (400, "Invalid Argument")
  | 4 => (504, "Gateway Timeout")
  | 5 => (404, "Not Found")
  | 6 => (409, "Conflict")
  | 7 => (403, "Permission Denied")
  | 8 => (429, "Too Many Requests")
  | 9 => (412, "Failed Precondition")
  | 10 => (409, "Conflict")
  | 11 => (400, "Out of Range")
  | 12 => (501, "Not Implemented")
  | 13 => (500, "Internal Server Error")
  | 14 => (503, "Service Unavailable")
  | 15 => (500, "Internal Server Error")
  | 16 => (401, "Unauthenticated")
  | _ => (500, "Server Error")
  end%Z.

(** The body as the specification words it: the raw text, cut to 500
    characters and marked with an ellipsis only when it is longer. *)
Definition specified_body (error_text : string) : string :=
  if 500 <? String.length error_text
  then PyStr.take 500 error_text +:+ "..."
  else error_text.

(** [n] times the character [c] *)
Fixpoint padding (n : nat) (c : ascii) : string :=
  match n with
  | O => EmptyString
  | S n' => String c (padding n' c)
  end.

(** A [RuntimeError] text of exactly 500 characters that carries a gRPC
    message and the status 5. *)
Definition text_of_500 : string :=
  "Flight error grpc_status:5 grpc_message:"
  +:+ String ErrorFormatter.dquote "dataset not found"
  +:+ String ErrorFormatter.dquote (padding 441 "."%char).

(** An env-var reference as the specification writes it: [NAME] is a
    name, one or more characters other than the closing brace and the
    colon; [DEFAULT], when the clause is there, has no closing brace. *)
Definition ref_text (name : string) (default : option string) : string :=
  "${" +:+ name
  +:+ match default with Some d => ":" +:+ d | None => "" end
  +:+ "}".

Fixpoint all_chars (p : ascii -> bool) (s : string) : bool :=
  match s with
  | EmptyString => true
  | String c s' => p c && all_chars p s'
  end.

Definition name_ok (name : string) : bool :=
  PyStr.truthy name && all_chars Manager.is_name_char name.

Definition default_ok (default : option string) : bool :=
  match default with
  | Some d => all_chars Manager.is_default_char d
  | None => true
  end.

(** a reference starts at the head of [s] *)
Definition reference_at_head (s : string) : Prop :=
  exists name default rest,
    name_ok name = true /\ default_ok default = true
    /\ s = ref_text name default +:+ rest.

(** no reference starts inside [pre] when [s] follows it *)
Definition no_reference_within (pre s : string) : Prop :=
  forall p1 p2, pre = p1 +:+ p2 -> p2 <> "" -> ~ reference_at_head (p2 +:+ s).

(** [s] holds no reference *)
Definition no_reference (s : string) : Prop := no_reference_within s "".

Definition missing_variable_error (name : string) : exc :=
  ValueError ("Environment variable " +:+ name
              +:+ " is not set and no default provided").

(** what a reference stands for: the variable's value if it is set, else
    the default if the clause is there, else the missing-variable error *)
Definition resolve (environ : gmap string string) (name : string)
    (default : option string) : result string :=
  match environ !! name with
  | Some value => Ok value
  | None =>
      match default with
      | Some d => Ok d
      | None => Raise (missing_variable_error name)
      end
  end.

(** A tree with its string leaves expanded and everything else as it is. *)
Inductive expanded (environ : gmap string string) : value -> value -> Prop :=
| expanded_str s s' :
    Manager._expand_env_var environ s = Ok s' ->
    expanded environ (VStr s) (VStr s')
| expanded_dict d d' :
    Forall2 (fun kv kv' => fst kv = fst kv' /\ expanded environ (snd kv) (snd kv')) d d' ->
    expanded environ (VDict d) (VDict d')
| expanded_none : expanded environ VNone VNone
| expanded_bool b : expanded environ (VBool b) (VBool b)
| expanded_int z : expanded environ (VInt z) (VInt z)
| expanded_other r : expanded environ (VOther r) (VOther r)
| expanded_list l : expanded environ (VList l) (VList l).

(** The environments of the examples. *)
Definition test_environ : gmap string string := {[ "TEST_VAR" := "hello" ]}.

Definition two_vars_environ : gmap string string :=
  <["VAR1" := "value1"]> {[ "VAR2" := "value2" ]}.

(** The round trip through a profile file.  A field that is an empty
    string is not written and comes back as the default of the schema:
    [with_schema_defaults] is the configuration with these replaced. *)
Definition or_default (s default : string) : string :=
  if PyStr.truthy s then s else default.

Definition int_or_str_or_default (x default : int_or_str) : int_or_str :=
  match x with
  | IS_str s => if PyStr.truthy s then x else default
  | IS_int _ => x
  end.

Definition bool_or_str_or_default (x default : bool_or_str) : bool_or_str :=
  match x with
  | BS_str s => if PyStr.truthy s then x else default
  | BS_bool _ => x
  end.

Definition routing_with_defaults (r : Schema.RoutingConfig) : Schema.RoutingConfig :=
  {| Schema.region := or_default (Schema.region r) "";
     Schema.single_host := or_default (Schema.single_host r) "";
     Schema.single_port := or_default (Schema.single_port r) "";
     Schema.base_domain := or_default (Schema.base_domain r) "";
     Schema.api_host := or_default (Schema.api_host r) "api.arize.com";
     Schema.api_scheme := or_default (Schema.api_scheme r) "https";
     Schema.otlp_host := or_default (Schema.otlp_host r) "otlp.arize.com";
     Schema.otlp_scheme := or_default (Schema.otlp_scheme r) "https";
     Schema.flight_host := or_default (Schema.flight_host r) "flight.arize.com";
     Schema.flight_port := or_default (Schema.flight_port r) "443";
     Schema.flight_scheme := or_default (Schema.flight_scheme r) "grpc+tls" |}.

Definition transport_with_defaults (t : Schema.TransportConfig) : Schema.TransportConfig :=
  {| Schema.stream_max_workers :=
       int_or_str_or_default (Schema.stream_max_workers t) (IS_int 8);
     Schema.stream_max_queue_bound :=
       int_or_str_or_default (Schema.stream_max_queue_bound t) (IS_int 5000);
     Schema.pyarrow_max_chunksize :=
       int_or_str_or_default (Schema.pyarrow_max_chunksize t) (IS_int 10000);
     Schema.max_http_payload_size_mb :=
       int_or_str_or_default (Schema.max_http_payload_size_mb t) (IS_int 8) |}.

Definition with_schema_defaults (c : Schema.Config) : Schema.Config :=
  {| Schema.profile :=
       {| Schema.name := or_default (Schema.name (Schema.profile c)) "default" |};
     Schema.auth := Schema.auth c;
     Schema.routing := routing_with_defaults (Schema.routing c);
     Schema.transport := transport_with_defaults (Schema.transport c);
     Schema.security :=
       {| Schema.request_verify :=
            bool_or_str_or_default (Schema.request_verify (Schema.security c))
              (BS_bool true) |};
     Schema.storage :=
       {| Schema.directory :=
            or_default (Schema.directory (Schema.storage c)) "~/.arize";
          Schema.cache_enabled := Schema.cache_enabled (Schema.storage c) |};
     Schema.output := Schema.output c |}.

(** no string field of the configuration is empty *)
Definition no_empty_field (c : Schema.Config) : Prop :=
  with_schema_defaults c = c.

(** The documents a profile file holds: sections of strings, integers
    and booleans.  The TOML writer and reader are taken to round-trip
    them. *)
Definition toml_scalar (v : value) : bool :=
  match v with
  | VStr _ | VInt _ | VBool _ => true
  | _ => false
  end.

Definition toml_section (v : value) : bool :=
  match v with
  | VDict items => forallb (fun kv => toml_scalar (snd kv)) items
  | _ => false
  end.

Definition toml_document (d : dict) : bool :=
  forallb (fun kv => toml_section (snd kv)) d.

Definition toml_round_trips {bytes : Type} `{Codec bytes} : Prop :=
  forall d : dict,
    toml_document d = true ->
    exists raw, toml_dump d = Some raw /\ toml_load raw = Some d.

(** the file of the profile can be written and read back: nothing is at
    its path, or a regular file that can be read *)
Definition profile_file_accessible {bytes : Type}
    (st : Manager.store bytes) (profile : string) : Prop :=
  match Manager.lookup_path st (Manager._get_config_path profile) with
  | None => True
  | Some (Manager.File readable _) => readable = true
  | Some Manager.Dir => False
  end.

(** A valid configuration with fields left empty, constructed under
    another name than the one it is saved under, and an empty store. *)
Definition sample_config : Schema.Config :=
  {| Schema.profile := {| Schema.name := "wrong_name" |};
     Schema.auth := {| Schema.api_key := "${ARIZE_API_KEY}" |};
     Schema.routing :=
       {| Schema.region := "us-east-1b"; Schema.single_host := "";
          Schema.single_port := ""; Schema.base_domain := "";
          Schema.api_host := ""; Schema.api_scheme := "https";
          Schema.otlp_host := "otlp.arize.com"; Schema.otlp_scheme := "https";
          Schema.flight_host := "flight.arize.com"; Schema.flight_port := "443";
          Schema.flight_scheme := "grpc+tls" |};
     Schema.transport :=
       {| Schema.stream_max_workers := IS_str "16";
          Schema.stream_max_queue_bound := IS_str "";
          Schema.pyarrow_max_chunksize := IS_int 20000;
          Schema.max_http_payload_size_mb := IS_int 8 |};
     Schema.security := {| Schema.request_verify := BS_str "${ARIZE_REQUEST_VERIFY}" |};
     Schema.storage := {| Schema.directory := ""; Schema.cache_enabled := false |};
     Schema.output := {| Schema.format := json |} |}.

Definition empty_store : Manager.store (string + dict) :=
  Manager.Build_store None None None.

(** a character of a true word: it and its capital are not white space and
    lower to it, and nothing else lowers to it *)
Definition word_char (b : ascii) : Prop :=
  PyStr.is_space b = false /\ PyStr.is_space (upper_char b) = false
  /\ PyStr.lower_char b = b /\ PyStr.lower_char (upper_char b) = b
  /\ forall a, PyStr.lower_char a = b -> a = b \/ a = upper_char b.

Fixpoint word_chars (w : string) : Prop :=
  match w with
  | EmptyString => True
  | String b w' => word_char b /\ word_chars w'
  end.

Ltac word_char_tac :=
  repeat split; try reflexivity;
  intros [[] [] [] [] [] [] [] []]; vm_compute; intros Ha;
  first [discriminate Ha | by left | by right].



Definition profile_not_found_error (profile : string) : exc :=
  ConfigError ("Profile '" +:+ profile +:+ "' not found.

Run 'ax config init' to create a configuration.
Or specify a different profile with --profile").





(** Two raw sections that agree on the keys [fields]. *)
Definition same_on (fields : list string) (d d' : dict) : Prop :=
  forall k, k ∈ fields -> dict_get d k = dict_get d' k.

Definition routing_field_names : list string :=
  ["region"; "single_host"; "single_port"; "base_domain"; "api_host"; "api_scheme";
   "otlp_host"; "otlp_scheme"; "flight_host"; "flight_port"; "flight_scheme"].

Definition transport_field_names : list string :=
  ["stream_max_workers"; "stream_max_queue_bound"; "pyarrow_max_chunksize";
   "max_http_payload_size_mb"].

Ltac same_field Hs :=
  match goal with
  | |- context [dict_get ?d ?k] =>
      lazymatch type of Hs with
      | same_on _ d _ => rewrite (Hs k) by (apply (bool_decide_unpack _); by vm_compute)
      end
  end.

(** The exceptions of a cause chain, outermost first, each with the
    [ApiException] it is, if any. *)
Fixpoint cause_chain (e : ErrorFormatter.chained)
    : list (option ErrorFormatter.ApiException * string) :=
  match e with
  | ErrorFormatter.Chained api _ text cause =>
      (api, text) :: match cause with
                     | Some c => cause_chain c
                     | None => []
                     end
  end.

Definition verbose_hint : string :=
  "  [dim]Run with --verbose for technical details.[/dim]".

(** two records with the same status, reason, detail and title *)
Definition same_summary (p q : ErrorFormatter.ParsedError) : Prop :=
  ErrorFormatter.status p = ErrorFormatter.status q
  /\ ErrorFormatter.reason p = ErrorFormatter.reason q
  /\ ErrorFormatter.detail p = ErrorFormatter.detail q
  /\ ErrorFormatter.title p = ErrorFormatter.title q.

Definition without_title (p : ErrorFormatter.ParsedError) : ErrorFormatter.ParsedError :=
  {| ErrorFormatter.title := None;
     ErrorFormatter.status := ErrorFormatter.status p;
     ErrorFormatter.type := ErrorFormatter.type p;
     ErrorFormatter.detail := ErrorFormatter.detail p;
     ErrorFormatter.instance := ErrorFormatter.instance p;
     ErrorFormatter.reason := ErrorFormatter.reason p;
     ErrorFormatter.headers := ErrorFormatter.headers p;
     ErrorFormatter.body := ErrorFormatter.body p |}.

(** the gRPC codes whose HTTP status has no suggestion *)
Definition codes_without_suggestion : list Z := [0; 1; 9; 12]%Z.

Definition body_heading : list string := [""; "[bold]Raw Response Body:[/bold]"].

Definition indented (lines : list string) : list string :=
  map (fun line => "  " +:+ line) lines.

(** A chain with a RuntimeError carrying a gRPC message in front of an
    [ApiException]. *)
Definition not_found_api_exception : ErrorFormatter.ApiException :=
  {| ErrorFormatter.api_status := Some 404%Z;
     ErrorFormatter.api_reason := Some "Not Found";
     ErrorFormatter.api_headers := Some [("Content-Type", "application/problem+json")];
     ErrorFormatter.api_body := Some "{}";
     ErrorFormatter.api_data :=
       Some {| ErrorFormatter.problem_title := Some "Not Found";
               ErrorFormatter.problem_detail := Some "dataset abc does not exist";
               ErrorFormatter.problem_type := None;
               ErrorFormatter.problem_instance := None |} |}.

Definition runtime_over_api_chain : ErrorFormatter.chained :=
  ErrorFormatter.Chained None true text_of_500
    (Some (ErrorFormatter.Chained (Some not_found_api_exception) false "(404)" None)).

(** The formats a file extension can stand for. *)
Definition file_formats : list string := ["csv"; "json"; "jsonl"; "parquet"].

Definition cannot_detect_format_error (suffix : string) : exc :=
  FileIOError ("Cannot detect format from extension: " +:+ suffix +:+ "
Supported extensions: .csv, .json, .jsonl, .parquet, .pq").

Definition invalid_output_option_error (valid_formats : list string) (output : string)
    : exc :=
  FileIOError ("Invalid output option: " +:+ output +:+ "
Must be either:
  - A format: " +:+ PyStr.join ", " valid_formats +:+ "
  - A file path with extension: .json, .csv, .jsonl, .parquet, .pq").

(** a path is [dir] followed by a file name: [dir] is empty or ends with
    the separator *)
Definition is_dir_prefix (dir : string) : Prop :=
  dir = "" \/ exists d, dir = d +:+ "/".

(** what the formatter of a format name hands to the renderer once its
    guard has passed *)
Definition rendered {data : Type} `{Renderer data} (d : data)
    (format_type output_file : string) : result unit :=
  if string_dec format_type "table" then render_table d
  else if string_dec format_type "json" then render_json d output_file
  else if string_dec format_type "csv" then render_csv d output_file
  else render_parquet d output_file.





(** the fields of a dump that hold a list of structured data, and the
    others *)
Definition structured_fields (dump : dict) : dict :=
  filter (fun item => CorePydantic.is_list_of_structured_data (snd item) = true) dump.

Definition scalar_fields (dump : dict) : dict :=
  filter (fun item => CorePydantic.is_list_of_structured_data (snd item) = false) dump.

(** A dump with a list of two examples, an empty list, and a count of its
    own under the name the export gives to the count of the examples. *)
Definition examples_dump : dict :=
  [("id", VStr "ds-1");
   ("num_examples", VInt 7);
   ("examples", VList [VDict [("q", VStr "a")]; VDict [("q", VStr "b")]]);
   ("tags", VList [])].

(** The configuration written from detected variables: a field holds the
    reference to its variable when the variable was detected, and its
    default otherwise. *)
Definition field_or_default (env_vars : list (string * string))
    (field default : string) : string :=
  match Setup.env_vars_get env_vars field with
  | Some env_var => Setup.env_ref env_var
  | None => default
  end.

Definition int_field_or_default (env_vars : list (string * string))
    (field : string) (default : int_or_str) : int_or_str :=
  match Setup.env_vars_get env_vars field with
  | Some env_var => IS_str (Setup.env_ref env_var)
  | None => default
  end.

Definition referenced_routing (env_vars : list (string * string)) : Schema.RoutingConfig :=
  {| Schema.region := field_or_default env_vars "region" "";
     Schema.single_host := field_or_default env_vars "single_host" "";
     Schema.single_port := field_or_default env_vars "single_port" "";
     Schema.base_domain := field_or_default env_vars "base_domain" "";
     Schema.api_host := field_or_default env_vars "api_host" "api.arize.com";
     Schema.api_scheme := field_or_default env_vars "api_scheme" "https";
     Schema.otlp_host := field_or_default env_vars "otlp_host" "otlp.arize.com";
     Schema.otlp_scheme := field_or_default env_vars "otlp_scheme" "https";
     Schema.flight_host := field_or_default env_vars "flight_host" "flight.arize.com";
     Schema.flight_port := field_or_default env_vars "flight_port" "443";
     Schema.flight_scheme := field_or_default env_vars "flight_scheme" "grpc+tls" |}.

Definition referenced_transport (env_vars : list (string * string))
    : Schema.TransportConfig :=
  {| Schema.stream_max_workers :=
       int_field_or_default env_vars "stream_max_workers" (IS_int 8);
     Schema.stream_max_queue_bound :=
       int_field_or_default env_vars "stream_max_queue_bound" (IS_int 5000);
     Schema.pyarrow_max_chunksize :=
       int_field_or_default env_vars "pyarrow_max_chunksize" (IS_int 10000);
     Schema.max_http_payload_size_mb :=
       int_field_or_default env_vars "max_http_payload_size_mb" (IS_int 8) |}.

Definition referenced_security (env_vars : list (string * string))
    : Schema.SecurityConfig :=
  {| Schema.request_verify :=
       match Setup.env_vars_get env_vars "request_verify" with
       | Some env_var => BS_str (Setup.env_ref env_var)
       | None => BS_bool true
       end |}.

Definition referenced_config (profile api_key_var : string)
    (env_vars : list (string * string)) (format : output_format) : Schema.Config :=
  {| Schema.profile := {| Schema.name := profile |};
     Schema.auth := {| Schema.api_key := Setup.env_ref api_key_var |};
     Schema.routing := referenced_routing env_vars;
     Schema.transport := referenced_transport env_vars;
     Schema.security := referenced_security env_vars;
     Schema.storage := Schema.StorageConfig_default;
     Schema.output := {| Schema.format := format |} |}.

(** how many routing strategies the detected variables make active *)
Definition detected (env_vars : list (string * string)) (field : string) : bool :=
  bool_decide (is_Some (Setup.env_vars_get env_vars field)).

Definition detected_strategies (env_vars : list (string * string)) : nat :=
  Schema.b2n (detected env_vars "region")
  + Schema.b2n (detected env_vars "single_host" || detected env_vars "single_port")
  + Schema.b2n (detected env_vars "base_domain").

Definition mutually_exclusive_validation_error : exc :=
  ValidationError
    [([], "Value error, Only one routing option allowed: region, single_host/port, or base_domain")].

(** membership in a list of field names, by computation *)
Ltac in_fields := apply (bool_decide_unpack _); by vm_compute.









(** An SDK for examples: regions are their names, and [int] reads
    decimal digits. *)
Definition sample_sdk : Schema.SDK string :=
  {| Schema.Region_call := fun v =>
       if bool_decide (v ∈ ["ca-central-1a"; "eu-west-1a"; "us-central-1a"; "us-east-1b"])
       then Ok v
       else Raise (ValueError ("'" +:+ v +:+ "' is not a valid Region"));
     Schema.Region_UNSET := "";
     Schema.int_of := fun s =>
       if PyStr.truthy s && all_chars PyStr.is_digit s
       then Ok (ErrorFormatter.int_of_digits s)
       else Raise (ValueError ("invalid literal for int() with base 10: '" +:+ s +:+ "'")) |}.

(** A document that switches verification off with a string. *)
Definition verify_false_data : dict :=
  [("auth", VDict [("api_key", VStr "ak-test123")]);
   ("security", VDict [("request_verify", VStr "false")])].


(* ================================================================== *)
(** * Properties *)

(** ** Strings *)

Module PyStrFacts.
  Import PyStr.

Lemma app_cons c s t : String c s +:+ t = String c (s +:+ t).
  Proof. reflexivity. Qed.

Lemma app_nil_l s : "" +:+ s = s.
  Proof. reflexivity. Qed.

Lemma app_nil_r s : s +:+ "" = s.
  Proof. induction s as [|c s IH]; [reflexivity|]. rewrite app_cons. by f_equal. Qed.

Lemma app_assoc s t u : (s +:+ t) +:+ u = s +:+ (t +:+ u).
  Proof.
    induction s as [|c s IH]; [reflexivity|].
    rewrite !app_cons. by f_equal.
  Qed.

Lemma length_app s t : String.length (s +:+ t) = String.length s + String.length t.
  Proof.
    induction s as [|c s IH]; [reflexivity|].
    rewrite app_cons. simpl. by rewrite IH.
  Qed.

Lemma lstrip_no_leading s : no_leading_space (lstrip s).
  Proof.
    induction s as [|a s IH]; intros c; simpl; [done|].
    destruct (is_space a) eqn:Ha; [apply IH|].
    simpl. intros [= <-]. done.
  Qed.

Lemma rstrip_no_trailing s : no_trailing_space (rstrip s).
  Proof.
    induction s as [|a s IH]; intros c; simpl; [done|].
    destruct (rstrip s) as [|b r] eqn:Hr.
    - destruct (is_space a) eqn:Ha; simpl; [done|]. by intros [= <-].
    - intros Hc. apply IH. exact Hc.
  Qed.

Lemma lstrip_id s : no_leading_space s -> lstrip s = s.
  Proof.
    destruct s as [|a s]; [done|]. intros Hs. simpl.
    by rewrite (Hs a eq_refl).
  Qed.

Lemma last_char_cons a s : s <> "" -> last_char (String a s) = last_char s.
  Proof. destruct s; [done|]. reflexivity. Qed.

Lemma rstrip_id s : no_trailing_space s -> rstrip s = s.
  Proof.
    induction s as [|a s IH]; [done|]. intros Hs. simpl.
    destruct s as [|b s].
    - simpl. by rewrite (Hs a eq_refl).
    - rewrite IH; [done|]. intros c Hc. apply Hs. exact Hc.
  Qed.

Lemma lstrip_last s c : last_char (lstrip s) = Some c -> last_char s = Some c.
  Proof.
    induction s as [|a s IH]; [done|]. simpl lstrip.
    destruct (is_space a); [|done].
    intros Hc. rewrite last_char_cons; [by apply IH|].
    intros ->. done.
  Qed.

Lemma strip_no_leading s : no_leading_space (strip s).
  Proof. apply lstrip_no_leading. Qed.

Lemma strip_no_trailing s : no_trailing_space (strip s).
  Proof.
    intros c Hc. apply (rstrip_no_trailing s). by apply lstrip_last.
  Qed.

Lemma strip_id s : no_leading_space s -> no_trailing_space s -> strip s = s.
  Proof. intros H1 H2. unfold strip. rewrite (rstrip_id s H2). by apply lstrip_id. Qed.

Lemma strip_idempotent s : strip (strip s) = strip s.
  Proof. apply strip_id; [apply strip_no_leading | apply strip_no_trailing]. Qed.

Lemma truthy_true s : truthy s = true <-> s <> "".
  Proof. destruct s; simpl; split; congruence. Qed.

Lemma truthy_false s : truthy s = false <-> s = "".
  Proof. destruct s; simpl; split; congruence. Qed.

(** [lstrip] and [rstrip] only remove white space *)
Lemma lstrip_split s : exists pre, s = pre +:+ lstrip s /\ all_space pre = true.
  Proof.
    induction s as [|a s (pre & Hs & Hpre)]; [by exists ""|]. simpl.
    destruct (is_space a) eqn:Ha.
    - exists (String a pre). rewrite app_cons, <- Hs. simpl. by rewrite Ha, Hpre.
    - by exists "".
  Qed.

Lemma rstrip_split s : exists post, s = rstrip s +:+ post /\ all_space post = true.
  Proof.
    induction s as [|a s (post & Hs & Hpost)]; [by exists ""|]. simpl.
    destruct (rstrip s) as [|b r] eqn:Hr.
    - rewrite app_nil_l in Hs. subst post.
      destruct (is_space a) eqn:Ha.
      + exists (String a s). split; [done|]. simpl. by rewrite Ha, Hpost.
      + exists s. by rewrite app_cons, app_nil_l.
    - exists post. rewrite app_cons. by rewrite <- Hs.
  Qed.

Lemma strip_split s :
  exists pre post,
    s = pre +:+ strip s +:+ post /\ all_space pre = true /\ all_space post = true.
  Proof.
    destruct (rstrip_split s) as (post & Hs & Hpost).
    destruct (lstrip_split (rstrip s)) as (pre & Hr & Hpre).
    exists pre, post. split; [|done].
    unfold strip. rewrite <- app_assoc, <- Hr. exact Hs.
  Qed.

Lemma lstrip_app_space pre s : all_space pre = true -> lstrip (pre +:+ s) = lstrip s.
  Proof.
    induction pre as [|a pre IH]; [done|]. simpl.
    intros [Ha Hpre]%andb_prop. rewrite Ha. by apply IH.
  Qed.

Lemma rstrip_space post : all_space post = true -> rstrip post = "".
  Proof.
    induction post as [|a post IH]; [done|]. simpl.
    intros [Ha Hpost]%andb_prop. rewrite (IH Hpost). by rewrite Ha.
  Qed.

Lemma rstrip_app_space s post :
  all_space post = true -> rstrip (s +:+ post) = rstrip s.
  Proof.
    intros Hpost. induction s as [|a s IH].
    - rewrite app_nil_l. by apply rstrip_space.
    - rewrite app_cons. simpl. by rewrite IH.
  Qed.

Lemma rstrip_app_l pre s : rstrip s <> "" -> rstrip (pre +:+ s) = pre +:+ rstrip s.
  Proof.
    intros Hs. induction pre as [|a pre IH]; [done|].
    rewrite !app_cons. simpl. rewrite IH.
    destruct (pre +:+ rstrip s) eqn:E; [|done].
    destruct pre; [|done]. rewrite app_nil_l in E. done.
  Qed.

(** the text between surrounding white space is what [strip] returns *)
Lemma strip_surrounded pre w post :
  all_space pre = true -> all_space post = true ->
  w <> "" -> no_leading_space w -> no_trailing_space w ->
  strip (pre +:+ w +:+ post) = w.
  Proof.
    intros Hpre Hpost Hw Hl Ht. unfold strip.
    rewrite <- app_assoc, (rstrip_app_space _ _ Hpost).
    assert (rstrip w = w) as Hrw by by apply rstrip_id.
    rewrite rstrip_app_l by by rewrite Hrw.
    rewrite Hrw, (lstrip_app_space _ _ Hpre). by apply lstrip_id.
  Qed.

Lemma all_space_strip s : all_space s = true -> strip s = "".
  Proof. intros Hs. unfold strip. by rewrite (rstrip_space _ Hs). Qed.

Lemma strip_empty_all_space s : strip s = "" -> all_space s = true.
  Proof.
    intros Hs. destruct (strip_split s) as (pre & post & E & Hpre & Hpost).
    rewrite Hs, app_nil_l in E. rewrite E. clear -Hpre Hpost.
    induction pre as [|a pre IH]; [done|].
    rewrite app_cons. simpl in *. apply andb_prop in Hpre as [-> Hpre]. by apply IH.
  Qed.

End PyStrFacts.

(** ** Schema validation *)

Module SchemaFacts.
  Import PyStr PyStrFacts Schema.

Lemma validate_api_key_ok v k :
  validate_api_key v = Ok k -> k = strip v /\ strip v <> "".
Proof.
  unfold validate_api_key.
  destruct (truthy v) eqn:Hv, (truthy (strip v)) eqn:Hs; simpl; try done.
  intros [= <-]. split; [done|]. by apply truthy_true.
Qed.

Lemma validate_api_key_raise v e :
  validate_api_key v = Raise e ->
  all_space v = true /\ e = ValueError "api_key cannot be empty".
Proof.
  unfold validate_api_key.
  destruct (truthy v) eqn:Hv, (truthy (strip v)) eqn:Hs; simpl; try done;
    intros [= <-]; (split; [|done]).
  - apply strip_empty_all_space. by apply truthy_false.
  - apply truthy_false in Hv as ->. done.
  - apply truthy_false in Hv as ->. done.
Qed.

Lemma validate_api_key_stripped v :
  strip v <> "" -> validate_api_key v = Ok (strip v).
Proof.
  intros Hs. unfold validate_api_key.
  assert (truthy (strip v) = true) as -> by by apply truthy_true.
  destruct v; [done|]. done.
Qed.

Lemma vap_inr {A B} (f : vres (A -> B)) (x : vres A) (b : B) :
  vap f x = inr b -> exists g a, f = inr g /\ x = inr a /\ b = g a.
Proof. destruct f, x; simpl; try done. intros [= <-]. eauto. Qed.

Lemma run_validator_inr {A} k (r : result A) a :
  run_validator k r = inr a -> r = Ok a.
Proof. destruct r as [|[]]; simpl; congruence. Qed.

Lemma str_field_required_inr d k validator s :
  str_field d k None validator = inr s ->
  exists v, dict_get d k = Some (VStr v) /\ validator v = Ok s.
Proof.
  unfold str_field. destruct (dict_get d k) as [[]|]; try done.
  intros Hr%run_validator_inr. eauto.
Qed.

Lemma model_field_required_inr {M} data k (validate : dict -> vres M) m :
  model_field data k None validate = inr m ->
  exists d, dict_get data k = Some (VDict d) /\ validate d = inr m.
Proof.
  unfold model_field. destruct (dict_get data k) as [[]|]; try done.
  unfold at_loc. destruct (validate d) eqn:E; [done|].
  intros [= <-]. eauto.
Qed.

Section Validated.
  Context `{Region} `{PydanticLax}.

Lemma Config_validate_auth data c :
  Config_validate data = Ok c ->
  exists section v,
    dict_get data "auth" = Some (VDict section)
    /\ dict_get section "api_key" = Some (VStr v)
    /\ validate_api_key v = Ok (api_key (auth c)).
Proof.
  unfold Config_validate.
  match goal with |- match ?r with _ => _ end = _ -> _ => destruct r as [|c'] eqn:Hr end;
    [done|].
  intros [= ->]. repeat (apply vap_inr in Hr as (? & ? & Hr & ? & ->)). simplify_eq. simpl.
  match goal with
  | Hm : model_field _ "auth" _ _ = inr _ |- _ =>
      apply model_field_required_inr in Hm as (section & Hsec & Hauth)
  end.
  unfold AuthConfig_validate in Hauth. repeat (apply vap_inr in Hauth as (? & ? & Hauth & ? & ->)). simplify_eq. simpl.
  match goal with
  | Hf : str_field _ "api_key" _ _ = inr _ |- _ =>
      apply str_field_required_inr in Hf as (v & Hv & Hk)
  end.
  eauto.
Qed.

End Validated.
End SchemaFacts.

(** ** The api key of a validated configuration *)

(** C10.  A configuration that validation accepts took its api key from a
    string of the [auth] section that is not empty and not white space
    only; the key it holds is that string stripped, so it is not empty and
    neither starts nor ends with white space. *)
Theorem validated_api_key_is_stripped `{Region} `{PydanticLax}
    (data : dict) (c : Schema.Config) :
  Schema.Config_validate data = Ok c ->
  exists section v,
    dict_get data "auth" = Some (VDict section)
    /\ dict_get section "api_key" = Some (VStr v)
    /\ PyStr.all_space v = false
    /\ Schema.api_key (Schema.auth c) = PyStr.strip v
    /\ Schema.api_key (Schema.auth c) <> ""
    /\ PyStr.no_leading_space (Schema.api_key (Schema.auth c))
    /\ PyStr.no_trailing_space (Schema.api_key (Schema.auth c)).
Proof.
  intros Hc.
  destruct (SchemaFacts.Config_validate_auth data c Hc) as (section & v & Hs & Hv & Hk).
  apply SchemaFacts.validate_api_key_ok in Hk as [Hk Hne].
  exists section, v. repeat split; try done.
  - destruct (PyStr.all_space v) eqn:Hsp; [|done].
    by apply PyStrFacts.all_space_strip in Hsp.
  - by rewrite Hk.
  - rewrite Hk. apply PyStrFacts.strip_no_leading.
  - rewrite Hk. apply PyStrFacts.strip_no_trailing.
Qed.

Lemma validated_api_key_is_stripped_witness :
  exists section v,
    dict_get padded_key_data "auth" = Some (VDict section)
    /\ dict_get section "api_key" = Some (VStr v)
    /\ PyStr.all_space v = false
    /\ "ak-test123" = PyStr.strip v
    /\ "ak-test123" <> ""
    /\ PyStr.no_leading_space "ak-test123"
    /\ PyStr.no_trailing_space "ak-test123".
Proof.
  exact (@validated_api_key_is_stripped sample_regions strict_pydantic
           padded_key_data
           (Schema.Build_Config Schema.ProfileConfig_default
              {| Schema.api_key := "ak-test123" |}
              Schema.RoutingConfig_default Schema.TransportConfig_default
              Schema.SecurityConfig_default Schema.StorageConfig_default
              Schema.OutputConfig_default)
           eq_refl).
Defined.

(** ** Mutually exclusive routing options *)

(** C2.  The model validator of a routing section raises the
    mutually-exclusive error exactly when more than one of [has_region],
    [has_single], [has_base_domain] holds, whichever they are, and returns
    the section otherwise; so no routing section comes out of construction
    with more than one strategy active, and a section given only a single
    host and a single port is constructed. *)
Theorem routing_options_mutually_exclusive `{Region} :
  (forall self : Schema.RoutingConfig,
     Schema.validate_mutually_exclusive self =
       if decide (1 < active_strategies self)
       then Raise mutually_exclusive_error else Ok self)
  /\ (forall (d : dict) (self : Schema.RoutingConfig),
        Schema.RoutingConfig_validate d = inr self -> active_strategies self <= 1)
  /\ (forall host port : string,
        host <> "" -> port <> "" ->
        Schema.RoutingConfig_validate
          [("single_host", VStr host); ("single_port", VStr port)]
        = inr {| Schema.region := ""; Schema.single_host := host;
                 Schema.single_port := port; Schema.base_domain := "";
                 Schema.api_host := "api.arize.com"; Schema.api_scheme := "https";
                 Schema.otlp_host := "otlp.arize.com"; Schema.otlp_scheme := "https";
                 Schema.flight_host := "flight.arize.com"; Schema.flight_port := "443";
                 Schema.flight_scheme := "grpc+tls" |}).
Proof.
  assert (forall self : Schema.RoutingConfig,
     Schema.validate_mutually_exclusive self =
       if decide (1 < active_strategies self)
       then Raise mutually_exclusive_error else Ok self) as Hmodel.
  { intros [rg sh sp bd ? ? ? ? ? ? ?].
    unfold Schema.validate_mutually_exclusive, active_strategies,
      has_region, has_single, has_base_domain. simpl.
    destruct rg, sh, sp, bd; reflexivity. }
  split; [exact Hmodel|]. split.
  - intros d self. unfold Schema.RoutingConfig_validate.
    match goal with |- match ?f with _ => _ end = _ -> _ => destruct f as [|r] end;
      [done|].
    rewrite Hmodel. destruct (decide (1 < active_strategies r)); [done|].
    intros [= <-]. lia.
  - intros [|a host] [|b port] Hh Hp; done.
Qed.

(** The cases the tests of the schema name. *)
Example region_and_single_host_rejected :
  @Schema.RoutingConfig_validate sample_regions
    [("region", VStr "us-east-1b"); ("single_host", VStr "x.com")]
  = inl [([], "Value error, Only one routing option allowed: region, single_host/port, or base_domain")].
Proof. reflexivity. Qed.

Example region_and_base_domain_rejected :
  @Schema.RoutingConfig_validate sample_regions
    [("region", VStr "us-east-1b"); ("base_domain", VStr "example.com")]
  = inl [([], "Value error, Only one routing option allowed: region, single_host/port, or base_domain")].
Proof. reflexivity. Qed.

Example single_host_and_base_domain_rejected :
  @Schema.RoutingConfig_validate sample_regions
    [("single_host", VStr "api.example.com"); ("base_domain", VStr "example.com")]
  = inl [([], "Value error, Only one routing option allowed: region, single_host/port, or base_domain")].
Proof. reflexivity. Qed.

(** ** The active profile *)

Module ManagerFacts.
  Import PyStr PyStrFacts Schema Manager.

Section StoreFacts.
  Context {bytes : Type} `{Codec bytes}.

Lemma path_exists_true (st : store bytes) p n :
  lookup_path st p = Some n -> path_exists st p = true.
Proof. intros Hn. unfold path_exists. rewrite Hn. by apply bool_decide_eq_true_2. Qed.

Lemma path_exists_false (st : store bytes) p :
  lookup_path st p = None -> path_exists st p = false.
Proof.
  intros Hn. unfold path_exists. rewrite Hn.
  apply bool_decide_eq_false_2. by intros [? ?].
Qed.

Lemma get_active_profile_cases (st : store bytes) :
  get_active_profile st =
    Ok match active_profile_file st with
       | Some (File true data) =>
           match decode_text data with
           | Some text => strip text
           | None => "default"
           end
       | _ => "default"
       end.
Proof.
  unfold get_active_profile.
  destruct (active_profile_file st) as [[|[] data]|] eqn:Hm.
  - rewrite (path_exists_true st ACTIVE_PROFILE_FILE Dir Hm).
    unfold read_text, read_bytes. simpl. by rewrite Hm.
  - rewrite (path_exists_true st ACTIVE_PROFILE_FILE _ Hm).
    unfold read_text, read_bytes. simpl. rewrite Hm. simpl.
    by destruct (decode_text data).
  - rewrite (path_exists_true st ACTIVE_PROFILE_FILE _ Hm).
    unfold read_text, read_bytes. simpl. by rewrite Hm.
  - by rewrite (path_exists_false st ACTIVE_PROFILE_FILE Hm).
Qed.

End StoreFacts.
End ManagerFacts.


(** C9.  When the marker file can be read, the active profile is its
    contents stripped of surrounding white space, whatever profiles the
    store holds; a marker that is empty or white space only gives the empty
    name, not "default". *)
Theorem active_profile_is_stripped_marker {bytes : Type} `{Codec bytes}
    (st : Manager.store bytes) (data : bytes) (text : string) :
  Manager.active_profile_file st = Some (Manager.File true data) ->
  decode_text data = Some text ->
  Manager.get_active_profile st = Ok (PyStr.strip text)
  /\ (PyStr.all_space text = true ->
      Manager.get_active_profile st = Ok "" /\ "" <> "default").
Proof.
  intros Hm Hd. rewrite ManagerFacts.get_active_profile_cases, Hm, Hd.
  split; [done|]. intros Hs. by rewrite (PyStrFacts.all_space_strip _ Hs).
Qed.

Lemma active_profile_is_stripped_marker_witness :
  (@Manager.get_active_profile _ tree_codec ghost_marker_store = Ok "ghost"
   /\ @Manager.exists_ _ ghost_marker_store "ghost" = false)
  /\ @Manager.get_active_profile _ tree_codec blank_marker_store = Ok "".
Proof.
  split; [split|].
  - exact (proj1 (@active_profile_is_stripped_marker _ tree_codec ghost_marker_store
                    _ _ eq_refl eq_refl)).
  - reflexivity.
  - exact (proj1 (proj2 (@active_profile_is_stripped_marker _ tree_codec
                           blank_marker_store _ _ eq_refl eq_refl) eq_refl)).
Defined.

(** ** Deleting a profile *)

Module DeleteFacts.
  Import PyStr PyStrFacts Schema Manager ManagerFacts.

Section Delete.
  Context {bytes : Type} `{Codec bytes}.

Lemma delete_default (st : store bytes) :
  delete_profile st "default" = Raise default_profile_error.
Proof. reflexivity. Qed.

Lemma delete_active (st : store bytes) profile :
  profile <> "default" ->
  get_active_profile st = Ok profile ->
  delete_profile st profile = Raise (active_profile_error profile).
Proof.
  intros Hd Ha. unfold delete_profile.
  destruct (string_dec profile "default"); [done|].
  rewrite Ha. simpl. by destruct (string_dec profile profile).
Qed.

Lemma delete_other (st : store bytes) profile active :
  profile <> "default" ->
  get_active_profile st = Ok active ->
  profile <> active ->
  delete_profile st profile =
    match lookup_path st (_get_config_path profile) with
    | None => Ok st
    | Some Dir => Raise (OSError "IsADirectoryError")
    | Some (File _ _) => Ok (set_path st (_get_config_path profile) None)
    end.
Proof.
  intros Hd Ha Hne. unfold delete_profile.
  destruct (string_dec profile "default") as [|_]; [done|].
  rewrite Ha. simpl. destruct (string_dec profile active) as [|_]; [done|].
  destruct (lookup_path st (_get_config_path profile)) as [nd|] eqn:Hn.
  - rewrite (path_exists_true _ _ _ Hn). unfold unlink. rewrite Hn. by destruct nd.
  - by rewrite (path_exists_false _ _ Hn).
Qed.

Lemma get_config_path_other profile :
  profile <> "default" -> _get_config_path profile = InProfilesDir (profile +:+ ".toml").
Proof. intros Hd. unfold _get_config_path. by destruct (string_dec profile "default"). Qed.

Lemma lookup_unlinked (st : store bytes) f :
  lookup_path (set_path st (InProfilesDir f) None) (InProfilesDir f) = None.
Proof.
  simpl. destruct (profiles_dir st) as [entries|]; [|done].
  rewrite lookup_partial_alter. by destruct (decide (f = f)).
Qed.

Lemma active_after_unlink (st : store bytes) f :
  get_active_profile (set_path st (InProfilesDir f) None) = get_active_profile st.
Proof. by rewrite !get_active_profile_cases. Qed.

Lemma glob_toml_elem (st : store bytes) f :
  f ∈ glob_toml st <->
  endswith f ".toml" = true /\ is_Some (lookup_path st (InProfilesDir f)).
Proof.
  unfold glob_toml. simpl. destruct (profiles_dir st) as [entries|].
  - rewrite list_elem_of_filter, list_elem_of_fmap. split.
    + intros [Hext ([f' n] & -> & Hf)]. apply elem_of_map_to_list in Hf. eauto.
    + intros [Hext [n Hn]]. split; [done|]. exists (f, n). split; [done|].
      by apply elem_of_map_to_list.
  - split; [by intros ?%elem_of_nil | by intros [_ [? ?]]].
Qed.

Lemma named_by_profile_after_unlink (st : store bytes) f :
  profile_files_named_by_profile st ->
  profile_files_named_by_profile (set_path st (InProfilesDir f) None).
Proof.
  unfold profile_files_named_by_profile. rewrite !Forall_forall.
  intros Hwf g [Hext Hg]%glob_toml_elem. apply Hwf, glob_toml_elem.
  split; [done|]. simpl in *. destruct (profiles_dir st) as [entries|]; [|done].
  rewrite lookup_partial_alter in Hg. destruct (decide (f = g)); [|done].
  by destruct Hg.
Qed.

(** Under the layout, a listed profile other than "default" has its file. *)
Lemma listed_profile_exists (st : store bytes) profile :
  profile_files_named_by_profile st ->
  profile <> "default" ->
  profile ∈ list_profiles st ->
  is_Some (lookup_path st (InProfilesDir (profile +:+ ".toml"))).
Proof.
  intros Hwf Hd. unfold list_profiles, sorted. rewrite merge_sort_Permutation.
  rewrite elem_of_app. intros [Hin|Hin].
  - destruct (path_exists st DEFAULT_CONFIG_FILE); [|by apply elem_of_nil in Hin].
    by apply list_elem_of_singleton in Hin.
  - destruct (bool_decide (is_Some (profiles_dir st))); [|by apply elem_of_nil in Hin].
    apply list_elem_of_fmap in Hin as (f & -> & Hf).
    unfold profile_files_named_by_profile in Hwf. rewrite Forall_forall in Hwf.
    rewrite <- (Hwf f Hf). by apply glob_toml_elem in Hf as [_ Hf].
Qed.

End Delete.
End DeleteFacts.

(** C5.  For a profile name that is a file name component and a profiles
    directory laid out by profile name: deleting "default" fails; deleting
    the active profile fails; any other profile has its file removed when
    it is a regular file, and deleting succeeds with the store unchanged
    when there is no file (when a directory sits at the path, unlinking it
    raises).  After a delete that succeeded the profile has no file, is not
    listed, and deleting it again succeeds without a change. *)
Theorem delete_profile_guards {bytes : Type} `{Codec bytes}
    (st : Manager.store bytes) (profile active : string) :
  Manager.simple_name profile ->
  profile_files_named_by_profile st ->
  Manager.get_active_profile st = Ok active ->
  (profile = "default" ->
   Manager.delete_profile st profile = Raise default_profile_error)
  /\ (profile <> "default" -> profile = active ->
      Manager.delete_profile st profile = Raise (active_profile_error profile))
  /\ (profile <> "default" -> profile <> active ->
      match Manager.lookup_path st (Manager._get_config_path profile) with
      | None => Manager.delete_profile st profile = Ok st
      | Some (Manager.File _ _) =>
          exists st', Manager.delete_profile st profile = Ok st'
                      /\ Manager.exists_ st' profile = false
      | Some Manager.Dir =>
          Manager.delete_profile st profile = Raise (OSError "IsADirectoryError")
      end)
  /\ (forall st', Manager.delete_profile st profile = Ok st' ->
        Manager.exists_ st' profile = false
        /\ (profile ∉ Manager.list_profiles st')
        /\ Manager.delete_profile st' profile = Ok st').
Proof.
  intros _ Hwf Ha. split; [|split; [|split]].
  - intros ->. apply DeleteFacts.delete_default.
  - intros Hd ->. by apply DeleteFacts.delete_active.
  - intros Hd Hne. rewrite (DeleteFacts.delete_other st profile active Hd Ha Hne).
    destruct (Manager.lookup_path st (Manager._get_config_path profile))
      as [[|r data]|] eqn:Hn; try done.
    eexists. split; [done|]. unfold Manager.exists_.
    rewrite (DeleteFacts.get_config_path_other profile Hd).
    apply ManagerFacts.path_exists_false, DeleteFacts.lookup_unlinked.
  - intros st' Hdel.
    destruct (string_dec profile "default") as [->|Hd];
      [by rewrite DeleteFacts.delete_default in Hdel|].
    destruct (string_dec profile active) as [->|Hne];
      [by rewrite (DeleteFacts.delete_active st active Hd Ha) in Hdel|].
    rewrite (DeleteFacts.delete_other st profile active Hd Ha Hne) in Hdel.
    rewrite (DeleteFacts.get_config_path_other profile Hd) in Hdel.
    assert (Manager.lookup_path st' (Manager.InProfilesDir (profile +:+ ".toml")) = None
            /\ profile_files_named_by_profile st'
            /\ Manager.get_active_profile st' = Ok active) as (Hgone & Hwf' & Ha').
    { destruct (Manager.lookup_path st (Manager.InProfilesDir (profile +:+ ".toml")))
        as [[|r data]|] eqn:Hn; simplify_eq.
      - split; [apply DeleteFacts.lookup_unlinked|]. split.
        + by apply DeleteFacts.named_by_profile_after_unlink.
        + rewrite <- Ha. apply (DeleteFacts.active_after_unlink st (profile +:+ ".toml")).
      - done. }
    split; [|split].
    + unfold Manager.exists_. rewrite (DeleteFacts.get_config_path_other profile Hd).
      by apply ManagerFacts.path_exists_false.
    + intros Hin. apply (DeleteFacts.listed_profile_exists st' profile Hwf' Hd) in Hin.
      rewrite Hgone in Hin. by destruct Hin.
    + rewrite (DeleteFacts.delete_other st' profile active Hd Ha' Hne).
      rewrite (DeleteFacts.get_config_path_other profile Hd). by rewrite Hgone.
Qed.

Lemma three_profiles_store_layout : profile_files_named_by_profile three_profiles_store.
Proof.
  unfold profile_files_named_by_profile.
  apply (bool_decide_unpack _). vm_compute. exact I.
Qed.

Lemma delete_profile_guards_witness :
  @Manager.delete_profile _ tree_codec three_profiles_store "default"
    = Raise default_profile_error
  /\ @Manager.delete_profile _ tree_codec three_profiles_store "prod"
     = Raise (active_profile_error "prod")
  /\ (exists st', @Manager.delete_profile _ tree_codec three_profiles_store "dev" = Ok st'
                  /\ Manager.exists_ st' "dev" = false)
  /\ ("dev" ∉ Manager.list_profiles
                (Manager.set_path three_profiles_store
                   (Manager.InProfilesDir "dev.toml") None)).
Proof.
  split; [|split; [|split]].
  - exact (proj1 (@delete_profile_guards _ tree_codec three_profiles_store
                    "default" "prod" eq_refl three_profiles_store_layout eq_refl)
                 eq_refl).
  - refine (proj1 (proj2 (@delete_profile_guards _ tree_codec three_profiles_store
                            "prod" "prod" eq_refl three_profiles_store_layout eq_refl))
                  _ eq_refl).
    discriminate.
  - refine (proj1 (proj2 (proj2 (@delete_profile_guards _ tree_codec
                            three_profiles_store "dev" "prod" eq_refl
                            three_profiles_store_layout eq_refl))) _ _);
      discriminate.
  - refine (proj1 (proj2 (proj2 (proj2 (proj2 (@delete_profile_guards _ tree_codec
                            three_profiles_store "dev" "prod" eq_refl
                            three_profiles_store_layout eq_refl))) _ eq_refl))).
Defined.

(** C5, as the specification words it, fails on the last part: a hidden
    file named [.toml] has the stem [.toml], so it is listed under the name
    of the profile whose file is [.toml.toml], also after that profile was
    deleted with success. *)
Lemma delete_profile_listing_counterexample :
  ~ profile_files_named_by_profile stray_dot_toml_store
  /\ exists st', @Manager.delete_profile _ tree_codec stray_dot_toml_store ".toml" = Ok st'
                 /\ Manager.exists_ st' ".toml" = false
                 /\ ".toml" ∈ Manager.list_profiles st'.
Proof.
  split.
  - unfold profile_files_named_by_profile. intros Hwf.
    apply (bool_decide_pack _) in Hwf. vm_compute in Hwf. exact Hwf.
  - eexists. split; [reflexivity|]. split; [reflexivity|].
    apply (bool_decide_unpack _). vm_compute. exact I.
Qed.

(** ** Boolean coercion *)

Module ToBoolFacts.
  Import PyStr PyStrFacts Manager.

Lemma word_chars_true : word_chars "true".
Proof. repeat split; try reflexivity; word_char_tac. Qed.

Lemma word_chars_1 : word_chars "1".
Proof. repeat split; try reflexivity; word_char_tac. Qed.

Lemma word_chars_yes : word_chars "yes".
Proof. repeat split; try reflexivity; word_char_tac. Qed.

Lemma word_chars_on : word_chars "on".
Proof. repeat split; try reflexivity; word_char_tac. Qed.

Lemma true_words_chars w : w ∈ true_words -> word_chars w /\ w <> "".
Proof.
  unfold true_words. rewrite !elem_of_cons, elem_of_nil.
  intros [->|[->|[->|[->|[]]]]]; (split; [|done]).
  - apply word_chars_1.
  - apply word_chars_true.
  - apply word_chars_yes.
  - apply word_chars_on.
Qed.

Lemma same_word_lower s w :
  word_chars w -> same_word_any_case s w = true -> lower s = w.
Proof.
  revert w. induction s as [|a s IH]; intros [|b w]; simpl; try done.
  intros [(_ & _ & Hb & Hub & _) Hw] [Ha Hs]%andb_prop.
  rewrite (IH w Hw Hs). f_equal.
  apply orb_prop in Ha as [Ha|Ha]; apply bool_decide_eq_true_1 in Ha; by subst.
Qed.

Lemma lower_same_word s w :
  word_chars w -> lower s = w -> same_word_any_case s w = true.
Proof.
  revert w. induction s as [|a s IH]; intros [|b w]; simpl; try done.
  intros [(_ & _ & _ & _ & Hinv) Hw] [= Ha Hs].
  rewrite (IH w Hw Hs), andb_true_r.
  destruct (Hinv a Ha) as [->| ->].
  - by rewrite bool_decide_eq_true_2.
  - rewrite (bool_decide_eq_true_2 (upper_char b = upper_char b)) by done.
    by rewrite orb_true_r.
Qed.

Lemma same_word_no_space s w :
  word_chars w -> same_word_any_case s w = true ->
  no_leading_space s /\ no_trailing_space s.
Proof.
  revert w. induction s as [|a s IH]; intros [|b w]; simpl; try done.
  intros [(Hb & Hub & _) Hw] [Ha Hs]%andb_prop.
  assert (is_space a = false) as Hsa.
  { apply orb_prop in Ha as [Ha|Ha]; apply bool_decide_eq_true_1 in Ha; by subst. }
  split.
  - intros c [= <-]. exact Hsa.
  - destruct s as [|a' s]; [by intros c [= <-]|].
    intros c Hc. by apply (proj2 (IH w Hw Hs)).
Qed.

Lemma is_true_word_lower s :
  is_true_word s = true <-> lower s ∈ true_words.
Proof.
  unfold is_true_word. rewrite existsb_exists. split.
  - intros (w & Hw%list_elem_of_In & Hs).
    by rewrite (same_word_lower s w (proj1 (true_words_chars w Hw)) Hs).
  - intros Hw. exists (lower s). split; [by apply list_elem_of_In|].
    by apply lower_same_word; [apply true_words_chars|].
Qed.

Lemma is_true_word_no_space s :
  is_true_word s = true -> s <> "" /\ no_leading_space s /\ no_trailing_space s.
Proof.
  unfold is_true_word. rewrite existsb_exists.
  intros (w & Hw%list_elem_of_In & Hs).
  destruct (true_words_chars w Hw) as [Hc Hne]. split.
  - intros ->. by destruct w.
  - by apply (same_word_no_space s w).
Qed.

End ToBoolFacts.

(** C8, as the specification words it, fails: a true word with white
    space around it is another string than the word, and coerces to true. *)
Lemma to_bool_padded_counterexample : ~ to_bool_as_specified.
Proof. intros Hspec. specialize (Hspec " true "). vm_compute in Hspec. discriminate Hspec. Qed.

(** C8, amended.  A boolean is returned as it is.  A string coerces to
    true exactly when, between surrounding white space, it spells "true",
    "1", "yes" or "on" in some letter case; every other string, "false",
    "0", "no" and "off" among them, coerces to false. *)
Theorem to_bool_coercion :
  (forall b : bool, Manager._to_bool (BS_bool b) = b)
  /\ (forall s : string,
        Manager._to_bool (BS_str s) = true <-> is_padded_true_word s)
  /\ (forall s : string,
        is_true_word s = true -> Manager._to_bool (BS_str s) = true)
  /\ Manager._to_bool (BS_str "false") = false
  /\ Manager._to_bool (BS_str "0") = false
  /\ Manager._to_bool (BS_str "no") = false
  /\ Manager._to_bool (BS_str "off") = false.
Proof.
  assert (forall s, Manager._to_bool (BS_str s) = true <-> is_padded_true_word s) as Hiff.
  { intros s. unfold Manager._to_bool. fold true_words.
    rewrite bool_decide_eq_true, <- ToBoolFacts.is_true_word_lower. split.
    - intros Hw.
      destruct (PyStrFacts.strip_split s) as (pre & post & Hs & Hpre & Hpost).
      by exists pre, (PyStr.strip s), post.
    - intros (pre & w & post & -> & Hpre & Hpost & Hw).
      destruct (ToBoolFacts.is_true_word_no_space w Hw) as (Hne & Hl & Ht).
      by rewrite PyStrFacts.strip_surrounded. }
  split; [done|]. split; [exact Hiff|]. split; [|done].
  intros s Hs. apply Hiff. by exists "", s, ""; rewrite PyStrFacts.app_nil_r.
Qed.

(** ** The output dispatcher *)

Module OutputFacts.
  Import Output.

Lemma get_formatter_cases format_type :
  get_formatter format_type =
    match formatters_get formatters (PyStr.lower format_type) with
    | Some f => Ok f
    | None => Raise (unsupported_format_error format_type)
    end.
Proof. unfold get_formatter. destruct (formatters_get _ _); reflexivity. Qed.

Lemma formatters_get_Some name :
  name ∈ format_names -> is_Some (formatters_get formatters name).
Proof.
  unfold format_names. rewrite !elem_of_cons, elem_of_nil.
  intros [->|[->|[->|[->|[]]]]]; by eexists.
Qed.

Lemma formatters_get_None name :
  name ∉ format_names -> formatters_get formatters name = None.
Proof.
  unfold format_names. rewrite !not_elem_of_cons. intros (H1 & H2 & H3 & H4 & _).
  unfold formatters. cbn [formatters_get].
  destruct (string_dec "table" name) as [|_]; [congruence|].
  destruct (string_dec "json" name) as [|_]; [congruence|].
  destruct (string_dec "csv" name) as [|_]; [congruence|].
  destruct (string_dec "parquet" name) as [|_]; [congruence|done].
Qed.

End OutputFacts.

(** C7, as the specification words it, fails: the dispatcher lowers the
    format name before the lookup, so a name in capitals is outside the
    four names and still selects a formatter. *)
Lemma dispatcher_capitals_counterexample : ~ dispatcher_as_specified.
Proof.
  intros Hspec. destruct (Hspec "JSON") as [e He].
  - unfold format_names. rewrite !not_elem_of_cons. repeat split; try discriminate.
    apply not_elem_of_nil.
  - vm_compute in He. discriminate He.
Qed.

(** C7, amended.  With the format name compared in lower case: the table
    format with a destination file fails; the parquet format without one
    fails; a name outside the four fails with the error that enumerates
    them, whatever the destination; a name among the four selects a
    formatter without error. *)
Theorem output_dispatch_errors {data : Type} `{Renderer data} :
  (forall (d : data) (format_type output_file : string),
     PyStr.lower format_type = "table" -> output_file <> "" ->
     Output.output_data d format_type output_file = Raise table_to_file_error)
  /\ (forall (d : data) (format_type : string),
        PyStr.lower format_type = "parquet" ->
        Output.output_data d format_type "" = Raise parquet_without_file_error)
  /\ (forall (d : data) (format_type output_file : string),
        PyStr.lower format_type ∉ format_names ->
        Output.get_formatter format_type = Raise (unsupported_format_error format_type)
        /\ Output.output_data d format_type output_file
           = Raise (unsupported_format_error format_type))
  /\ (forall format_type : string,
        PyStr.lower format_type ∈ format_names ->
        exists formatter, Output.get_formatter format_type = Ok formatter).
Proof.
  split; [|split; [|split]].
  - intros d ft file Hft Hfile. unfold Output.output_data.
    rewrite OutputFacts.get_formatter_cases, Hft. simpl.
    by destruct file.
  - intros d ft Hft. unfold Output.output_data.
    by rewrite OutputFacts.get_formatter_cases, Hft.
  - intros d ft file Hft. unfold Output.output_data.
    rewrite OutputFacts.get_formatter_cases.
    by rewrite (OutputFacts.formatters_get_None _ Hft).
  - intros ft Hft. rewrite OutputFacts.get_formatter_cases.
    destruct (OutputFacts.formatters_get_Some _ Hft) as [f ->]. eauto.
Qed.

(** ** Classification of gRPC error text *)

Module ErrorFormatterFacts.
  Import PyStr PyStrFacts ErrorFormatter.

Lemma grpc_to_http_table (grpc_status : Z) :
  get grpc_to_http grpc_status (500%Z, "Server Error")
  = specified_http_status grpc_status.
Proof.
  unfold grpc_to_http. cbn [get].
  repeat match goal with
         | |- context [Z.eqb ?k grpc_status] =>
             destruct (Z.eqb_spec k grpc_status) as [<-|?]; [reflexivity|]
         end.
  unfold specified_http_status.
  destruct grpc_status as [|p|p]; try reflexivity; try congruence.
  do 5 (try (destruct p as [p|p|]; try reflexivity; try congruence)).
Qed.

Lemma take_length s : take (String.length s) s = s.
Proof. induction s as [|c s IH]; [done|]. simpl. by rewrite IH. Qed.

(** once a message matched, the record of a [RuntimeError] *)
Lemma parsed_fields error_text user_message :
  let grpc_status :=
    match Re.search grpc_status_re error_text with
    | Some g => int_of_digits g
    | None => (-1)%Z
    end in
  let p := parsed_from_text error_text user_message in
  status p = Some (fst (specified_http_status grpc_status))
  /\ reason p = Some (snd (specified_http_status grpc_status))
  /\ detail p = Some user_message
  /\ body p = Some (if String.length error_text <? 500 then error_text
                    else take 500 error_text +:+ "...").
Proof.
  cbv zeta. unfold parsed_from_text.
  rewrite grpc_to_http_table. by destruct (specified_http_status _).
Qed.

Lemma parse_grpc_error_runtime error_text cause g :
  message_match error_text = Some g ->
  parse_grpc_error (Exception true error_text cause)
  = Some (parsed_from_text error_text (strip g)).
Proof. intros Hm. simpl. by rewrite Hm. Qed.

(** where the body agrees with the specification, and where not *)
Lemma body_as_specified error_text user_message :
  String.length error_text <> 500 ->
  body (parsed_from_text error_text user_message) = Some (specified_body error_text).
Proof.
  intros Hlen. rewrite (proj2 (proj2 (proj2 (parsed_fields error_text user_message)))).
  unfold specified_body.
  destruct (Nat.ltb_spec (String.length error_text) 500),
           (Nat.ltb_spec 500 (String.length error_text)); try done; lia.
Qed.

Lemma body_at_500 error_text user_message :
  String.length error_text = 500 ->
  body (parsed_from_text error_text user_message) = Some (error_text +:+ "...")
  /\ specified_body error_text = error_text.
Proof.
  intros Hlen. rewrite (proj2 (proj2 (proj2 (parsed_fields error_text user_message)))).
  unfold specified_body.
  assert (take 500 error_text = error_text) as ->
    by (rewrite <- Hlen; apply take_length).
  by rewrite Hlen.
Qed.

End ErrorFormatterFacts.

(** C6.  On a [RuntimeError] text of exactly 500 characters with a gRPC
    message and the status 5, the record has HTTP status 404 with the
    reason "Not Found", as the table says; its body is the whole text with
    an ellipsis appended, though nothing was cut, where the specification
    asks for the text as it is. *)
Theorem grpc_body_ellipsis_at_500 :
  String.length text_of_500 = 500
  /\ (exists p,
        ErrorFormatter.parse_grpc_error (ErrorFormatter.Exception true text_of_500 None)
        = Some p
        /\ ErrorFormatter.status p = Some 404%Z
        /\ ErrorFormatter.reason p = Some "Not Found"
        /\ ErrorFormatter.detail p = Some "dataset not found"
        /\ ErrorFormatter.body p = Some (text_of_500 +:+ "...")
        /\ ErrorFormatter.body p <> Some (specified_body text_of_500)).
Proof.
  split; [by vm_compute|].
  eexists. split; [by vm_compute|].
  repeat split; try by vm_compute.
Qed.

(** ** Regular expressions *)

Module ReFacts.
  Import PyStr PyStrFacts.

Section Star.
  Context {A : Type}.

(** greedy: when the longest run lets the rest of the pattern match, that
    is the match *)
Lemma star_longest (cls : ascii -> bool) m r (k : string -> string -> option A) a :
  all_chars cls m = true ->
  (forall c r', r = String c r' -> cls c = false) ->
  k m r = Some a ->
  Re.star cls (m +:+ r) k = Some a.
Proof.
  revert k. induction m as [|c m IH]; intros k Hm Hr Hk.
  - rewrite app_nil_l. destruct r as [|c r']; [done|]. simpl.
    by rewrite (Hr c r' eq_refl).
  - simpl in Hm. apply andb_prop in Hm as [Hc Hm].
    rewrite app_cons. simpl. rewrite Hc.
    by rewrite (IH (fun m r => k (String c m) r) Hm Hr Hk).
Qed.

Lemma plus_longest (cls : ascii -> bool) m r (k : string -> string -> option A) a :
  m <> "" -> all_chars cls m = true ->
  (forall c r', r = String c r' -> cls c = false) ->
  k m r = Some a ->
  Re.plus cls (m +:+ r) k = Some a.
Proof.
  destruct m as [|c m]; [done|]. intros _ Hm Hr Hk.
  simpl in Hm. apply andb_prop in Hm as [Hc Hm].
  rewrite app_cons. simpl. rewrite Hc.
  by apply (star_longest cls m r (fun m r => k (String c m) r)).
Qed.

(** whatever matched is a run of the class followed by a match of the rest *)
Lemma star_sound (cls : ascii -> bool) s (k : string -> string -> option A) a :
  Re.star cls s k = Some a ->
  exists m r, s = m +:+ r /\ all_chars cls m = true /\ k m r = Some a.
Proof.
  revert k. induction s as [|c s IH]; intros k; simpl.
  - intros Hk. by exists "", "".
  - destruct (cls c) eqn:Hc.
    + destruct (Re.star cls s (fun m r => k (String c m) r)) as [a'|] eqn:Hs.
      * intros [= ->]. apply IH in Hs as (m & r & -> & Hm & Hk).
        exists (String c m), r. simpl. by rewrite Hc, Hm.
      * intros Hk. by exists "", (String c s).
    + intros Hk. by exists "", (String c s).
Qed.

Lemma plus_sound (cls : ascii -> bool) s (k : string -> string -> option A) a :
  Re.plus cls s k = Some a ->
  exists m r, s = m +:+ r /\ m <> "" /\ all_chars cls m = true /\ k m r = Some a.
Proof.
  destruct s as [|c s]; simpl; [done|].
  destruct (cls c) eqn:Hc; [|done].
  intros (m & r & -> & Hm & Hk)%star_sound.
  exists (String c m), r. simpl. by rewrite Hc, Hm.
Qed.

Lemma lit_app p r (k : string -> option A) : Re.lit p (p +:+ r) k = k r.
Proof.
  unfold Re.lit. assert (drop_prefix p (p +:+ r) = Some r) as ->; [|done].
  induction p as [|c p IH]; [done|]. simpl. by destruct (ascii_dec c c).
Qed.

Lemma lit_sound p s (k : string -> option A) a :
  Re.lit p s k = Some a -> exists r, s = p +:+ r /\ k r = Some a.
Proof.
  unfold Re.lit. destruct (drop_prefix p s) as [r|] eqn:Hp; [|done].
  intros Hk. exists r. split; [|done]. clear Hk.
  revert s Hp. induction p as [|c p IH]; intros s; simpl; [by intros [= ->]|].
  destruct s as [|b s]; [done|]. destruct (ascii_dec c b) as [<-|]; [|done].
  intros Hp. rewrite app_cons. f_equal. by apply IH.
Qed.

End Star.
End ReFacts.

(** ** Environment variable expansion *)

Module ExpandFacts.
  Import PyStr PyStrFacts ReFacts Manager.

Lemma pattern_complete name default rest :
  name_ok name = true -> default_ok default = true ->
  pattern (ref_text name default +:+ rest) = Some ((name, default), rest).
Proof.
  unfold name_ok. intros [Hne Hname]%andb_prop Hd.
  apply truthy_true in Hne.
  unfold pattern, ref_text. rewrite !app_assoc, lit_app.
  destruct default as [d|]; simpl in Hd.
  - apply plus_longest; [done|done| |].
    + intros c r'. rewrite app_assoc. by intros [= <- _].
    + rewrite !app_assoc, lit_app.
      assert (Re.star is_default_char (d +:+ "}" +:+ rest)
                (fun g2 s4 => Re.lit "}" s4
                   (fun rest0 => Some ((name, Some g2), rest0)))
              = Some ((name, Some d), rest)) as ->; [|done].
      apply star_longest; [done| |by rewrite lit_app].
      by intros c r' [= <- _].
  - rewrite app_nil_l. apply plus_longest; [done|done| |].
    + by intros c r' [= <- _].
    + assert (Re.lit ":" ("}" +:+ rest)
                (fun s3 => Re.star is_default_char s3
                   (fun g2 s4 => Re.lit "}" s4
                      (fun rest0 => Some ((name, Some g2), rest0)))) = None) as ->
        by done.
      by rewrite lit_app.
Qed.

Lemma pattern_sound s name default rest :
  pattern s = Some ((name, default), rest) ->
  s = ref_text name default +:+ rest
  /\ name_ok name = true /\ default_ok default = true.
Proof.
  unfold pattern.
  intros (s1 & -> & (g1 & s2 & -> & Hne & Hg1 & Hk)%plus_sound)%lit_sound.
  assert (name_ok g1 = true) as Hok
    by (unfold name_ok; rewrite Hg1, andb_true_r; by apply truthy_true).
  destruct (Re.lit ":" s2 _) as [m|] eqn:Hopt.
  - injection Hk as ->.
    apply lit_sound in Hopt as (s3 & -> & (g2 & s4 & -> & Hg2 & Hl)%star_sound).
    apply lit_sound in Hl as (r & -> & [= <- <- <-]).
    split; [|done]. unfold ref_text. by rewrite !app_assoc.
  - apply lit_sound in Hk as (r & -> & [= <- <- <-]).
    split; [|done]. unfold ref_text. by rewrite !app_assoc.
Qed.

Lemma pattern_none pre s :
  no_reference_within pre s ->
  forall p1 p2, pre = p1 +:+ p2 -> p2 <> "" -> pattern (p2 +:+ s) = None.
Proof.
  intros Hno p1 p2 Hpre Hp2.
  destruct (pattern (p2 +:+ s)) as [[[name default] rest]|] eqn:Hp; [|done].
  exfalso. apply (Hno p1 p2 Hpre Hp2).
  apply pattern_sound in Hp as (Hs & Hn & Hd). by exists name, default, rest.
Qed.

Section Sub.
  Context {G : Type} (m : string -> option (G * string)) (repl : G -> result string).

Lemma sub_from_skip pre s :
  Re.sub_from m repl (String.length pre) (pre +:+ s) = Re.sub_from m repl 0 s.
Proof.
  induction pre as [|c pre IH]; [|exact IH].
  rewrite app_nil_l. by destruct s.
Qed.

Lemma sub_from_match matched g rest :
  matched <> "" ->
  m (matched +:+ rest) = Some (g, rest) ->
  Re.sub_from m repl 0 (matched +:+ rest) =
    (v <- repl g ;; r <- Re.sub_from m repl 0 rest ;; Ok (v +:+ r)).
Proof.
  destruct matched as [|c mt]; [done|]. intros _ Hm.
  rewrite app_cons in *. simpl. rewrite Hm.
  replace (String.length (mt +:+ rest) - String.length rest) with (String.length mt)
    by (rewrite length_app; lia).
  by rewrite sub_from_skip.
Qed.

Lemma sub_from_copy pre s :
  (forall p1 p2, pre = p1 +:+ p2 -> p2 <> "" -> m (p2 +:+ s) = None) ->
  Re.sub_from m repl 0 (pre +:+ s) =
    (r <- Re.sub_from m repl 0 s ;; Ok (pre +:+ r)).
Proof.
  induction pre as [|c pre IH]; intros Hno.
  - rewrite app_nil_l. by destruct (Re.sub_from m repl 0 s).
  - rewrite app_cons. simpl.
    rewrite <- app_cons, (Hno "" (String c pre) eq_refl) by done.
    rewrite IH.
    + by destruct (Re.sub_from m repl 0 s).
    + intros p1 p2 -> Hp2. by apply (Hno (String c p1) p2).
Qed.

Lemma sub_from_raise skip s e :
  Re.sub_from m repl skip s = Raise e -> exists g, repl g = Raise e.
Proof.
  revert skip. induction s as [|c s IH]; intros skip; simpl; [done|].
  destruct skip as [|n]; [|by apply IH].
  destruct (m (String c s)) as [[g rest]|].
  - destruct (repl g) as [v|e'] eqn:Hg; simpl; [|intros [= <-]; eauto].
    destruct (Re.sub_from m repl _ s) as [r|e'] eqn:Hs; simpl; [done|].
    intros [= <-]. by apply IH in Hs.
  - destruct (Re.sub_from m repl 0 s) as [r|e'] eqn:Hs; simpl; [done|].
    intros [= <-]. by apply IH in Hs.
Qed.

End Sub.

Lemma replace_var_resolve environ name default :
  replace_var environ (name, default) = resolve environ name default.
Proof. reflexivity. Qed.

Section Expand.
  Variable environ : gmap string string.

Lemma expand_no_reference s :
  no_reference s -> _expand_env_var environ s = Ok s.
Proof.
  intros Hno. unfold _expand_env_var, Re.sub.
  rewrite <- (app_nil_r s) at 1.
  rewrite sub_from_copy by (by apply pattern_none).
  simpl. by rewrite app_nil_r.
Qed.

Lemma expand_leftmost_reference pre name default rest :
  name_ok name = true -> default_ok default = true ->
  no_reference_within pre (ref_text name default +:+ rest) ->
  _expand_env_var environ (pre +:+ ref_text name default +:+ rest) =
    (v <- resolve environ name default ;;
     r <- _expand_env_var environ rest ;;
     Ok (pre +:+ v +:+ r)).
Proof.
  intros Hn Hd Hno. unfold _expand_env_var, Re.sub.
  rewrite sub_from_copy by (by apply pattern_none).
  rewrite (sub_from_match pattern (replace_var environ)
             (ref_text name default) (name, default) rest).
  - rewrite replace_var_resolve.
    destruct (resolve environ name default) as [v|e]; simpl; [|done].
    by destruct (Re.sub_from pattern (replace_var environ) 0 rest).
  - unfold ref_text. by destruct name.
  - by apply pattern_complete.
Qed.

Lemma expand_raise s e :
  _expand_env_var environ s = Raise e ->
  exists name, environ !! name = None /\ e = missing_variable_error name.
Proof.
  intros ([name default] & Hr)%sub_from_raise.
  unfold replace_var in Hr. simpl in Hr.
  destruct (environ !! name) eqn:He; [done|]. destruct default; [done|].
  injection Hr as <-. eauto.
Qed.

End Expand.
End ExpandFacts.

Module ExpandTreeFacts.
  Import Manager ExpandFacts.

Section Tree.
  Variable environ : gmap string string.

Lemma expand_value_dict d :
  expand_value environ (VDict d) =
    (d' <- _expand_config_dict environ d ;; Ok (VDict d')).
Proof.
  simpl. f_equal.
Qed.

Lemma expand_value_expanded v v' :
  expand_value environ v = Ok v' -> expanded environ v v'.
Proof.
  revert v v'. fix IH 1. intros [ |b|z|s|r|l|d] v'.
  - intros [= <-]. constructor.
  - intros [= <-]. constructor.
  - intros [= <-]. constructor.
  - simpl. destruct (_expand_env_var environ s) as [s'|e] eqn:Hs; simpl; [|done].
    intros [= <-]. by constructor.
  - intros [= <-]. constructor.
  - intros [= <-]. constructor.
  - rewrite expand_value_dict.
    destruct (_expand_config_dict environ d) as [d'|e] eqn:Hd; simpl; [|done].
    intros [= <-]. constructor.
    revert d' Hd. induction d as [|[key v] d IHd]; intros d'; simpl.
    + intros [= <-]. constructor.
    + destruct (expand_value environ v) as [v1|e] eqn:Hv; simpl; [|done].
      destruct (_expand_config_dict environ d) as [r|e] eqn:Hd; simpl; [|done].
      intros [= <-]. constructor.
      * split; [done|]. by apply IH.
      * by apply IHd.
Qed.

Lemma expand_value_raise v e :
  expand_value environ v = Raise e ->
  exists name, environ !! name = None /\ e = missing_variable_error name.
Proof.
  revert v e. fix IH 1. intros [ |b|z|s|r|l|d] e; try done.
  - simpl. destruct (_expand_env_var environ s) as [s'|e'] eqn:Hs; simpl; [done|].
    intros [= <-]. by apply (expand_raise environ s).
  - rewrite expand_value_dict.
    destruct (_expand_config_dict environ d) as [d'|e'] eqn:Hd; simpl; [done|].
    intros [= ->].
    revert e Hd. induction d as [|[key v] d IHd]; intros e; simpl; [done|].
    destruct (expand_value environ v) as [v1|e1] eqn:Hv; simpl.
    + destruct (_expand_config_dict environ d) as [r|e2] eqn:Hd; simpl; [done|].
      intros [= <-]. by apply IHd.
    + intros [= <-]. by apply (IH v).
Qed.

Lemma expand_config_dict_expanded data data' :
  _expand_config_dict environ data = Ok data' ->
  expanded environ (VDict data) (VDict data').
Proof.
  intros Hd. apply expand_value_expanded. by rewrite expand_value_dict, Hd.
Qed.

Lemma expand_config_dict_raise data e :
  _expand_config_dict environ data = Raise e ->
  exists name, environ !! name = None /\ e = missing_variable_error name.
Proof.
  intros Hd. apply (expand_value_raise (VDict data)). by rewrite expand_value_dict, Hd.
Qed.

End Tree.
End ExpandTreeFacts.

(** C1.  A string that holds no reference is returned as it is.  In a
    string whose leftmost reference is [ref_text name default], preceded by
    [pre] and followed by [rest], the reference is replaced by the value of
    the variable if it is set, else by the default if the clause is there,
    else expansion fails with the error that names the variable; [rest] is
    expanded on its own and the replacement is not read again.  In a
    configuration tree the string leaves are expanded, nested dicts are
    walked, and every other leaf is left as it is; an expansion that fails
    fails with the missing-variable error of some unset variable. *)
Theorem expand_env_var_references (environ : gmap string string) :
  (forall s : string,
     no_reference s -> Manager._expand_env_var environ s = Ok s)
  /\ (forall (pre name : string) (default : option string) (rest : string),
        name_ok name = true -> default_ok default = true ->
        no_reference_within pre (ref_text name default +:+ rest) ->
        Manager._expand_env_var environ (pre +:+ ref_text name default +:+ rest) =
          (v <- resolve environ name default ;;
           r <- Manager._expand_env_var environ rest ;;
           Ok (pre +:+ v +:+ r)))
  /\ (forall data data' : dict,
        Manager._expand_config_dict environ data = Ok data' ->
        expanded environ (VDict data) (VDict data'))
  /\ (forall (data : dict) (e : exc),
        Manager._expand_config_dict environ data = Raise e ->
        exists name, environ !! name = None /\ e = missing_variable_error name).
Proof.
  split; [|split; [|split]].
  - apply ExpandFacts.expand_no_reference.
  - apply ExpandFacts.expand_leftmost_reference.
  - apply ExpandTreeFacts.expand_config_dict_expanded.
  - apply ExpandTreeFacts.expand_config_dict_raise.
Qed.

(** The examples of the specification and of the tests. *)
Example expand_set_variable :
  Manager._expand_env_var test_environ "${TEST_VAR}-world" = Ok "hello-world".
Proof. reflexivity. Qed.

Example expand_default :
  Manager._expand_env_var test_environ "${UNSET_VAR:fallback}" = Ok "fallback".
Proof. reflexivity. Qed.

Example expand_missing :
  Manager._expand_env_var test_environ "${UNSET_VAR}"
  = Raise (missing_variable_error "UNSET_VAR").
Proof. reflexivity. Qed.

Example expand_two_references :
  Manager._expand_env_var two_vars_environ "${VAR1}-${VAR2}" = Ok "value1-value2".
Proof. reflexivity. Qed.

Example expand_literal :
  Manager._expand_env_var test_environ "literal_value" = Ok "literal_value".
Proof. reflexivity. Qed.

(** A reference needs a name: braces with nothing, or with a default
    only, are no reference and stay. *)
Example expand_empty_name :
  Manager._expand_env_var test_environ "${}" = Ok "${}"
  /\ Manager._expand_env_var test_environ "${:fallback}" = Ok "${:fallback}".
Proof. split; reflexivity. Qed.

Example expand_tree_keeps_other_leaves :
  Manager._expand_config_dict test_environ
    [("auth", VDict [("api_key", VStr "${TEST_VAR}")]);
     ("transport", VDict [("stream_max_workers", VInt 8);
                          ("cache_enabled", VBool true)])]
  = Ok [("auth", VDict [("api_key", VStr "hello")]);
        ("transport", VDict [("stream_max_workers", VInt 8);
                             ("cache_enabled", VBool true)])].
Proof. reflexivity. Qed.

(** ** Saving and loading a profile *)

Module RoundTripFacts.
  Import PyStr PyStrFacts Schema SchemaFacts Manager ManagerFacts.

Lemma remove_empty_values_dict d :
  _remove_empty_values (VDict d) = VDict (remove_empty_items d).
Proof.
  reflexivity.
Qed.

Lemma dict_get_removed_absent d k :
  k ∉ dict_keys d -> dict_get (remove_empty_items d) k = None.
Proof.
  induction d as [|[k' v] d IH]; [done|]. simpl.
  rewrite not_elem_of_cons. intros [Hk Hd].
  destruct (not_empty v); simpl; [|by apply IH].
  destruct (string_dec k' k) as [|_]; [congruence|by apply IH].
Qed.

Lemma dict_get_removed d k :
  NoDup (dict_keys d) ->
  dict_get (remove_empty_items d) k =
    match dict_get d k with
    | Some v => if not_empty v then Some (_remove_empty_values v) else None
    | None => None
    end.
Proof.
  induction d as [|[k' v] d IH]; [done|]. simpl.
  intros [Hk Hd]%NoDup_cons.
  destruct (string_dec k' k) as [->|Hne].
  - destruct (not_empty v); simpl.
    + by destruct (string_dec k k).
    + by apply dict_get_removed_absent.
  - destruct (not_empty v); simpl; [|by apply IH].
    destruct (string_dec k' k) as [|_]; [done|by apply IH].
Qed.

Lemma str_field_removed d k dflt validator s :
  NoDup (dict_keys d) ->
  dict_get d k = Some (VStr s) ->
  str_field (remove_empty_items d) k (Some dflt) validator =
    if truthy s then run_validator k (validator s) else inr dflt.
Proof.
  intros Hd Hk. unfold str_field. rewrite (dict_get_removed d k Hd), Hk. simpl.
  by destruct (truthy s).
Qed.

Lemma str_field_removed_ok d k dflt s :
  NoDup (dict_keys d) ->
  dict_get d k = Some (VStr s) ->
  str_field (remove_empty_items d) k (Some dflt) Ok = inr (or_default s dflt).
Proof.
  intros Hd Hk. rewrite (str_field_removed d k dflt Ok s Hd Hk).
  unfold or_default. by destruct (truthy s).
Qed.

Lemma or_default_empty s : or_default s "" = s.
Proof. by destruct s. Qed.

Lemma routing_dump_keys r : NoDup (dict_keys (RoutingConfig_dump r)).
Proof. apply (bool_decide_unpack _). by vm_compute. Qed.

Lemma mutually_exclusive_same_strategy r r' :
  region r' = region r -> single_host r' = single_host r ->
  single_port r' = single_port r -> base_domain r' = base_domain r ->
  validate_mutually_exclusive r = Ok r ->
  validate_mutually_exclusive r' = Ok r'.
Proof.
  unfold validate_mutually_exclusive. intros -> -> -> ->.
  by destruct (1 <? _).
Qed.

Section Reload.
  Context `{Region} `{PydanticLax}.

Lemma profile_reload n :
  ProfileConfig_validate (remove_empty_items [("name", VStr n)])
  = inr {| name := or_default n "default" |}.
Proof. by destruct n. Qed.

Lemma auth_reload k :
  validate_api_key k = Ok k ->
  AuthConfig_validate (remove_empty_items [("api_key", VStr k)]) = inr {| api_key := k |}.
Proof.
  intros Hk. destruct k as [|c k]; [done|].
  unfold AuthConfig_validate, str_field.
  cbn [remove_empty_items not_empty truthy dict_get _remove_empty_values].
  destruct (string_dec "api_key" "api_key") as [_|]; [|done].
  by rewrite Hk.
Qed.

Lemma routing_reload r :
  validate_region (region r) = Ok (region r) ->
  validate_mutually_exclusive r = Ok r ->
  RoutingConfig_validate (remove_empty_items (RoutingConfig_dump r))
  = inr (routing_with_defaults r).
Proof.
  intros Hregion Hexcl. unfold RoutingConfig_validate.
  rewrite (str_field_removed _ "region" "" validate_region (region r)
             (routing_dump_keys r) eq_refl).
  rewrite Hregion.
  assert ((if truthy (region r) then run_validator "region" (Ok (region r))
           else inr "") = inr (or_default (region r) "")) as ->
    by (unfold or_default; by destruct (truthy (region r))).
  rewrite (str_field_removed_ok _ "single_host" "" (single_host r) (routing_dump_keys r) eq_refl).
  rewrite (str_field_removed_ok _ "single_port" "" (single_port r) (routing_dump_keys r) eq_refl).
  rewrite (str_field_removed_ok _ "base_domain" "" (base_domain r) (routing_dump_keys r) eq_refl).
  rewrite (str_field_removed_ok _ "api_host" _ (api_host r) (routing_dump_keys r) eq_refl).
  rewrite (str_field_removed_ok _ "api_scheme" _ (api_scheme r) (routing_dump_keys r) eq_refl).
  rewrite (str_field_removed_ok _ "otlp_host" _ (otlp_host r) (routing_dump_keys r) eq_refl).
  rewrite (str_field_removed_ok _ "otlp_scheme" _ (otlp_scheme r) (routing_dump_keys r) eq_refl).
  rewrite (str_field_removed_ok _ "flight_host" _ (flight_host r) (routing_dump_keys r) eq_refl).
  rewrite (str_field_removed_ok _ "flight_port" _ (flight_port r) (routing_dump_keys r) eq_refl).
  rewrite (str_field_removed_ok _ "flight_scheme" _ (flight_scheme r) (routing_dump_keys r) eq_refl).
  cbn [vap]. fold (routing_with_defaults r).
  rewrite (mutually_exclusive_same_strategy r (routing_with_defaults r));
    [done|apply or_default_empty..|done].
Qed.

Lemma transport_reload t :
  TransportConfig_validate (remove_empty_items (TransportConfig_dump t))
  = inr (transport_with_defaults t).
Proof.
  destruct t as [[z1|[|c1 s1]] [z2|[|c2 s2]] [z3|[|c3 s3]] [z4|[|c4 s4]]]; reflexivity.
Qed.

Lemma security_reload x :
  SecurityConfig_validate (remove_empty_items [("request_verify", dump_bool_or_str x)])
  = inr {| request_verify := bool_or_str_or_default x (BS_bool true) |}.
Proof. destruct x as [b|[|c s]]; reflexivity. Qed.

Lemma storage_reload dir b :
  StorageConfig_validate
    (remove_empty_items [("directory", VStr dir); ("cache_enabled", VBool b)])
  = inr {| directory := or_default dir "~/.arize"; cache_enabled := b |}.
Proof. destruct dir; reflexivity. Qed.

Lemma output_reload f :
  OutputConfig_validate (remove_empty_items [("format", VStr (string_of_format f))])
  = inr {| format := f |}.
Proof. destruct f; reflexivity. Qed.

Lemma model_field_section {M} (data : dict) k (default : option M)
    (validate : dict -> vres M) d m :
  dict_get data k = Some (VDict d) ->
  validate d = inr m ->
  model_field data k default validate = inr m.
Proof. intros Hk Hv. unfold model_field. by rewrite Hk, Hv. Qed.

(** what [save] writes, read back by the schema *)
Lemma Config_validate_dumped c :
  Config_valid c ->
  Config_validate (remove_empty_items (model_dump c)) = Ok (with_schema_defaults c).
Proof.
  intros (Hkey & Hregion & Hexcl). unfold Config_validate.
  cbn [model_dump remove_empty_items not_empty].
  rewrite !remove_empty_values_dict.
  match goal with |- context [model_field ?d "profile" _ _] => set (data := d) end.
  rewrite (model_field_section data "profile" _ _ _ _ eq_refl (profile_reload _)).
  rewrite (model_field_section data "auth" _ _ _ _ eq_refl (auth_reload _ Hkey)).
  rewrite (model_field_section data "routing" _ _ _ _ eq_refl
             (routing_reload _ Hregion Hexcl)).
  rewrite (model_field_section data "transport" _ _ _ _ eq_refl (transport_reload _)).
  rewrite (model_field_section data "security" _ _ _ _ eq_refl (security_reload _)).
  rewrite (model_field_section data "storage" _ _ _ _ eq_refl (storage_reload _ _)).
  rewrite (model_field_section data "output" _ _ _ _ eq_refl (output_reload _)).
  assert (extra_forbidden data = inr tt) as -> by reflexivity.
  cbn [vap]. by destruct c as [? [?] ? ? ? ? [?]].
Qed.

End Reload.
End RoundTripFacts.

Module SaveLoadFacts.
  Import PyStr PyStrFacts Schema SchemaFacts Manager ManagerFacts RoundTripFacts.

Lemma removed_scalars d :
  forallb (fun kv => toml_scalar (snd kv)) d = true ->
  forallb (fun kv => toml_scalar (snd kv)) (remove_empty_items d) = true.
Proof.
  induction d as [|[k v] d IH]; [done|]. simpl.
  intros [Hv Hd]%andb_prop. destruct (not_empty v); [|by apply IH].
  simpl. rewrite (IH Hd), andb_true_r. by destruct v.
Qed.

Lemma dumped_is_document c :
  toml_document (remove_empty_items (model_dump c)) = true.
Proof.
  cbn [model_dump remove_empty_items not_empty toml_document forallb snd].
  rewrite !remove_empty_values_dict. cbn [toml_section].
  rewrite !removed_scalars; try reflexivity.
  - by destruct (request_verify (security c)).
  - by destruct (transport c) as [[] [] [] []].
Qed.

Lemma with_profile_name_valid `{Region} c profile :
  Config_valid c -> Config_valid (with_profile_name c profile).
Proof. done. Qed.

Lemma no_empty_field_renamed c profile :
  profile <> "" -> no_empty_field c ->
  with_schema_defaults (with_profile_name c profile) = with_profile_name c profile.
Proof.
  intros Hp Hc. unfold no_empty_field in Hc.
  unfold with_schema_defaults, with_profile_name in *. simpl.
  apply (f_equal routing) in Hc as Hr. apply (f_equal transport) in Hc as Ht.
  apply (f_equal security) in Hc as Hs. apply (f_equal storage) in Hc as Hst.
  simpl in Hr, Ht, Hs, Hst. rewrite Hr, Ht, Hs, Hst.
  f_equal. unfold or_default. by destruct profile.
Qed.

Section Store.
  Context {bytes : Type} `{Codec bytes}.

Lemma lookup_ensure_dirs (st : store bytes) p :
  lookup_path (_ensure_dirs st) p = lookup_path st p.
Proof. destruct p; try done. simpl. by destruct (profiles_dir st). Qed.

Lemma lookup_written (st : store bytes) p n :
  lookup_path (set_path (_ensure_dirs st) p (Some n)) p = Some n.
Proof.
  destruct p; try done. simpl. rewrite lookup_partial_alter.
  by destruct (decide (filename = filename)).
Qed.

Lemma write_accessible (st : store bytes) profile raw :
  profile_file_accessible st profile ->
  open_wb (_ensure_dirs st) (_get_config_path profile) = Ok tt
  /\ exists st', write_bytes (_ensure_dirs st) (_get_config_path profile) raw = Ok st'
                 /\ lookup_path st' (_get_config_path profile) = Some (File true raw).
Proof.
  unfold profile_file_accessible, open_wb, write_bytes.
  rewrite lookup_ensure_dirs.
  destruct (lookup_path st (_get_config_path profile)) as [[|r data]|]; [done| |].
  - intros ->. split; [done|]. eexists. split; [done|]. apply lookup_written.
  - intros _. assert (profiles_dir (_ensure_dirs st) = Some (default ∅ (profiles_dir st)))
      as -> by done.
    generalize (_get_config_path profile). intros p.
    split; [by destruct p|].
    eexists. split; [by destruct p|]. apply lookup_written.
Qed.

End Store.
End SaveLoadFacts.

(** C3.  With a TOML codec that round-trips documents, a valid
    configuration saved under a non-empty profile name whose file can be
    written and read comes back from [load] without expansion as the
    configuration the save left (its profile name is the name saved under)
    with every empty string field replaced by its schema default; with no
    empty field it comes back as it is. *)
Theorem save_load_round_trip {bytes : Type} `{Codec bytes} `{Region} `{PydanticLax}
    (environ : gmap string string) (st : Manager.store bytes)
    (config : Schema.Config) (profile : string) :
  toml_round_trips ->
  Schema.Config_valid config ->
  profile <> "" ->
  Manager.simple_name profile ->
  profile_file_accessible st profile ->
  exists st',
    Manager.save st config profile
    = Ok (Manager.with_profile_name config profile, st')
    /\ Manager.load environ st' profile false
       = Ok (with_schema_defaults (Manager.with_profile_name config profile))
    /\ (no_empty_field config ->
        Manager.load environ st' profile false
        = Ok (Manager.with_profile_name config profile)).
Proof.
  intros Hcodec Hvalid Hname _ Hfile.
  pose (c' := Manager.with_profile_name config profile).
  destruct (Hcodec _ (SaveLoadFacts.dumped_is_document c')) as (raw & Hdump & Hload).
  destruct (SaveLoadFacts.write_accessible st profile raw Hfile)
    as (Hopen & st' & Hwrite & Hlook).
  exists st'.
  assert (Manager.load environ st' profile false = Ok (with_schema_defaults c')) as Hl.
  { unfold Manager.load.
    assert (PyStr.truthy profile = true) as -> by by apply PyStrFacts.truthy_true.
    simpl. rewrite (ManagerFacts.path_exists_true _ _ _ Hlook). simpl.
    unfold Manager.read_bytes. rewrite Hlook. simpl. rewrite Hload. simpl.
    by rewrite (RoundTripFacts.Config_validate_dumped c'
                  (SaveLoadFacts.with_profile_name_valid config profile Hvalid)). }
  split; [|split; [exact Hl|]].
  - unfold Manager.save. rewrite RoundTripFacts.remove_empty_values_dict.
    cbv zeta. rewrite Hopen. unfold c' in *. cbn [bind try_except].
    rewrite Hdump. cbn [bind]. by rewrite Hwrite.
  - intros Hne. rewrite Hl. f_equal.
    by apply SaveLoadFacts.no_empty_field_renamed.
Qed.

Lemma save_load_round_trip_witness :
  exists st',
    @Manager.save _ tree_codec empty_store sample_config "correct_name"
    = Ok (Manager.with_profile_name sample_config "correct_name", st')
    /\ @Manager.load _ tree_codec sample_regions strict_pydantic ∅ st' "correct_name" false
       = Ok (with_schema_defaults (Manager.with_profile_name sample_config "correct_name")).
Proof.
  assert (@toml_round_trips _ tree_codec) as Hcodec.
  { intros d _. exists (inr d). split; reflexivity. }
  assert (@Schema.Config_valid sample_regions sample_config) as Hvalid.
  { repeat split; vm_compute; reflexivity. }
  assert ("correct_name" <> "") as Hname by discriminate.
  destruct (@save_load_round_trip _ tree_codec sample_regions strict_pydantic ∅
              empty_store sample_config "correct_name" Hcodec Hvalid Hname eq_refl I)
    as (st' & Hsave & Hload & _).
  exists st'. split; [exact Hsave | exact Hload].
Defined.

(** what the sample comes back as: the name it was saved under, and the
    defaults where it had empty strings *)
Example sample_config_reloaded :
  with_schema_defaults (Manager.with_profile_name sample_config "correct_name")
  = {| Schema.profile := {| Schema.name := "correct_name" |};
       Schema.auth := {| Schema.api_key := "${ARIZE_API_KEY}" |};
       Schema.routing :=
         {| Schema.region := "us-east-1b"; Schema.single_host := "";
            Schema.single_port := ""; Schema.base_domain := "";
            Schema.api_host := "api.arize.com"; Schema.api_scheme := "https";
            Schema.otlp_host := "otlp.arize.com"; Schema.otlp_scheme := "https";
            Schema.flight_host := "flight.arize.com"; Schema.flight_port := "443";
            Schema.flight_scheme := "grpc+tls" |};
       Schema.transport :=
         {| Schema.stream_max_workers := IS_str "16";
            Schema.stream_max_queue_bound := IS_int 5000;
            Schema.pyarrow_max_chunksize := IS_int 20000;
            Schema.max_http_payload_size_mb := IS_int 8 |};
       Schema.security := {| Schema.request_verify := BS_str "${ARIZE_REQUEST_VERIFY}" |};
       Schema.storage := {| Schema.directory := "~/.arize"; Schema.cache_enabled := false |};
       Schema.output := {| Schema.format := json |} |}.
Proof. reflexivity. Qed.

(** running the model on the sample gives the same *)
Example sample_config_round_trip :
  match @Manager.save _ tree_codec empty_store sample_config "correct_name" with
  | Ok (_, st') =>
      @Manager.load _ tree_codec sample_regions strict_pydantic ∅ st' "correct_name" false
  | Raise e => Raise e
  end
  = Ok (with_schema_defaults (Manager.with_profile_name sample_config "correct_name")).
Proof. vm_compute. reflexivity. Qed.

(** ** The layout of the profiles directory is kept by the store *)

Module LayoutFacts.
  Import PyStr PyStrFacts Schema Manager ManagerFacts DeleteFacts.

Lemma rfind_app c s t :
  rfind c (s +:+ t) =
    match rfind c t with
    | Some i => Some (String.length s + i)
    | None => rfind c s
    end.
Proof.
  induction s as [|a s IH].
  - rewrite app_nil_l. destruct (rfind c t); reflexivity.
  - rewrite app_cons. simpl. rewrite IH. destruct (rfind c t); reflexivity.
Qed.

Lemma take_app s t : take (String.length s) (s +:+ t) = s.
Proof.
  induction s as [|a s IH].
  - rewrite app_nil_l. destruct t; reflexivity.
  - rewrite app_cons. simpl. by rewrite IH.
Qed.

(** the stem of the file of a profile with a name is the name *)
Lemma stem_profile_file profile :
  profile <> "" -> stem (profile +:+ ".toml") = profile.
Proof.
  intros Hp. unfold stem. rewrite rfind_app.
  change (rfind "."%char ".toml") with (Some 0). cbv iota beta.
  rewrite Nat.add_0_r, length_app.
  assert ((0 <? String.length profile)
          && (String.length profile <? String.length profile + String.length ".toml" - 1)
          = true) as ->.
  { apply andb_true_intro. split; apply Nat.ltb_lt.
    - destruct profile; [done|simpl; lia].
    - simpl. lia. }
  apply take_app.
Qed.

Section Layout.
  Context {bytes : Type} `{Codec bytes}.

Lemma layout_empty :
  profile_files_named_by_profile (Build_store (bytes:=bytes) None None None).
Proof. constructor. Qed.

Lemma layout_after_write (st : store bytes) profile n :
  profile <> "" ->
  profile_files_named_by_profile st ->
  profile_files_named_by_profile
    (set_path (_ensure_dirs st) (_get_config_path profile) (Some n)).
Proof.
  intros Hp. unfold profile_files_named_by_profile. rewrite !Forall_forall.
  intros Hwf f [Hext Hf]%glob_toml_elem.
  unfold _get_config_path in Hf.
  destruct (string_dec profile "default") as [_|_].
  - apply Hwf, glob_toml_elem. split; [done|].
    simpl in *. by destruct (profiles_dir st).
  - simpl in Hf. rewrite lookup_partial_alter in Hf.
    destruct (decide (profile +:+ ".toml" = f)) as [<-|Hne].
    + by rewrite stem_profile_file.
    + apply Hwf, glob_toml_elem. split; [done|].
      simpl. destruct (profiles_dir st); [done|].
      simpl in Hf. by rewrite lookup_empty in Hf.
Qed.

(** [save] under a name keeps the layout *)
Lemma layout_after_save (st st' : store bytes) config config' profile :
  profile <> "" ->
  profile_files_named_by_profile st ->
  save st config profile = Ok (config', st') ->
  profile_files_named_by_profile st'.
Proof.
  intros Hp Hwf. unfold save, open_wb, write_bytes. cbv zeta.
  destruct (lookup_path (_ensure_dirs st) (_get_config_path profile))
    as [[|r data]|] eqn:Hl; cbn [bind try_except]; [done| |].
  - rewrite RoundTripFacts.remove_empty_values_dict.
    destruct (toml_dump _) as [raw|]; cbn [bind try_except]; [|done].
    intros [= _ <-]. by apply layout_after_write.
  - assert (profiles_dir (_ensure_dirs st) = Some (default ∅ (profiles_dir st)))
      as -> by done.
    rewrite RoundTripFacts.remove_empty_values_dict.
    generalize (layout_after_write st profile). 
    generalize (_get_config_path profile). intros p Hlayout.
    destruct p; cbn [bind try_except];
      (destruct (toml_dump _) as [raw|]; cbn [bind try_except]; [|done]);
      intros [= _ <-]; by apply Hlayout.
Qed.

End Layout.
End LayoutFacts.

(** ** The statements at concrete inputs *)

Lemma expand_env_var_references_witness :
  Manager._expand_env_var test_environ "x-${TEST_VAR}-${UNSET_VAR:fallback}"
  = Ok "x-hello-fallback"
  /\ Manager._expand_env_var test_environ "x-${UNSET_VAR}-${TEST_VAR}"
     = Raise (missing_variable_error "UNSET_VAR").
Proof.
  assert (forall s, no_reference_within "x-" (String "$" s)) as Hno.
  { intros s p1 p2 Hpre Hp2 (name & default & rest & _ & _ & Href).
    destruct p1 as [|a [|b [|c p1]]];
      rewrite ?PyStrFacts.app_cons, ?PyStrFacts.app_nil_l in Hpre;
      simplify_eq; discriminate Href. }
  split.
  - exact (proj1 (proj2 (expand_env_var_references test_environ))
             "x-" "TEST_VAR" None "-${UNSET_VAR:fallback}" eq_refl eq_refl (Hno _)).
  - exact (proj1 (proj2 (expand_env_var_references test_environ))
             "x-" "UNSET_VAR" None "-${TEST_VAR}" eq_refl eq_refl (Hno _)).
Defined.

Lemma routing_options_mutually_exclusive_witness :
  @Schema.RoutingConfig_validate sample_regions
    [("single_host", VStr "api.example.com"); ("single_port", VStr "8443")]
  = inr {| Schema.region := ""; Schema.single_host := "api.example.com";
           Schema.single_port := "8443"; Schema.base_domain := "";
           Schema.api_host := "api.arize.com"; Schema.api_scheme := "https";
           Schema.otlp_host := "otlp.arize.com"; Schema.otlp_scheme := "https";
           Schema.flight_host := "flight.arize.com"; Schema.flight_port := "443";
           Schema.flight_scheme := "grpc+tls" |}.
Proof.
  refine (proj2 (proj2 (@routing_options_mutually_exclusive sample_regions))
            "api.example.com" "8443" _ _); discriminate.
Defined.

Lemma output_dispatch_errors_witness :
  @Output.output_data _ silent_renderer tt "Table" "out.txt" = Raise table_to_file_error
  /\ @Output.output_data _ silent_renderer tt "PARQUET" "" = Raise parquet_without_file_error
  /\ Output.get_formatter "xml" = Raise (unsupported_format_error "xml")
  /\ (exists formatter, Output.get_formatter "Json" = Ok formatter).
Proof.
  pose proof (@output_dispatch_errors _ silent_renderer) as (Htable & Hparquet & Hother & Hin).
  split; [|split; [|split]].
  - apply Htable; [reflexivity|discriminate].
  - apply Hparquet. reflexivity.
  - refine (proj1 (Hother tt "xml" "" _)).
    unfold format_names. rewrite !not_elem_of_cons.
    repeat split; try discriminate. apply not_elem_of_nil.
  - apply Hin. unfold format_names. rewrite !elem_of_cons. right. by left.
Defined.

Lemma to_bool_coercion_witness :
  Manager._to_bool (BS_str "  Yes ") = true
  /\ Manager._to_bool (BS_str "TRUE") = true
  /\ Manager._to_bool (BS_bool false) = false.
Proof.
  destruct to_bool_coercion as (Hbool & Hiff & Hword & _).
  split; [|split].
  - apply Hiff. exists "  ", "Yes", " ". repeat split; reflexivity.
  - apply Hword. reflexivity.
  - apply Hbool.
Defined.

(** ** The profile store: listing, activating, saving, deleting *)

Module StoreOpsFacts.
  Import PyStr PyStrFacts Schema Manager ManagerFacts DeleteFacts SaveLoadFacts LayoutFacts.

Lemma endswith_app s p : endswith (s +:+ p) p = true.
Proof.
  induction s as [|c s IH].
  - rewrite app_nil_l. destruct p as [|a p]; [done|]. cbn [endswith].
    by destruct (string_dec (String a p) (String a p)).
  - rewrite app_cons. cbn [endswith]. by destruct (string_dec _ p).
Qed.

Lemma app_inj_r s t p : s +:+ p = t +:+ p -> s = t.
Proof.
  revert t. induction s as [|a s IH]; intros [|b t]; rewrite ?app_cons, ?app_nil_l.
  - done.
  - intros Hp. apply (f_equal String.length) in Hp. simpl in Hp.
    rewrite length_app in Hp. lia.
  - intros Hp. apply (f_equal String.length) in Hp. simpl in Hp.
    rewrite length_app in Hp. lia.
  - intros [= -> Hp]. f_equal. by apply IH.
Qed.

Lemma get_config_path_inj p q : _get_config_path p = _get_config_path q -> p = q.
Proof.
  unfold _get_config_path.
  destruct (string_dec p "default") as [->|Hp], (string_dec q "default") as [->|Hq];
    try done.
  intros [= Hpq]. by apply app_inj_r in Hpq.
Qed.

Section Store.
  Context {bytes : Type} `{Codec bytes}.

Lemma lookup_set_path_ne (st : store bytes) p q n :
  p <> q -> lookup_path (set_path st p n) q = lookup_path st q.
Proof.
  intros Hne. destruct p, q; try done. simpl.
  destruct (profiles_dir st) as [entries|]; [|done].
  rewrite lookup_partial_alter. destruct (decide (filename = filename0)); congruence.
Qed.

Lemma active_after_set_profile_path (st : store bytes) profile n :
  get_active_profile (set_path st (_get_config_path profile) n) = get_active_profile st.
Proof.
  rewrite !get_active_profile_cases. unfold _get_config_path.
  by destruct (string_dec profile "default").
Qed.


Lemma exists_listed (st : store bytes) profile :
  profile <> "" -> exists_ st profile = true -> profile ∈ list_profiles st.
Proof.
  intros Hp. unfold exists_, list_profiles, sorted, _get_config_path.
  rewrite merge_sort_Permutation, elem_of_app.
  destruct (string_dec profile "default") as [->|Hd].
  - intros ->. left. by apply list_elem_of_singleton.
  - intros He. right. unfold path_exists in He. apply bool_decide_eq_true_1 in He.
    assert (is_Some (profiles_dir st)) as Hdir.
    { simpl in He. destruct (profiles_dir st); [done|by destruct He]. }
    rewrite (bool_decide_eq_true_2 _ Hdir).
    apply list_elem_of_fmap. exists (profile +:+ ".toml"). split.
    + by rewrite stem_profile_file.
    + apply glob_toml_elem. split; [apply endswith_app|done].
Qed.

(** [load] reads the store through the active profile and the file of the
    profile it resolves to *)
Lemma load_same `{Region} `{PydanticLax} environ (st st' : store bytes) profile x :
  get_active_profile st' = get_active_profile st ->
  (forall p, (if negb (truthy profile) then get_active_profile st else Ok profile) = Ok p ->
             lookup_path st' (_get_config_path p) = lookup_path st (_get_config_path p)) ->
  load environ st' profile x = load environ st profile x.
Proof.
  intros Ha Hl. unfold load. rewrite Ha.
  destruct (if negb (truthy profile) then get_active_profile st else Ok profile)
    as [p|e] eqn:Hp; [|done].
  cbn [bind]. unfold path_exists, read_bytes. by rewrite (Hl p eq_refl).
Qed.

Lemma load_missing `{Region} `{PydanticLax} environ (st : store bytes) profile x :
  profile <> "" ->
  lookup_path st (_get_config_path profile) = None ->
  load environ st profile x = Raise (profile_not_found_error profile).
Proof.
  intros Hp Hl. unfold load.
  assert (truthy profile = true) as -> by by apply truthy_true.
  cbn [negb bind]. by rewrite (path_exists_false _ _ Hl).
Qed.







(** what a [delete_profile] that succeeded did to the store *)
Lemma delete_ok (st st' : store bytes) profile :
  delete_profile st profile = Ok st' ->
  profile <> "default"
  /\ get_active_profile st <> Ok profile
  /\ (st' = st \/ st' = set_path st (_get_config_path profile) None)
  /\ lookup_path st' (_get_config_path profile) = None.
Proof.
  intros Hdel.
  destruct (string_dec profile "default") as [->|Hd];
    [by rewrite delete_default in Hdel|].
  split; [done|].
  destruct (get_active_profile st) as [active|e] eqn:Ha;
    [|by rewrite get_active_profile_cases in Ha].
  destruct (string_dec profile active) as [->|Hne];
    [by rewrite (delete_active st active Hd Ha) in Hdel|].
  split; [congruence|].
  rewrite (delete_other st profile active Hd Ha Hne) in Hdel.
  destruct (lookup_path st (_get_config_path profile)) as [[|r data]|] eqn:Hl;
    simplify_eq.
  - split; [by right|]. rewrite (get_config_path_other profile Hd). apply lookup_unlinked.
  - split; [by left|done].
Qed.

End Store.
End StoreOpsFacts.

(** X1.  A profile that exists under a non-empty name is listed; in a
    profiles directory laid out by profile name, a listed profile other
    than "default" exists; the list is sorted by code point. *)
Theorem existing_profiles_are_listed {bytes : Type} `{Codec bytes}
    (st : Manager.store bytes) (profile : string) :
  Manager.simple_name profile -> profile <> "" ->
  (Manager.exists_ st profile = true -> profile ∈ Manager.list_profiles st)
  /\ (profile_files_named_by_profile st -> profile <> "default" ->
      profile ∈ Manager.list_profiles st -> Manager.exists_ st profile = true)
  /\ StronglySorted String.le (Manager.list_profiles st).
Proof.
  intros _ Hp. split; [|split].
  - by apply StoreOpsFacts.exists_listed.
  - intros Hwf Hd Hin. unfold Manager.exists_.
    rewrite (DeleteFacts.get_config_path_other profile Hd).
    destruct (DeleteFacts.listed_profile_exists st profile Hwf Hd Hin) as [n Hn].
    by apply (ManagerFacts.path_exists_true _ _ n).
  - apply StronglySorted_merge_sort; apply _.
Qed.

Lemma existing_profiles_are_listed_witness :
  "dev" ∈ Manager.list_profiles three_profiles_store
  /\ Manager.list_profiles three_profiles_store = ["default"; "dev"; "prod"].
Proof.
  split.
  - refine (proj1 (@existing_profiles_are_listed _ tree_codec three_profiles_store "dev"
                     eq_refl _) eq_refl).
    discriminate.
  - reflexivity.
Defined.














(** X8.  A [delete_profile] that succeeded leaves the active profile and
    the file of every other profile as they were, so every other profile,
    and the empty name, loads as before; the deleted profile, under its
    non-empty name, is not found. *)
Theorem delete_keeps_other_profiles {bytes : Type} `{Codec bytes} `{Region} `{PydanticLax}
    (st st' : Manager.store bytes) (profile : string) :
  Manager.simple_name profile ->
  Manager.delete_profile st profile = Ok st' ->
  Manager.get_active_profile st' = Manager.get_active_profile st
  /\ (forall q, q <> profile ->
        Manager.lookup_path st' (Manager._get_config_path q)
        = Manager.lookup_path st (Manager._get_config_path q))
  /\ (forall environ q expand_env_vars, q <> profile ->
        Manager.load environ st' q expand_env_vars
        = Manager.load environ st q expand_env_vars)
  /\ (forall environ expand_env_vars, profile <> "" ->
        Manager.load environ st' profile expand_env_vars
        = Raise (profile_not_found_error profile)).
Proof.
  intros _ (Hd & Hact & Hst & Hgone)%StoreOpsFacts.delete_ok.
  assert (Manager.get_active_profile st' = Manager.get_active_profile st) as Ha.
  { destruct Hst as [->| ->]; [done|].
    apply StoreOpsFacts.active_after_set_profile_path. }
  assert (forall q, q <> profile ->
            Manager.lookup_path st' (Manager._get_config_path q)
            = Manager.lookup_path st (Manager._get_config_path q)) as Hother.
  { intros q Hq. destruct Hst as [->| ->]; [done|].
    apply StoreOpsFacts.lookup_set_path_ne.
    intros Hp. by apply StoreOpsFacts.get_config_path_inj in Hp. }
  split; [done|]. split; [done|]. split.
  - intros environ q x Hq. apply StoreOpsFacts.load_same; [done|].
    intros p Hp. apply Hother. intros ->.
    destruct (PyStr.truthy q) eqn:Hq'; cbn [negb] in Hp; [by injection Hp|done].
  - intros environ x Hp. by apply StoreOpsFacts.load_missing.
Qed.

Lemma delete_keeps_other_profiles_witness :
  exists st', @Manager.delete_profile _ tree_codec three_profiles_store "dev" = Ok st'
    /\ @Manager.get_active_profile _ tree_codec st' = Ok "prod"
    /\ Manager.lookup_path st' (Manager._get_config_path "prod")
       = Some (Manager.File true (inr []))
    /\ @Manager.load _ tree_codec sample_regions strict_pydantic ∅ st' "dev" true
       = Raise (profile_not_found_error "dev").
Proof.
  eexists. split; [reflexivity|].
  destruct (@delete_keeps_other_profiles _ tree_codec sample_regions strict_pydantic
              three_profiles_store _ "dev" eq_refl eq_refl)
    as (Hact & Hother & _ & Hgone).
  split; [exact Hact|]. split.
  - refine (Hother "prod" _). discriminate.
  - refine (Hgone ∅ true _). discriminate.
Defined.



(** ** Dropping empty values *)

Module RemoveEmptyFacts.
  Import Manager RoundTripFacts.






End RemoveEmptyFacts.



(** ** Sections of a configuration document *)

Module ConfigFacts.
  Import Schema SchemaFacts.

Lemma vap_inl_l {A B} (f : vres (A -> B)) (x : vres A) es :
  f = inl es -> exists es', vap f x = inl es' /\ forall e, e ∈ es -> e ∈ es'.
Proof.
  intros ->. destruct x as [es2|a]; simpl.
  - exists (es ++ es2). split; [done|]. intros e He. apply elem_of_app. by left.
  - by exists es.
Qed.

Lemma vap_inl_r {A B} (f : vres (A -> B)) (x : vres A) es :
  x = inl es -> exists es', vap f x = inl es' /\ forall e, e ∈ es -> e ∈ es'.
Proof.
  intros ->. destruct f as [es1|g]; simpl.
  - exists (es1 ++ es). split; [done|]. intros e He. apply elem_of_app. by right.
  - by exists es.
Qed.

Lemma extra_forbidden_inl data k :
  k ∈ dict_keys data -> k ∉ Config_fields ->
  exists es, extra_forbidden data = inl es
             /\ ([k], "Extra inputs are not permitted") ∈ es.
Proof.
  intros Hk Hn. unfold extra_forbidden.
  assert (k ∈ filter (fun k => bool_decide (k ∉ Config_fields)) (dict_keys data)) as Hin.
  { apply list_elem_of_filter. split; [|done]. by apply bool_decide_pack. }
  destruct (filter _ _) as [|k0 ks] eqn:Hf; [by apply elem_of_nil in Hin|].
  eexists. split; [done|].
  by apply (list_elem_of_fmap_2 (fun k => ([k], "Extra inputs are not permitted"))).
Qed.

Lemma extra_forbidden_inr data u :
  extra_forbidden data = inr u -> forall k, k ∈ dict_keys data -> k ∈ Config_fields.
Proof.
  unfold extra_forbidden.
  destruct (filter _ _) as [|k0 ks] eqn:Hf; [|done].
  intros _ k Hk. destruct (decide (k ∈ Config_fields)) as [|Hn]; [done|].
  assert (k ∈ filter (fun k => bool_decide (k ∉ Config_fields)) (dict_keys data)) as Hin.
  { apply list_elem_of_filter. split; [|done]. by apply bool_decide_pack. }
  rewrite Hf in Hin. by apply elem_of_nil in Hin.
Qed.

Lemma model_field_default {M} data k (m m' : M) validate :
  dict_get data k = None ->
  model_field data k (Some m) validate = inr m' -> m' = m.
Proof. unfold model_field. intros ->. by intros [= <-]. Qed.

Section Sections.
  Context `{Region} `{PydanticLax}.

Lemma routing_same d d' :
  same_on routing_field_names d d' ->
  RoutingConfig_validate d = RoutingConfig_validate d'.
Proof.
  intros Hs. unfold RoutingConfig_validate, str_field. by repeat same_field Hs.
Qed.

Lemma transport_same d d' :
  same_on transport_field_names d d' ->
  TransportConfig_validate d = TransportConfig_validate d'.
Proof.
  intros Hs. unfold TransportConfig_validate, int_or_str_field. by repeat same_field Hs.
Qed.

Lemma other_sections_same d d' :
  (same_on ["name"] d d' -> ProfileConfig_validate d = ProfileConfig_validate d')
  /\ (same_on ["api_key"] d d' -> AuthConfig_validate d = AuthConfig_validate d')
  /\ (same_on ["request_verify"] d d' ->
      SecurityConfig_validate d = SecurityConfig_validate d')
  /\ (same_on ["directory"; "cache_enabled"] d d' ->
      StorageConfig_validate d = StorageConfig_validate d')
  /\ (same_on ["format"] d d' -> OutputConfig_validate d = OutputConfig_validate d').
Proof.
  repeat split; intros Hs.
  - unfold ProfileConfig_validate, str_field. by repeat same_field Hs.
  - unfold AuthConfig_validate, str_field. by repeat same_field Hs.
  - unfold SecurityConfig_validate, bool_or_str_field. by repeat same_field Hs.
  - unfold StorageConfig_validate, str_field, bool_field. by repeat same_field Hs.
  - unfold OutputConfig_validate, format_field. by repeat same_field Hs.
Qed.

End Sections.
End ConfigFacts.

(** X11.  [Config] refuses a document with a key that is no section of
    the schema, and one without the [auth] section: construction raises a
    validation error that names the key.  Inside a section it is
    otherwise: the model of a section reads its own fields only, so a key
    it does not know is ignored. *)
Theorem unknown_sections_are_refused `{Region} `{PydanticLax} (data : dict) :
  (forall k, k ∈ dict_keys data -> k ∉ Schema.Config_fields ->
     exists errors,
       Schema.Config_validate data = Raise (ValidationError errors)
       /\ ([k], "Extra inputs are not permitted") ∈ errors)
  /\ (dict_get data "auth" = None ->
      exists errors,
        Schema.Config_validate data = Raise (ValidationError errors)
        /\ (["auth"], "Field required") ∈ errors)
  /\ (forall d d',
        (same_on routing_field_names d d' ->
         Schema.RoutingConfig_validate d = Schema.RoutingConfig_validate d')
        /\ (same_on transport_field_names d d' ->
            Schema.TransportConfig_validate d = Schema.TransportConfig_validate d')
        /\ (same_on ["api_key"] d d' ->
            Schema.AuthConfig_validate d = Schema.AuthConfig_validate d')).
Proof.
  split; [|split].
  - intros k Hk Hn. unfold Schema.Config_validate.
    destruct (ConfigFacts.extra_forbidden_inl data k Hk Hn) as (es & Hes & Hin).
    match goal with
    | |- context [Schema.vap ?f (Schema.extra_forbidden data)] =>
        destruct (ConfigFacts.vap_inl_r f _ es Hes) as (es' & -> & Hsub)
    end.
    exists es'. split; [done|]. by apply Hsub.
  - intros Hauth. unfold Schema.Config_validate.
    assert (Schema.model_field data "auth" None Schema.AuthConfig_validate
            = inl [(["auth"], "Field required")]) as Ha
      by (unfold Schema.model_field; by rewrite Hauth).
    match goal with
    | |- context [Schema.vap ?f (Schema.model_field data "auth" None _)] =>
        destruct (ConfigFacts.vap_inl_r f _ _ Ha) as (es1 & -> & Hsub1)
    end.
    repeat match goal with
    | |- context [@Schema.vap ?A ?B (inl ?es) ?x] =>
        let es' := fresh "es" in let Hs := fresh "Hsub" in
        destruct (@ConfigFacts.vap_inl_l A B (inl es) x es eq_refl) as (es' & -> & Hs)
    end.
    eexists. split; [done|].
    repeat match goal with Hs : forall e, e ∈ _ -> e ∈ ?es |- _ ∈ ?es => apply Hs end.
    by apply list_elem_of_singleton.
  - intros d d'. split; [apply ConfigFacts.routing_same|].
    split; [apply ConfigFacts.transport_same|].
    apply ConfigFacts.other_sections_same.
Qed.

Lemma unknown_sections_are_refused_witness :
  (exists errors,
     @Schema.Config_validate sample_regions strict_pydantic
       (padded_key_data ++ [("unknown_field", VStr "value")])
     = Raise (ValidationError errors)
     /\ (["unknown_field"], "Extra inputs are not permitted") ∈ errors)
  /\ @Schema.Config_validate sample_regions strict_pydantic
       [("auth", VDict [("api_key", VStr "ak-test123"); ("unknown_field", VStr "value")])]
     = @Schema.Config_validate sample_regions strict_pydantic
         [("auth", VDict [("api_key", VStr "ak-test123")])].
Proof.
  split.
  - refine (proj1 (@unknown_sections_are_refused sample_regions strict_pydantic _)
              "unknown_field" _ _).
    + apply (bool_decide_unpack _). by vm_compute.
    + apply (bool_decide_unpack _). by vm_compute.
  - reflexivity.
Defined.

(** X12.  A document that [Config] accepts has no key besides the seven
    sections, and every section other than [auth] that it leaves out comes
    back as the default of the schema. *)
Theorem missing_sections_get_defaults `{Region} `{PydanticLax}
    (data : dict) (c : Schema.Config) :
  Schema.Config_validate data = Ok c ->
  (forall k, k ∈ dict_keys data -> k ∈ Schema.Config_fields)
  /\ (dict_get data "profile" = None -> Schema.profile c = Schema.ProfileConfig_default)
  /\ (dict_get data "routing" = None -> Schema.routing c = Schema.RoutingConfig_default)
  /\ (dict_get data "transport" = None ->
      Schema.transport c = Schema.TransportConfig_default)
  /\ (dict_get data "security" = None -> Schema.security c = Schema.SecurityConfig_default)
  /\ (dict_get data "storage" = None -> Schema.storage c = Schema.StorageConfig_default)
  /\ (dict_get data "output" = None -> Schema.output c = Schema.OutputConfig_default).
Proof.
  unfold Schema.Config_validate.
  match goal with |- match ?r with _ => _ end = _ -> _ => destruct r as [|c'] eqn:Hr end;
    [done|].
  intros [= ->].
  repeat (apply SchemaFacts.vap_inr in Hr as (? & ? & Hr & ? & ->)). simplify_eq. simpl.
  split; [by eapply ConfigFacts.extra_forbidden_inr|].
  repeat split; intros Hk; by eapply ConfigFacts.model_field_default.
Qed.

Lemma missing_sections_get_defaults_witness :
  @Schema.Config_validate sample_regions strict_pydantic padded_key_data
  = Ok (Schema.Build_Config Schema.ProfileConfig_default
          {| Schema.api_key := "ak-test123" |}
          Schema.RoutingConfig_default Schema.TransportConfig_default
          Schema.SecurityConfig_default Schema.StorageConfig_default
          Schema.OutputConfig_default)
  /\ Forall (fun k => k ∈ Schema.Config_fields) (dict_keys padded_key_data).
Proof.
  split; [reflexivity|].
  apply Forall_forall.
  exact (proj1 (@missing_sections_get_defaults sample_regions strict_pydantic
                  padded_key_data
                  (Schema.Build_Config Schema.ProfileConfig_default
                     {| Schema.api_key := "ak-test123" |}
                     Schema.RoutingConfig_default Schema.TransportConfig_default
                     Schema.SecurityConfig_default Schema.StorageConfig_default
                     Schema.OutputConfig_default)
                  eq_refl)).
Defined.

(** ** Error records and messages *)

Module ErrorRecordFacts.
  Import PyStr PyStrFacts ErrorFormatter ErrorFormatterFacts.

Lemma length_take n s : String.length (take n s) = Nat.min n (String.length s).
Proof.
  revert s. induction n as [|n IH]; intros [|c s]; simpl; try done.
  by rewrite IH.
Qed.


(** a record for a RuntimeError is built from its text and a message *)
Lemma parse_grpc_error_from_text e p :
  parse_grpc_error e = Some p ->
  exists error_text g,
    message_match error_text = Some g /\ p = parsed_from_text error_text (strip g).
Proof.
  revert e p. fix IH 1. intros [r error_text cause] p. simpl.
  assert (match cause with Some c => parse_grpc_error c | None => None end = Some p ->
          exists error_text g,
            message_match error_text = Some g
            /\ p = parsed_from_text error_text (strip g)) as Hnext.
  { destruct cause as [c|]; [apply IH|done]. }
  destruct r; [|exact Hnext].
  destruct (message_match error_text) as [g|] eqn:Hm; [|exact Hnext].
  intros [= <-]. eauto.
Qed.

Lemma table_status_reason (grpc_status : Z) :
  fst (specified_http_status grpc_status) <> 0%Z
  /\ snd (specified_http_status grpc_status) <> "".
Proof.
  unfold specified_http_status.
  destruct grpc_status as [|q|q]; try (by split).
  do 5 (try (destruct q as [q|q|]; try (by split))).
Qed.

Lemma body_bound error_text :
  String.length (if String.length error_text <? 500 then error_text
                 else take 500 error_text +:+ "...") <= 503.
Proof.
  destruct (Nat.ltb_spec (String.length error_text) 500); [lia|].
  rewrite length_app, length_take. change (String.length "...") with 3. lia.
Qed.

(** what the formatters read of a record for a RuntimeError *)
Lemma grpc_record_summary e p :
  parse_grpc_error e = Some p ->
  exists http_status reason detail body,
    status p = Some http_status /\ ErrorFormatter.reason p = Some reason
    /\ ErrorFormatter.detail p = Some detail /\ ErrorFormatter.body p = Some body
    /\ title p = None
    /\ http_status <> 0%Z /\ reason <> "" /\ body <> "" /\ String.length body <= 503.
Proof.
  intros (error_text & g & Hm & ->)%parse_grpc_error_from_text.
  pose proof (parsed_fields error_text (strip g)) as Hf.
  cbv zeta in Hf. destruct Hf as (Hs & Hr & Hd & Hb).
  set (grpc_status := match Re.search grpc_status_re error_text with
                      | Some g0 => int_of_digits g0
                      | None => (-1)%Z
                      end) in *.
  destruct (table_status_reason grpc_status) as [Hs0 Hr0].
  eexists _, _, _, _. split; [exact Hs|]. split; [exact Hr|].
  split; [exact Hd|]. split; [exact Hb|].
  split.
  { unfold parsed_from_text. by destruct (get _ _ _). }
  split; [done|]. split; [done|]. split; [|apply body_bound].
  assert (error_text <> "") as Hne by (by intros ->).
  destruct (String.length error_text <? 500); [done|].
  destruct error_text; [done|]. discriminate.
Qed.

End ErrorRecordFacts.



Module ErrorMessageFacts.
  Import PyStr PyStrFacts ErrorFormatter ErrorFormatterFacts ErrorRecordFacts.

Lemma api_exception_of_chain e :
  api_exception_of e
  = match filter (fun x => is_Some (fst x)) (cause_chain e) with
    | (Some a, _) :: _ => Some a
    | _ => None
    end.
Proof.
  revert e. fix IH 1. intros [api r text cause]. cbn [api_exception_of cause_chain].
  destruct api as [a|].
  - rewrite filter_cons_True; [done|]. by eexists.
  - rewrite filter_cons_False by (by intros [? ?]).
    destruct cause as [c|]; [apply IH|done].
Qed.

Lemma split_join s : join newline (split "010"%char s) = s.
Proof.
  unfold join, newline. induction s as [|c s IH]; [done|]. cbn [split].
  destruct (ascii_dec c "010"%char) as [->|Hc].
  - destruct (split "010" s) as [|w ws] eqn:Hs.
    + by destruct s.
    + cbn [String.concat]. cbn [String.concat] in IH. by rewrite IH.
  - destruct (split "010" s) as [|w ws] eqn:Hs.
    + by destruct s.
    + cbn [String.concat] in *. destruct ws; [by rewrite <- IH|].
      by rewrite <- IH.
Qed.

Lemma message_match_nonempty error_text g :
  message_match error_text = Some g -> error_text <> "".
Proof. by intros Hm ->. Qed.

Lemma suggestion_of_code (grpc_status : Z) :
  grpc_status ∉ codes_without_suggestion ->
  truthy (get_error_suggestion (fst (specified_http_status grpc_status))) = true.
Proof.
  unfold codes_without_suggestion. rewrite !not_elem_of_cons. intros (H0 & H1 & H9 & H12 & _).
  unfold specified_http_status.
  destruct grpc_status as [|q|q]; try done.
  do 5 (try (destruct q as [q|q|]; try done)).
Qed.

End ErrorMessageFacts.

(** X14.  [parse_exception] prefers an [ApiException]: when the chain
    holds one, the record is read from the first of them (status, reason
    and body as they are, the headers when there are any, the problem
    fields when the data is a [Problem]), whatever RuntimeError stands
    before it; only a chain without one is read as a gRPC error. *)
Theorem api_exception_takes_precedence (e : ErrorFormatter.chained) :
  (forall pre a text post,
     cause_chain e = pre ++ (Some a, text) :: post ->
     Forall (fun x => fst x = None) pre ->
     exists p,
       ErrorFormatter.parse_exception e = Some p
       /\ ErrorFormatter.status p = ErrorFormatter.api_status a
       /\ ErrorFormatter.reason p = ErrorFormatter.api_reason a
       /\ ErrorFormatter.body p = ErrorFormatter.api_body a
       /\ (ErrorFormatter.headers p = ErrorFormatter.api_headers a
           \/ (ErrorFormatter.headers p = None /\ ErrorFormatter.api_headers a = Some []))
       /\ match ErrorFormatter.api_data a with
          | Some problem =>
              ErrorFormatter.title p = ErrorFormatter.problem_title problem
              /\ ErrorFormatter.detail p = ErrorFormatter.problem_detail problem
              /\ ErrorFormatter.type p = ErrorFormatter.problem_type problem
              /\ ErrorFormatter.instance p = ErrorFormatter.problem_instance problem
          | None =>
              ErrorFormatter.title p = None /\ ErrorFormatter.detail p = None
              /\ ErrorFormatter.type p = None /\ ErrorFormatter.instance p = None
          end)
  /\ (Forall (fun x => fst x = None) (cause_chain e) ->
      ErrorFormatter.parse_exception e
      = ErrorFormatter.parse_grpc_error (ErrorFormatter.as_exception e)).
Proof.
  split.
  - intros pre a text post Hchain Hpre.
    assert (ErrorFormatter.api_exception_of e = Some a) as Ha.
    { rewrite ErrorMessageFacts.api_exception_of_chain, Hchain, filter_app.
      assert (filter (fun x : option ErrorFormatter.ApiException * string => is_Some (fst x))
                pre = []) as ->.
      { clear Hchain. induction Hpre as [|[api t] pre Hx _ IH]; [done|].
        simpl in Hx. subst api. rewrite filter_cons_False by (by intros [? ?]). exact IH. }
      rewrite filter_cons_True; [done|]. by eexists. }
    unfold ErrorFormatter.parse_exception, ErrorFormatter.parse_api_exception. rewrite Ha.
    destruct a as [st r h b [problem|]]; cbn.
    + eexists. split; [done|]. repeat split; try done.
      destruct h as [[|kv h]|]; [right|left|left]; done.
    + eexists. split; [done|]. repeat split; try done.
      destruct h as [[|kv h]|]; [right|left|left]; done.
  - intros Hnone.
    assert (ErrorFormatter.api_exception_of e = None) as Ha.
    { rewrite ErrorMessageFacts.api_exception_of_chain.
      assert (filter (fun x : option ErrorFormatter.ApiException * string => is_Some (fst x))
                (cause_chain e) = []) as ->; [|done].
      induction Hnone as [|[api t] l Hx _ IH]; [done|].
      simpl in Hx. subst api. rewrite filter_cons_False by (by intros [? ?]). exact IH. }
    unfold ErrorFormatter.parse_exception, ErrorFormatter.parse_api_exception. rewrite Ha.
    by destruct (ErrorFormatter.parse_grpc_error _).
Qed.

Lemma api_exception_takes_precedence_witness :
  (exists p, ErrorFormatter.parse_grpc_error
               (ErrorFormatter.as_exception runtime_over_api_chain) = Some p
             /\ ErrorFormatter.detail p = Some "dataset not found")
  /\ exists p, ErrorFormatter.parse_exception runtime_over_api_chain = Some p
               /\ ErrorFormatter.status p = Some 404%Z
               /\ ErrorFormatter.detail p = Some "dataset abc does not exist".
Proof.
  split.
  - eexists. split; [by vm_compute|by vm_compute].
  - destruct (proj1 (api_exception_takes_precedence runtime_over_api_chain)
                [(None, text_of_500)] not_found_api_exception "(404)" [] eq_refl)
      as (p & Hp & Hs & _ & _ & _ & _ & Hd & _).
    + repeat constructor.
    + exists p. split; [exact Hp|]. split; [exact Hs | exact Hd].
Defined.

(** X15.  The clean message shows the status line and no raw data: it is
    the same for two records with the same status, reason, detail and
    title, whatever their body, headers, type and instance; with a detail
    the title is not shown; its last line is the hint at --verbose.  For a
    record of [parse_grpc_error] the first line is the HTTP status and
    reason followed, when there is one, by the message; a suggestion
    follows unless the gRPC code is 0, 1, 9 or 12. *)
Theorem clean_message_shows_summary_only :
  (forall p q, same_summary p q ->
     ErrorFormatter._format_clean_error p = ErrorFormatter._format_clean_error q)
  /\ (forall p, ErrorFormatter.truthy_str (ErrorFormatter.detail p) = true ->
        ErrorFormatter._format_clean_error p
        = ErrorFormatter._format_clean_error (without_title p))
  /\ (forall p, last (ErrorFormatter.clean_error_lines p) = Some verbose_hint)
  /\ (forall e p,
        ErrorFormatter.parse_grpc_error e = Some p ->
        exists http_status reason detail,
          ErrorFormatter.status p = Some http_status
          /\ ErrorFormatter.reason p = Some reason
          /\ ErrorFormatter.detail p = Some detail
          /\ ErrorFormatter.clean_error_lines p
             = [pretty http_status +:+ " " +:+ reason
                +:+ (if PyStr.truthy detail then "; " +:+ detail else "")]
               ++ (if PyStr.truthy (ErrorFormatter.get_error_suggestion http_status)
                   then [""; "  [dim]Suggestion: "
                             +:+ ErrorFormatter.get_error_suggestion http_status
                             +:+ "[/dim]"]
                   else [])
               ++ [verbose_hint])
  /\ (forall grpc_status : Z,
        grpc_status ∉ codes_without_suggestion ->
        ErrorFormatter.get_error_suggestion
          (fst (ErrorFormatter.get ErrorFormatter.grpc_to_http grpc_status
                  (500%Z, "Server Error"))) <> "").
Proof.
  split; [|split; [|split; [|split]]].
  - intros p q (Hs & Hr & Hd & Ht).
    unfold ErrorFormatter._format_clean_error, ErrorFormatter.clean_error_lines.
    by rewrite Hs, Hr, Hd, Ht.
  - intros p Hd.
    unfold ErrorFormatter._format_clean_error, ErrorFormatter.clean_error_lines.
    cbn [without_title ErrorFormatter.status ErrorFormatter.reason ErrorFormatter.detail
         ErrorFormatter.title].
    by rewrite Hd.
  - intros p. unfold ErrorFormatter.clean_error_lines. cbv zeta. apply last_snoc.
  - intros e p Hp.
    destruct (ErrorRecordFacts.grpc_record_summary e p Hp)
      as (st & r & d & b & Hs & Hr & Hd & _ & Ht & Hs0 & Hr0 & _).
    exists st, r, d. split; [done|]. split; [done|]. split; [done|].
    unfold ErrorFormatter.clean_error_lines. rewrite Hs, Hr, Hd, Ht.
    cbn [ErrorFormatter.truthy_int ErrorFormatter.truthy_str ErrorFormatter.str_int
         ErrorFormatter.str_str default].
    assert ((st =? 0)%Z = false) as -> by by apply Z.eqb_neq.
    assert (PyStr.truthy r = true) as -> by by apply PyStrFacts.truthy_true.
    cbn [negb andb app].
    unfold id.
    destruct (PyStr.truthy d) eqn:Hdt.
    + cbn [ErrorFormatter.truthy_str ErrorFormatter.str_str]. rewrite Hdt.
      cbn [app PyStr.join String.concat]. rewrite !PyStrFacts.app_assoc.
      by destruct (PyStr.truthy (ErrorFormatter.get_error_suggestion st)).
    + cbn [ErrorFormatter.truthy_str ErrorFormatter.str_str].
      cbn [app PyStr.join String.concat]. rewrite PyStrFacts.app_nil_r.
      by destruct (PyStr.truthy (ErrorFormatter.get_error_suggestion st)).
  - intros grpc_status Hc. rewrite ErrorFormatterFacts.grpc_to_http_table.
    apply PyStrFacts.truthy_true. by apply ErrorMessageFacts.suggestion_of_code.
Qed.

Lemma clean_message_shows_summary_only_witness :
  exists p,
    ErrorFormatter.parse_grpc_error (ErrorFormatter.Exception true text_of_500 None) = Some p
    /\ ErrorFormatter.clean_error_lines p
       = ["404 Not Found; dataset not found"; "";
          "  [dim]Suggestion: Resource not found. Verify the ID exists using the list command.[/dim]";
          verbose_hint].
Proof.
  eexists. split; [reflexivity|].
  destruct (proj1 (proj2 (proj2 (proj2 clean_message_shows_summary_only)))
              (ErrorFormatter.Exception true text_of_500 None) _ eq_refl)
    as (st & r & d & Hs & Hr & Hd & Hlines).
  rewrite Hlines.
  assert (st = 404%Z) as -> by (vm_compute in Hs; congruence).
  assert (r = "Not Found") as -> by (vm_compute in Hr; congruence).
  assert (d = "dataset not found") as -> by (vm_compute in Hd; congruence).
  reflexivity.
Defined.

(** X16.  The verbose message shows a body of up to 1000 characters
    whole, line by line and indented, and the lines joined again are the
    body; of a longer one it shows the first 1000 characters and the
    mark "... (truncated)"; without a body, or with an empty one, it has
    no body section.  The body of a record of [parse_grpc_error] was
    already cut to 503 characters at most, so it is never cut here. *)
Theorem verbose_body_cut_beyond_1000 :
  (forall p b,
     ErrorFormatter.body p = Some b -> b <> "" ->
     (String.length b <= 1000 ->
      ErrorFormatter.body_lines p = body_heading ++ indented (PyStr.split "010"%char b)
      /\ PyStr.join ErrorFormatter.newline (PyStr.split "010"%char b) = b)
     /\ (1000 < String.length b ->
         ErrorFormatter.body_lines p
         = body_heading
           ++ indented (PyStr.split "010"%char (PyStr.take 1000 b +:+ "... (truncated)"))))
  /\ (forall p,
        ErrorFormatter.body p = None \/ ErrorFormatter.body p = Some "" ->
        ErrorFormatter.body_lines p = [])
  /\ (forall e p,
        ErrorFormatter.parse_grpc_error e = Some p ->
        exists b, ErrorFormatter.body p = Some b
                  /\ ErrorFormatter.body_lines p
                     = body_heading ++ indented (PyStr.split "010"%char b)).
Proof.
  assert (forall p b,
            ErrorFormatter.body p = Some b -> b <> "" -> String.length b <= 1000 ->
            ErrorFormatter.body_lines p
            = body_heading ++ indented (PyStr.split "010"%char b)) as Hwhole.
  { intros p b Hb Hne Hlen. unfold ErrorFormatter.body_lines. rewrite Hb.
    cbn [ErrorFormatter.truthy_str ErrorFormatter.str_str].
    assert (PyStr.truthy b = true) as -> by by apply PyStrFacts.truthy_true.
    destruct (Nat.ltb_spec 1000 (String.length b)); [lia|done]. }
  split; [|split].
  - intros p b Hb Hne. split.
    + intros Hlen. split; [by apply Hwhole|apply ErrorMessageFacts.split_join].
    + intros Hlen. unfold ErrorFormatter.body_lines. rewrite Hb.
      cbn [ErrorFormatter.truthy_str ErrorFormatter.str_str].
      assert (PyStr.truthy b = true) as -> by by apply PyStrFacts.truthy_true.
      destruct (Nat.ltb_spec 1000 (String.length b)); [done|lia].
  - intros p [Hb|Hb]; unfold ErrorFormatter.body_lines; by rewrite Hb.
  - intros e p Hp.
    destruct (ErrorRecordFacts.grpc_record_summary e p Hp)
      as (st & r & d & b & _ & _ & _ & Hb & _ & _ & _ & Hne & Hlen).
    exists b. split; [done|]. apply Hwhole; [done|done|lia].
Qed.

Lemma verbose_body_cut_beyond_1000_witness :
  exists p,
    ErrorFormatter.parse_grpc_error (ErrorFormatter.Exception true text_of_500 None) = Some p
    /\ ErrorFormatter.body_lines p = body_heading ++ ["  " +:+ text_of_500 +:+ "..."].
Proof.
  eexists. split; [reflexivity|].
  destruct (proj2 (proj2 verbose_body_cut_beyond_1000)
              (ErrorFormatter.Exception true text_of_500 None) _ eq_refl)
    as (b & Hb & Hlines).
  rewrite Hlines. injection Hb as <-. by vm_compute.
Defined.

(** ** Output options and data files *)

Module FileIOFacts.
  Import PyStr PyStrFacts LayoutFacts FileIO.

Lemma split_nonempty sep s : split sep s <> [].
Proof.
  destruct s as [|c s]; [done|]. cbn [split].
  destruct (ascii_dec c sep); [done|]. by destruct (split sep s).
Qed.

Lemma split_app_sep sep d s :
  split sep (d +:+ String sep s) = split sep d ++ split sep s.
Proof.
  induction d as [|c d IH].
  - rewrite app_nil_l. cbn [split]. by destruct (ascii_dec sep sep).
  - rewrite app_cons. cbn [split]. rewrite IH.
    destruct (ascii_dec c sep); [done|].
    pose proof (split_nonempty sep d) as Hne.
    by destruct (split sep d).
Qed.

Lemma split_no_sep sep s : contains_char sep s = false -> split sep s = [s].
Proof.
  induction s as [|c s IH]; [done|]. cbn [contains_char split].
  destruct (ascii_dec c sep); [done|]. intros Hs. by rewrite (IH Hs).
Qed.

Lemma path_name_file dir name :
  is_dir_prefix dir -> contains_char "/"%char name = false ->
  name <> "" -> name <> "." ->
  path_name (dir +:+ name) = name.
Proof.
  intros Hdir Hname Hne Hdot. unfold path_name.
  assert (exists l, split "/"%char (dir +:+ name) = l ++ [name]) as [l ->].
  { destruct Hdir as [->|[d ->]].
    - exists []. rewrite app_nil_l. by apply split_no_sep.
    - exists (split "/"%char d). rewrite app_assoc.
      change ("/" +:+ name) with (String "/"%char name).
      by rewrite split_app_sep, (split_no_sep _ name). }
  rewrite filter_app, filter_cons_True by done.
  change (filter _ []) with (@nil string). by rewrite last_snoc.
Qed.

Lemma drop_app s t : drop (String.length s) (s +:+ t) = t.
Proof.
  induction s as [|c s IH]; [by destruct t|]. rewrite app_cons. exact IH.
Qed.

Lemma rfind_none c s : contains_char c s = false -> rfind c s = None.
Proof.
  induction s as [|a s IH]; [done|]. cbn [contains_char rfind].
  destruct (ascii_dec a c); [done|]. intros Hs. by rewrite (IH Hs).
Qed.

Lemma contains_char_app c s t :
  contains_char c (s +:+ t) = contains_char c s || contains_char c t.
Proof.
  induction s as [|a s IH]; [done|]. rewrite app_cons. cbn [contains_char].
  by destruct (ascii_dec a c).
Qed.

Lemma suffix_of_name dir base ext :
  is_dir_prefix dir -> base <> "" -> ext <> "" ->
  contains_char "/"%char base = false -> contains_char "/"%char ext = false ->
  contains_char "."%char ext = false ->
  suffix (dir +:+ base +:+ "." +:+ ext) = "." +:+ ext.
Proof.
  intros Hdir Hb He Hbs Hes Hed. unfold suffix.
  rewrite path_name_file; [|done| | |].
  - rewrite rfind_app.
    change ("." +:+ ext) with (String "."%char ext). cbn [rfind].
    rewrite (rfind_none _ _ Hed). destruct (ascii_dec "." "."); [|done].
    rewrite Nat.add_0_r, length_app. cbn [String.length].
    assert ((0 <? String.length base)
            && (String.length base <? String.length base + S (String.length ext) - 1)
            = true) as ->.
    { apply andb_true_intro. split; apply Nat.ltb_lt.
      - destruct base; [done|simpl; lia].
      - destruct ext; [done|simpl; lia]. }
    apply drop_app.
  - rewrite !contains_char_app, Hbs, Hes. done.
  - by destruct base.
  - destruct base as [|a [|b base]]; [done| |done]. by destruct ext.
Qed.

Lemma suffix_hidden dir ext :
  is_dir_prefix dir -> ext <> "" ->
  contains_char "/"%char ext = false -> contains_char "."%char ext = false ->
  suffix (dir +:+ "." +:+ ext) = "".
Proof.
  intros Hdir He Hes Hed. unfold suffix.
  rewrite path_name_file; [|done| | |].
  - change ("." +:+ ext) with (String "."%char ext). cbn [rfind].
    rewrite (rfind_none _ _ Hed). by destruct (ascii_dec "." ".").
  - change ("." +:+ ext) with (String "."%char ext). cbn [contains_char].
    by destruct (ascii_dec "." "/").
  - done.
  - by destruct ext.
Qed.

Lemma suffix_no_dot dir name :
  is_dir_prefix dir -> name <> "" ->
  contains_char "/"%char name = false -> contains_char "."%char name = false ->
  suffix (dir +:+ name) = "".
Proof.
  intros Hdir Hn Hs Hd. unfold suffix.
  rewrite path_name_file; [|done|done|done|].
  - by rewrite (rfind_none _ _ Hd).
  - intros ->. done.
Qed.

Lemma lower_app s t : lower (s +:+ t) = lower s +:+ lower t.
Proof. induction s as [|c s IH]; [done|]. rewrite app_cons. simpl. by rewrite IH. Qed.

(** what the table gives, and that [not format_type] never holds of it *)
Lemma format_map_found k :
  found (format_map_get format_map k) = format_map_get format_map k
  /\ forall f, format_map_get format_map k = Some f -> f ∈ file_formats.
Proof.
  unfold format_map. cbn [format_map_get].
  repeat match goal with
         | |- context [string_dec ?a k] => destruct (string_dec a k) as [_|_]
         end;
    (split; [done|]); intros f [= <-];
    apply (bool_decide_unpack _); by vm_compute.
Qed.

Lemma detect_format_cases path :
  _detect_format path
  = match format_map_get format_map (lower (suffix path)) with
    | Some f => Ok f
    | None => Raise (cannot_detect_format_error (lower (suffix path)))
    end.
Proof.
  unfold _detect_format. cbv zeta.
  rewrite (proj1 (format_map_found _)). by destruct (format_map_get _ _).
Qed.

Lemma parse_output_option_cases valid_formats output :
  parse_output_option valid_formats output
  = if bool_decide (output ∈ valid_formats) then Ok (output, "")
    else match format_map_get format_map (lower (suffix output)) with
         | Some f => Ok (f, output)
         | None => Raise (invalid_output_option_error valid_formats output)
         end.
Proof.
  unfold parse_output_option. rewrite detect_format_cases.
  by destruct (format_map_get _ _).
Qed.

End FileIOFacts.

(** X17.  [_detect_format] reads the last suffix of the last component
    of the path, in any letter case: for a file [base.ext] in any
    directory the result depends on the lower-cased [ext] only and is one
    of csv, json, jsonl and parquet, or the error that shows the suffix.  A
    name without a dot, and a hidden file that has only its leading dot,
    have no suffix and are refused. *)
Theorem detect_format_by_last_suffix (dir base ext : string) :
  is_dir_prefix dir -> ext <> "" ->
  PyStr.contains_char "/"%char ext = false ->
  PyStr.contains_char "."%char ext = false ->
  (base <> "" -> PyStr.contains_char "/"%char base = false ->
   FileIO._detect_format (dir +:+ base +:+ "." +:+ ext)
   = match FileIO.format_map_get FileIO.format_map ("." +:+ PyStr.lower ext) with
     | Some format_type => Ok format_type
     | None => Raise (cannot_detect_format_error ("." +:+ PyStr.lower ext))
     end)
  /\ (forall path format_type,
        FileIO._detect_format path = Ok format_type -> format_type ∈ file_formats)
  /\ FileIO._detect_format (dir +:+ "." +:+ ext) = Raise (cannot_detect_format_error "")
  /\ FileIO._detect_format (dir +:+ ext) = Raise (cannot_detect_format_error "").
Proof.
  intros Hdir He Hes Hed. split; [|split; [|split]].
  - intros Hb Hbs. rewrite FileIOFacts.detect_format_cases.
    rewrite FileIOFacts.suffix_of_name by done.
    by rewrite FileIOFacts.lower_app.
  - intros path f. rewrite FileIOFacts.detect_format_cases.
    destruct (FileIO.format_map_get _ _) as [f'|] eqn:Hf; [|done].
    intros [= <-]. exact (proj2 (FileIOFacts.format_map_found _) _ Hf).
  - rewrite FileIOFacts.detect_format_cases.
    by rewrite FileIOFacts.suffix_hidden.
  - rewrite FileIOFacts.detect_format_cases.
    by rewrite FileIOFacts.suffix_no_dot.
Qed.

Lemma detect_format_by_last_suffix_witness :
  FileIO._detect_format "out.dir/Report.v2.JSON" = Ok "json"
  /\ FileIO._detect_format "out.dir/.JSON" = Raise (cannot_detect_format_error "")
  /\ FileIO._detect_format "out.dir/JSON" = Raise (cannot_detect_format_error "").
Proof.
  assert (is_dir_prefix "out.dir/") as Hdir by (right; by exists "out.dir").
  assert ("JSON" <> "") as Hne by discriminate.
  destruct (detect_format_by_last_suffix "out.dir/" "Report.v2" "JSON" Hdir Hne
              eq_refl eq_refl) as (Hfile & _ & Hhidden & Hplain).
  split; [|split].
  - refine (Hfile _ eq_refl). discriminate.
  - exact Hhidden.
  - exact Hplain.
Defined.

(** X18.  What the commands do with [--output]: [parse_output_option]
    then [output_data].  One of the four format names goes to its formatter
    with no file; anything else is a file path and needs a known extension,
    or the parser raises its error.  On the pair that comes out the
    dispatcher never trips the guard of the table formatter (table never
    comes with a file); the bare name [parquet] always trips the guard of
    the parquet formatter; a path with the extension [.jsonl] is accepted
    by the parser and then refused by the dispatcher, which knows no such
    format; everything else reaches the renderer. *)
Theorem output_option_reaches_dispatcher {data : Type} `{Renderer data}
    (valid_formats : list string) (output : string) :
  valid_formats ≡ₚ format_names ->
  (output ∈ format_names ->
   FileIO.parse_output_option valid_formats output = Ok (output, ""))
  /\ (forall e, FileIO.parse_output_option valid_formats output = Raise e ->
        e = invalid_output_option_error valid_formats output)
  /\ (forall format_type output_file,
        FileIO.parse_output_option valid_formats output = Ok (format_type, output_file) ->
        ((format_type = output /\ output_file = "" /\ output ∈ format_names)
         \/ (output_file = output /\ (output ∉ format_names)
             /\ FileIO._detect_format output = Ok format_type))
        /\ forall d : data,
             Output.output_data d format_type output_file
             = if string_dec format_type "jsonl"
               then Raise (unsupported_format_error "jsonl")
               else if string_dec output "parquet"
                    then Raise parquet_without_file_error
                    else rendered d format_type output_file).
Proof.
  intros Hperm.
  assert (forall o, bool_decide (o ∈ valid_formats) = bool_decide (o ∈ format_names)) as Hin.
  { intros o. apply bool_decide_ext. by rewrite Hperm. }
  split; [|split].
  - intros Ho. rewrite FileIOFacts.parse_output_option_cases, Hin.
    by rewrite bool_decide_eq_true_2.
  - intros e. rewrite FileIOFacts.parse_output_option_cases.
    destruct (bool_decide _); [done|].
    destruct (FileIO.format_map_get _ _); [done|]. by intros [= <-].
  - intros f file. rewrite FileIOFacts.parse_output_option_cases, Hin.
    destruct (bool_decide (output ∈ format_names)) eqn:Ho.
    + apply bool_decide_eq_true_1 in Ho. intros [= <- <-].
      split; [by left|]. intros d.
      unfold format_names in Ho. rewrite !elem_of_cons in Ho.
      destruct Ho as [->|[->|[->|[->|Ho]]]]; [| | | |by apply elem_of_nil in Ho];
        reflexivity.
    + apply bool_decide_eq_false_1 in Ho.
      destruct (FileIO.format_map_get _ _) as [f'|] eqn:Hf; [|done].
      intros [= <- <-]. split.
      { right. split; [done|]. split; [done|].
        by rewrite FileIOFacts.detect_format_cases, Hf. }
      intros d.
      assert (PyStr.truthy output = true) as Hout.
      { destruct output; [discriminate Hf|done]. }
      destruct (string_dec output "parquet") as [->|_].
      { exfalso. apply Ho. unfold format_names. rewrite !elem_of_cons. tauto. }
      pose proof (proj2 (FileIOFacts.format_map_found _) _ Hf) as Hff.
      unfold file_formats in Hff. rewrite !elem_of_cons in Hff.
      destruct Hff as [->|[->|[->|[->|Hff]]]]; [| | | |by apply elem_of_nil in Hff];
        try reflexivity.
      unfold Output.output_data, rendered.
      change (Output.get_formatter "parquet") with (Ok Output.ParquetFormatter).
      cbn [bind Output.format]. by rewrite Hout.
Qed.

Lemma output_option_reaches_dispatcher_witness :
  FileIO.parse_output_option ["csv"; "parquet"; "table"; "json"] "data.jsonl"
  = Ok ("jsonl", "data.jsonl")
  /\ @Output.output_data _ silent_renderer tt "jsonl" "data.jsonl"
     = Raise (unsupported_format_error "jsonl")
  /\ FileIO.parse_output_option ["csv"; "parquet"; "table"; "json"] "parquet"
     = Ok ("parquet", "")
  /\ @Output.output_data _ silent_renderer tt "parquet" ""
     = Raise parquet_without_file_error.
Proof.
  assert (["csv"; "parquet"; "table"; "json"] ≡ₚ format_names) as Hperm.
  { exact (Permutation_app_comm ["csv"; "parquet"] ["table"; "json"]). }
  split; [reflexivity|]. split.
  - exact (proj2 (proj2 (proj2 (@output_option_reaches_dispatcher _ silent_renderer
             _ "data.jsonl" Hperm)) "jsonl" "data.jsonl" eq_refl) tt).
  - destruct (@output_option_reaches_dispatcher _ silent_renderer
                _ "parquet" Hperm) as (Hname & _ & Hpair).
    split.
    + apply Hname. unfold format_names. rewrite !elem_of_cons. tauto.
    + exact (proj2 (Hpair "parquet" "" eq_refl) tt).
Defined.

Module DataFileFacts.
  Import PyStr PyStrFacts FileIO FileIOFacts.


End DataFileFacts.



(** ** Masking a secret *)

Module MaskFacts.
  Import PyStr PyStrFacts ErrorRecordFacts Console.

Lemma length_drop n s : String.length (drop n s) = String.length s - n.
Proof.
  revert s. induction n as [|n IH]; intros [|c s]; simpl; done.
Qed.

Lemma take_all n s : String.length s <= n -> take n s = s.
Proof.
  revert s. induction n as [|n IH]; intros [|c s]; simpl; try done; [lia|].
  intros Hn. f_equal. apply IH. lia.
Qed.

Lemma take_drop n s : take n s +:+ drop n s = s.
Proof.
  revert s. induction n as [|n IH]; intros [|c s]; try done.
  simpl. rewrite app_cons. by rewrite IH.
Qed.

Lemma drop_drop a b s : drop a (drop b s) = drop (b + a) s.
Proof.
  revert s. induction b as [|b IH]; intros s; [done|].
  destruct s as [|c s]; [by destruct a|]. apply IH.
Qed.

Lemma mask_default_long val :
  3 < String.length val ->
  mask val 6 = take 5 val +:+ "..." +:+ drop (String.length val - 3) val.
Proof.
  intros Hlen. unfold mask. change (round_half 6) with 3%Z. cbv zeta.
  destruct (Z.ltb_spec 3 (Z.of_nat (String.length val))); [|lia].
  unfold slice_to, slice_from. cbv zeta.
  change (2 + 3 <? 0)%Z with false. change (- (3) <? 0)%Z with true. cbv iota.
  change (Z.to_nat (2 + 3)) with 5.
  match goal with
  | |- context [drop (Z.to_nat ?z) val] =>
      replace (Z.to_nat z) with (String.length val - 3) by lia
  end.
  done.
Qed.

Lemma round_half_zero n : n ∈ [0; 1; -1]%Z -> round_half n = 0%Z.
Proof.
  rewrite !elem_of_cons. intros [->|[->|[->|Hn]]]; [done|done|done|].
  by apply elem_of_nil in Hn.
Qed.

End MaskFacts.

(** X20.  [mask] with its default of six visible characters shows the
    first five and the last three characters of a value longer than three,
    and three asterisks for a shorter one.  The two pieces overlap or touch
    in a value of up to eight characters, so such a value can be read off
    its mask; one of four or five characters stands whole at the head of
    the mask.  Only from nine characters on is anything hidden, and the
    mask has eleven characters.  With [num_visible] 0, 1 or -1 the value
    stands whole behind the dots. *)
Theorem mask_shows_short_values (val : string) :
  (String.length val <= 3 -> Console.mask val 6 = "***")
  /\ (3 < String.length val ->
      Console.mask val 6
      = PyStr.take 5 val +:+ "..." +:+ PyStr.drop (String.length val - 3) val)
  /\ (3 < String.length val -> String.length val <= 5 ->
      Console.mask val 6
      = val +:+ "..." +:+ PyStr.drop (String.length val - 3) val)
  /\ (3 < String.length val -> String.length val <= 8 ->
      val = PyStr.take 5 val
            +:+ PyStr.drop (8 - String.length val)
                  (PyStr.drop (String.length val - 3) val))
  /\ (8 < String.length val ->
      String.length (Console.mask val 6) = 11
      /\ String.length (PyStr.take 5 val)
         + String.length (PyStr.drop (String.length val - 3) val) = 8)
  /\ (forall num_visible : Z,
        num_visible ∈ [0; 1; -1]%Z -> val <> "" ->
        Console.mask val num_visible = PyStr.take 2 val +:+ "..." +:+ val).
Proof.
  split; [|split; [|split; [|split; [|split]]]].
  - intros Hlen. unfold Console.mask. change (Console.round_half 6) with 3%Z. cbv zeta.
    destruct (Z.ltb_spec 3 (Z.of_nat (String.length val))); [lia|done].
  - apply MaskFacts.mask_default_long.
  - intros Hlen Hshort. rewrite MaskFacts.mask_default_long by done.
    by rewrite MaskFacts.take_all.
  - intros Hlen Hshort. rewrite MaskFacts.drop_drop.
    replace (String.length val - 3 + (8 - String.length val)) with 5 by lia.
    by rewrite MaskFacts.take_drop.
  - intros Hlen. rewrite MaskFacts.mask_default_long by lia.
    rewrite !PyStrFacts.length_app, ErrorRecordFacts.length_take, MaskFacts.length_drop.
    change (String.length "...") with 3. lia.
  - intros num_visible Hn Hne. unfold Console.mask.
    rewrite (MaskFacts.round_half_zero _ Hn). cbv zeta.
    destruct (Z.ltb_spec 0 (Z.of_nat (String.length val))) as [_|Hlen].
    + unfold PyStr.slice_to, PyStr.slice_from. cbv zeta.
      change (2 + 0 <? 0)%Z with false. change (- 0 <? 0)%Z with false. cbv iota.
      change (Z.to_nat (2 + 0)) with 2. change (Z.to_nat (- 0)) with 0.
      by destruct val.
    + destruct val; [done|]. simpl in Hlen. lia.
Qed.

Lemma mask_shows_short_values_witness :
  Console.mask "ab" 6 = "***"
  /\ Console.mask "abcd" 6 = "abcd...bcd"
  /\ Console.mask "ak-12345678-xyz" 6 = "ak-12...xyz"
  /\ Console.mask "secret" 1 = "se...secret".
Proof.
  destruct (mask_shows_short_values "ab") as (Hshort & _).
  destruct (mask_shows_short_values "abcd") as (_ & _ & Hwhole & _).
  destruct (mask_shows_short_values "ak-12345678-xyz") as (_ & Hlong & _).
  destruct (mask_shows_short_values "secret") as (_ & _ & _ & _ & _ & Hzero).
  split; [|split; [|split]].
  - apply Hshort. simpl. lia.
  - rewrite Hwhole; [reflexivity| |]; simpl; lia.
  - rewrite Hlong; [reflexivity|]. simpl. lia.
  - rewrite (Hzero 1%Z); [reflexivity| |discriminate].
    rewrite !elem_of_cons. tauto.
Defined.

(** ** Flattening a model for export *)

Module FlattenFacts.
  Import CorePydantic.

Lemma dict_get_set d k v k' :
  dict_get (dict_set d k v) k' = if string_dec k k' then Some v else dict_get d k'.
Proof.
  induction d as [|[k0 v0] d IH]; simpl.
  - done.
  - destruct (string_dec k0 k) as [->|Hne]; simpl.
    + by destruct (string_dec k k').
    + destruct (string_dec k0 k') as [->|Hne'].
      * by destruct (string_dec k k').
      * exact IH.
Qed.

Lemma dict_set_fresh d k v : k ∉ dict_keys d -> dict_set d k v = d ++ [(k, v)].
Proof.
  induction d as [|[k0 v0] d IH]; [done|]. simpl.
  rewrite not_elem_of_cons. intros [Hne Hd].
  destruct (string_dec k0 k); [congruence|]. by rewrite IH.
Qed.

Lemma dict_keys_app d d' : dict_keys (d ++ d') = dict_keys d ++ dict_keys d'.
Proof. apply map_app. Qed.

Lemma dict_get_elem d k v : NoDup (dict_keys d) -> (k, v) ∈ d -> dict_get d k = Some v.
Proof.
  induction d as [|[k0 v0] d IH]; [by intros _ ?%elem_of_nil|].
  simpl. intros [Hk Hd]%NoDup_cons [[= -> ->]|Hin]%elem_of_cons.
  - by destruct (string_dec k0 k0).
  - destruct (string_dec k0 k) as [->|_]; [|by apply IH].
    exfalso. apply Hk. by apply (list_elem_of_fmap_2 fst _ (k, v)).
Qed.

Lemma dict_get_Some_elem d k v : dict_get d k = Some v -> (k, v) ∈ d.
Proof.
  induction d as [|[k0 v0] d IH]; [done|]. simpl.
  destruct (string_dec k0 k) as [->|_].
  - intros [= ->]. by left.
  - intros Hd. right. by apply IH.
Qed.

Lemma categorize_fold dump m l :
  NoDup (dict_keys m ++ dict_keys l ++ dict_keys dump) ->
  fold_left categorize_step dump (m, l)
  = (m ++ scalar_fields dump, l ++ structured_fields dump).
Proof.
  revert m l. induction dump as [|[k v] dump IH]; intros m l Hnd.
  - by rewrite !app_nil_r.
  - cbn [fold_left categorize_step]. unfold scalar_fields, structured_fields.
    assert ((k ∉ dict_keys m) /\ (k ∉ dict_keys l)) as [Hm Hl].
    { rewrite !NoDup_app in Hnd. destruct Hnd as (_ & Hml & _ & Hld & _).
      split.
      - intros Hk. apply (Hml k Hk). apply elem_of_app. right. by left.
      - intros Hk. apply (Hld k Hk). by left. }
    destruct (is_list_of_structured_data v) eqn:Hv.
    + rewrite filter_cons_False, filter_cons_True by (cbn [snd]; congruence).
      rewrite (dict_set_fresh l k v Hl), IH.
      * unfold scalar_fields, structured_fields. by rewrite <- app_assoc.
      * rewrite dict_keys_app. simpl in *.
        rewrite <- !app_assoc. simpl. exact Hnd.
    + rewrite filter_cons_True, filter_cons_False by (cbn [snd]; congruence).
      rewrite (dict_set_fresh m k v Hm), IH.
      * unfold scalar_fields, structured_fields. by rewrite <- app_assoc.
      * rewrite dict_keys_app. simpl in *. rewrite <- !app_assoc. simpl.
        eapply NoDup_Permutation_proper; [|exact Hnd].
        apply Permutation_app_head.
        by rewrite <- (Permutation_middle (dict_keys l) (dict_keys dump) k).
Qed.

Lemma categorize_filter dump :
  NoDup (dict_keys dump) ->
  categorize_basemodel_fields dump = (scalar_fields dump, structured_fields dump).
Proof. intros Hnd. unfold categorize_basemodel_fields. by rewrite categorize_fold. Qed.

Lemma filter_keys_nodup (P : string * value -> Prop) `{forall x, Decision (P x)} (d : dict) :
  NoDup (dict_keys d) -> NoDup (dict_keys (filter P d)).
Proof.
  intros Hnd. unfold dict_keys in *. eapply sublist_NoDup; [exact Hnd|].
  apply (fmap_sublist fst), sublist_filter.
Qed.

Lemma dict_update_fresh d other :
  NoDup (dict_keys d ++ dict_keys other) -> dict_update d other = d ++ other.
Proof.
  unfold dict_update. revert d. induction other as [|[k v] other IH]; intros d Hnd.
  - by rewrite app_nil_r.
  - cbn [fold_left fst snd]. rewrite dict_set_fresh.
    + rewrite IH; [by rewrite <- app_assoc|].
      rewrite dict_keys_app. simpl in *. by rewrite <- app_assoc.
    + apply NoDup_app in Hnd as (_ & Hd & _). intros Hk. apply (Hd k Hk). by left.
Qed.

Lemma last_cons_default {A} (a d : A) l : List.last (a :: l) d = List.last l a.
Proof.
  revert a d. induction l as [|b l IH]; intros a d; [done|].
  change (List.last (a :: b :: l) d) with (List.last (b :: l) d).
  by rewrite !IH.
Qed.

Lemma counts_get list_fields base k :
  dict_get (fold_left count_step list_fields base) k
  = match filter (fun item => "num_" +:+ fst item = k) list_fields with
    | [] => dict_get base k
    | item :: items => Some (VInt (len (snd (List.last items item))))
    end.
Proof.
  revert base. induction list_fields as [|[f v] lf IH]; intros base; [done|].
  cbn [fold_left]. rewrite IH. unfold count_step. rewrite dict_get_set.
  cbn [fst snd].
  destruct (string_dec ("num_" +:+ f) k) as [Hk|Hk].
  - rewrite filter_cons_True by done.
    destruct (filter _ lf) as [|item items]; [done|].
    by rewrite last_cons_default.
  - by rewrite filter_cons_False by done.
Qed.

Lemma counts_flat list_fields base :
  Forall (fun item => is_list_of_structured_data (snd item) = false) base ->
  Forall (fun item => is_list_of_structured_data (snd item) = false)
    (fold_left count_step list_fields base).
Proof.
  revert base. induction list_fields as [|[f v] lf IH]; intros base Hb; [done|].
  cbn [fold_left]. apply IH. unfold count_step. cbn [fst snd].
  generalize ("num_" +:+ f). intros k.
  induction Hb as [|[k0 v0] base Hx Hb IHb]; simpl.
  - by repeat constructor.
  - destruct (string_dec k0 k); constructor; done.
Qed.

End FlattenFacts.

Module FlattenDumpFacts.
  Import CorePydantic FlattenFacts.

Lemma elem_unique (d : dict) k v v' :
  NoDup (dict_keys d) -> (k, v) ∈ d -> (k, v') ∈ d -> v = v'.
Proof.
  intros Hnd Hv Hv'. apply (dict_get_elem d k v Hnd) in Hv.
  apply (dict_get_elem d k v' Hnd) in Hv'. congruence.
Qed.

Lemma flatten_fold dump :
  NoDup (dict_keys dump) ->
  flatten_basemodel_for_export dump
  = fold_left count_step (structured_fields dump) (scalar_fields dump).
Proof.
  intros Hnd. unfold flatten_basemodel_for_export. rewrite (categorize_filter dump Hnd).
  rewrite dict_update_fresh; [done|]. simpl. by apply filter_keys_nodup.
Qed.

Lemma count_of_field dump f v :
  NoDup (dict_keys dump) -> (f, v) ∈ structured_fields dump ->
  dict_get (flatten_basemodel_for_export dump) ("num_" +:+ f) = Some (VInt (len v)).
Proof.
  intros Hnd Hin. rewrite (flatten_fold dump Hnd), counts_get.
  destruct (filter _ (structured_fields dump)) as [|item items] eqn:Hf.
  - exfalso. assert ((f, v) ∈ filter (fun item : string * value =>
                                       "num_" +:+ fst item = "num_" +:+ f)
                                    (structured_fields dump)) as Hin'
      by (by apply list_elem_of_filter).
    rewrite Hf in Hin'. by apply elem_of_nil in Hin'.
  - assert (List.last items item ∈ item :: items) as Hlast.
    { clear Hf. revert item. induction items as [|b items IH]; intros item.
      - by left.
      - right. rewrite (last_cons_default b item items). apply IH. }
    rewrite <- Hf in Hlast. apply list_elem_of_filter in Hlast as [Hkey Hl].
    apply (inj (String.app "num_")) in Hkey.
    destruct (List.last items item) as [f' v']. simpl in Hkey. subst f'. simpl.
    do 3 f_equal.
    apply (elem_unique (structured_fields dump) f); [|done|done].
    by apply filter_keys_nodup.
Qed.

Lemma dict_get_absent (d : dict) k : k ∉ dict_keys d -> dict_get d k = None.
Proof.
  induction d as [|[k0 v0] d IH]; [done|]. simpl.
  rewrite not_elem_of_cons. intros [Hne Hd].
  destruct (string_dec k0 k); [congruence|by apply IH].
Qed.

Lemma no_count_for dump k :
  (forall f v, (f, v) ∈ structured_fields dump -> k <> "num_" +:+ f) ->
  filter (fun item : string * value => "num_" +:+ fst item = k) (structured_fields dump)
  = [].
Proof.
  intros Hk.
  destruct (filter _ (structured_fields dump)) as [|[f v] items] eqn:Hf; [done|].
  assert ((f, v) ∈ filter (fun item : string * value => "num_" +:+ fst item = k)
                     (structured_fields dump)) as Hin by (rewrite Hf; by left).
  apply list_elem_of_filter in Hin as [Hkey Hin]. simpl in Hkey.
  by destruct (Hk f v Hin).
Qed.

End FlattenDumpFacts.

(** X21.  For the dump of a model, with its keys distinct:
    [categorize_basemodel_fields] splits the fields, in their order, into
    those holding a list of structured data (a list whose first item is a
    dict that is not empty) and the others.  [flatten_basemodel_for_export]
    gives every list field [f] the key [num_f] with its length, also when
    another field has that name, whose value is then lost; every other
    field keeps its value; the list fields themselves are left out; so no
    value of the flat row is a list of structured data. *)
Theorem flatten_counts_structured_lists (dump : dict) :
  NoDup (dict_keys dump) ->
  CorePydantic.categorize_basemodel_fields dump
  = (scalar_fields dump, structured_fields dump)
  /\ (forall f v, (f, v) ∈ structured_fields dump ->
        dict_get (CorePydantic.flatten_basemodel_for_export dump) ("num_" +:+ f)
        = Some (VInt (CorePydantic.len v)))
  /\ (forall k v, (k, v) ∈ scalar_fields dump ->
        (forall f v', (f, v') ∈ structured_fields dump -> k <> "num_" +:+ f) ->
        dict_get (CorePydantic.flatten_basemodel_for_export dump) k = Some v)
  /\ (forall f v, (f, v) ∈ structured_fields dump ->
        (forall g v', (g, v') ∈ structured_fields dump -> f <> "num_" +:+ g) ->
        dict_get (CorePydantic.flatten_basemodel_for_export dump) f = None)
  /\ (forall k v,
        dict_get (CorePydantic.flatten_basemodel_for_export dump) k = Some v ->
        CorePydantic.is_list_of_structured_data v = false).
Proof.
  intros Hnd. split; [by apply FlattenFacts.categorize_filter|].
  split; [intros f v; by apply FlattenDumpFacts.count_of_field|].
  split; [|split].
  - intros k v Hin Hk. rewrite (FlattenDumpFacts.flatten_fold dump Hnd).
    rewrite FlattenFacts.counts_get, (FlattenDumpFacts.no_count_for dump k Hk).
    apply FlattenFacts.dict_get_elem; [|done].
    by apply FlattenFacts.filter_keys_nodup.
  - intros f v Hin Hf. rewrite (FlattenDumpFacts.flatten_fold dump Hnd).
    rewrite FlattenFacts.counts_get, (FlattenDumpFacts.no_count_for dump f Hf).
    apply FlattenDumpFacts.dict_get_absent.
    intros ([f' v'] & Hkey & Hin')%list_elem_of_fmap. simpl in Hkey. subst f'.
    unfold structured_fields, scalar_fields in *.
    apply list_elem_of_filter in Hin as [Hs Hin], Hin' as [Hs' Hin'].
    simpl in Hs, Hs'.
    assert (v = v') as <- by exact (FlattenDumpFacts.elem_unique dump f v v' Hnd Hin Hin').
    congruence.
  - intros k v Hget%FlattenFacts.dict_get_Some_elem.
    rewrite (FlattenDumpFacts.flatten_fold dump Hnd) in Hget.
    assert (Forall (fun item : string * value =>
                      CorePydantic.is_list_of_structured_data (snd item) = false)
              (scalar_fields dump)) as Hbase.
    { apply Forall_forall. intros item [Hs _]%list_elem_of_filter. exact Hs. }
    pose proof (FlattenFacts.counts_flat (structured_fields dump) _ Hbase) as Hflat.
    rewrite Forall_forall in Hflat. exact (Hflat (k, v) Hget).
Qed.


Lemma flatten_counts_structured_lists_witness :
  CorePydantic.flatten_basemodel_for_export examples_dump
  = [("id", VStr "ds-1"); ("num_examples", VInt 2); ("tags", VList [])]
  /\ dict_get (CorePydantic.flatten_basemodel_for_export examples_dump) "num_examples"
     = Some (VInt 2).
Proof.
  split; [reflexivity|].
  assert (NoDup (dict_keys examples_dump)) as Hnd
    by (apply (bool_decide_unpack _); by vm_compute).
  refine (proj1 (proj2 (flatten_counts_structured_lists examples_dump Hnd))
            "examples" (VList [VDict [("q", VStr "a")]; VDict [("q", VStr "b")]]) _).
  assert (structured_fields examples_dump
          = [("examples", VList [VDict [("q", VStr "a")]; VDict [("q", VStr "b")]])])
    as -> by reflexivity.
  by left.
Defined.

(** ** A configuration from the environment *)

Module SetupFacts.
  Import PyStr PyStrFacts Schema SchemaFacts Setup.

Lemma env_ref_cons v : env_ref v = String "$" (String "{" (v +:+ "}")).
Proof. reflexivity. Qed.

Lemma last_char_snoc s c : last_char (s +:+ String c "") = Some c.
Proof.
  induction s as [|a s IH]; [done|]. rewrite app_cons.
  rewrite last_char_cons; [done|]. by destruct s.
Qed.

Lemma env_ref_stripped v : strip (env_ref v) = env_ref v.
Proof.
  apply strip_id.
  - intros c. rewrite env_ref_cons. by intros [= <-].
  - intros c. unfold env_ref. rewrite <- app_assoc.
    change "}" with (String "}" ""). rewrite last_char_snoc. by intros [= <-].
Qed.


Lemma validate_api_key_env_ref v : validate_api_key (env_ref v) = Ok (env_ref v).
Proof.
  rewrite <- (env_ref_stripped v) at 2. apply validate_api_key_stripped.
  by rewrite env_ref_stripped.
Qed.

Lemma startswith_env_ref v : startswith (env_ref v) "${" = true.
Proof.
  rewrite env_ref_cons. cbn [startswith].
  destruct (ascii_dec "$" "$"); [|done]. destruct (ascii_dec "{" "{"); [|done].
  by destruct (v +:+ "}").
Qed.

Lemma validate_region_env_ref `{Region} v : validate_region (env_ref v) = Ok (env_ref v).
Proof.
  unfold validate_region. destruct (string_dec (env_ref v) "") as [Hv|_]; [done|].
  rewrite startswith_env_ref.
  assert (endswith (env_ref v) "}" = true) as ->; [|done].
  unfold env_ref. rewrite <- app_assoc. apply StoreOpsFacts.endswith_app.
Qed.

Lemma dict_get_app_absent (d d' : dict) k :
  k ∉ dict_keys d -> dict_get (d ++ d') k = dict_get d' k.
Proof.
  induction d as [|[k0 v0] d IH]; [done|]. simpl.
  rewrite not_elem_of_cons. intros [Hne Hd].
  destruct (string_dec k0 k); [congruence|by apply IH].
Qed.

Lemma dict_get_kwargs fields env_vars f :
  dict_get (kwargs fields env_vars) f
  = if bool_decide (f ∈ fields)
    then match env_vars_get env_vars f with
         | Some env_var => Some (VStr (env_ref env_var))
         | None => None
         end
    else None.
Proof.
  induction fields as [|g fields IH]; [done|].
  unfold kwargs in *. cbn [flat_map].
  destruct (decide (g = f)) as [->|Hne].
  - rewrite bool_decide_eq_true_2 by (by left).
    destruct (env_vars_get env_vars f) as [v|] eqn:Hv.
    + simpl. by destruct (string_dec f f).
    + simpl. rewrite IH. by destruct (bool_decide _).
  - assert (bool_decide (f ∈ g :: fields) = bool_decide (f ∈ fields)) as ->.
    { apply bool_decide_ext. rewrite elem_of_cons.
      split; [intros [Hf|Hf]; [congruence|done] | by right]. }
    rewrite <- IH. destruct (env_vars_get env_vars g) as [v|]; [|done].
    simpl. by destruct (string_dec g f).
Qed.

End SetupFacts.

Module CreateFacts.
  Import PyStr PyStrFacts Schema SchemaFacts Setup SetupFacts.

Lemma str_field_kwargs fields env_vars k dflt validator :
  k ∈ fields ->
  (forall v, validator (env_ref v) = Ok (env_ref v)) ->
  str_field (kwargs fields env_vars) k (Some dflt) validator
  = inr (field_or_default env_vars k dflt).
Proof.
  intros Hk Hv. unfold str_field, field_or_default.
  rewrite dict_get_kwargs, (bool_decide_eq_true_2 _ Hk).
  destruct (env_vars_get env_vars k) as [v|]; [|done].
  by rewrite Hv.
Qed.

Lemma int_field_kwargs `{PydanticLax} fields env_vars k dflt :
  k ∈ fields ->
  int_or_str_field (kwargs fields env_vars) k dflt
  = inr (int_field_or_default env_vars k dflt).
Proof.
  intros Hk. unfold int_or_str_field, int_field_or_default.
  rewrite dict_get_kwargs, (bool_decide_eq_true_2 _ Hk).
  by destruct (env_vars_get env_vars k).
Qed.

Lemma truthy_field_or_empty env_vars k :
  truthy (field_or_default env_vars k "") = detected env_vars k.
Proof.
  unfold field_or_default, detected.
  destruct (env_vars_get env_vars k) as [v|].
  - by rewrite bool_decide_eq_true_2.
  - rewrite bool_decide_eq_false_2; [done|]. by intros [? ?].
Qed.

Lemma routing_from_env `{Region} env_vars :
  RoutingConfig_validate (kwargs routing_fields env_vars)
  = if 1 <? detected_strategies env_vars
    then inl [([], "Value error, Only one routing option allowed: region, single_host/port, or base_domain")]
    else inr (referenced_routing env_vars).
Proof.
  unfold RoutingConfig_validate.
  rewrite (str_field_kwargs _ _ "region" "" validate_region)
    by (in_fields || apply validate_region_env_ref).
  rewrite !(str_field_kwargs _ _ _ _ Ok) by (in_fields || done).
  cbn [vap]. fold (referenced_routing env_vars).
  unfold validate_mutually_exclusive.
  cbn [referenced_routing region single_host single_port base_domain].
  rewrite !truthy_field_or_empty. fold (detected_strategies env_vars).
  by destruct (1 <? detected_strategies env_vars).
Qed.

Lemma transport_from_env `{PydanticLax} env_vars :
  TransportConfig_validate (kwargs transport_fields env_vars)
  = inr (referenced_transport env_vars).
Proof.
  unfold TransportConfig_validate.
  rewrite !int_field_kwargs by in_fields. done.
Qed.

Lemma security_from_env `{PydanticLax} env_vars :
  SecurityConfig_validate (kwargs ["request_verify"] env_vars)
  = inr (referenced_security env_vars).
Proof.
  unfold SecurityConfig_validate, bool_or_str_field, referenced_security.
  rewrite dict_get_kwargs, bool_decide_eq_true_2 by (by left).
  by destruct (env_vars_get env_vars "request_verify").
Qed.

Lemma create_with_key `{Region} `{PydanticLax} read_output_format profile env_vars
    api_key_var :
  env_vars_get env_vars "api_key" = Some api_key_var ->
  create_config_from_env_vars read_output_format profile env_vars
  = (routing_config <-
       construct (RoutingConfig_validate (kwargs routing_fields env_vars)) ;;
     output_config <-
       construct (OutputConfig_validate [("format", read_output_format)]) ;;
     Ok (Build_Config {| name := profile |} {| api_key := env_ref api_key_var |}
           routing_config (referenced_transport env_vars)
           (referenced_security env_vars) StorageConfig_default output_config)).
Proof.
  intros Hkey. unfold create_config_from_env_vars. rewrite Hkey. cbn [bind].
  unfold AuthConfig_validate, str_field. cbn [dict_get].
  destruct (string_dec "api_key" "api_key") as [_|]; [|done].
  rewrite validate_api_key_env_ref. cbn [run_validator vap construct bind].
  rewrite transport_from_env, security_from_env.
  destruct (construct (RoutingConfig_validate _)); [|done].
  reflexivity.
Qed.


End CreateFacts.

(** X22.  [create_config_from_env_vars] needs the api key among the
    detected variables and raises a [ValueError] without it.  It raises the
    validation error of the routing section when the detected variables make
    more than one routing strategy active.  Otherwise, with a format chosen
    at the prompt, it returns the configuration under the profile name in
    which every detected field holds the reference to its variable, never a
    value, and every other field its default.  A prompt that was cancelled
    makes the construction of the output section fail. *)
Theorem config_from_env_vars_holds_references `{Region} `{PydanticLax}
    (read_output_format : value) (profile : string) (env_vars : list (string * string)) :
  (Setup.env_vars_get env_vars "api_key" = None ->
   Setup.create_config_from_env_vars read_output_format profile env_vars
   = Raise (ValueError "api_key must be present in detected env vars"))
  /\ (forall api_key_var,
        Setup.env_vars_get env_vars "api_key" = Some api_key_var ->
        (1 < detected_strategies env_vars ->
         Setup.create_config_from_env_vars read_output_format profile env_vars
         = Raise mutually_exclusive_validation_error)
        /\ (detected_strategies env_vars <= 1 ->
            (forall format,
               read_output_format = VStr (Schema.string_of_format format) ->
               Setup.create_config_from_env_vars read_output_format profile env_vars
               = Ok (referenced_config profile api_key_var env_vars format))
            /\ (read_output_format = VNone ->
                exists errors,
                  Setup.create_config_from_env_vars read_output_format profile env_vars
                  = Raise (ValidationError errors)))).
Proof.
  split.
  - intros Hkey. unfold Setup.create_config_from_env_vars. by rewrite Hkey.
  - intros api_key_var Hkey.
    rewrite (CreateFacts.create_with_key _ _ _ _ Hkey).
    rewrite CreateFacts.routing_from_env. split.
    + intros Hmany%Nat.ltb_lt. by rewrite Hmany.
    + intros Hone. assert ((1 <? detected_strategies env_vars) = false) as ->
        by (apply Nat.ltb_ge; lia).
      cbn [Setup.construct bind]. split.
      * intros format ->. by destruct format.
      * intros ->. by eexists.
Qed.

Lemma config_from_env_vars_holds_references_witness :
  @Setup.create_config_from_env_vars sample_regions strict_pydantic (VStr "json")
    "production" [("api_key", "ARIZE_API_KEY"); ("region", "ARIZE_REGION")]
  = Ok (referenced_config "production" "ARIZE_API_KEY"
          [("api_key", "ARIZE_API_KEY"); ("region", "ARIZE_REGION")] json)
  /\ @Setup.create_config_from_env_vars sample_regions strict_pydantic (VStr "json")
       "production"
       [("api_key", "ARIZE_API_KEY"); ("region", "ARIZE_REGION");
        ("base_domain", "ARIZE_BASE_DOMAIN")]
     = Raise mutually_exclusive_validation_error.
Proof.
  split.
  - refine (proj1 (proj2 (proj2 (@config_from_env_vars_holds_references
              sample_regions strict_pydantic (VStr "json") "production"
              [("api_key", "ARIZE_API_KEY"); ("region", "ARIZE_REGION")])
              "ARIZE_API_KEY" eq_refl) _) json eq_refl).
    vm_compute. lia.
  - refine (proj1 (proj2 (@config_from_env_vars_holds_references
              sample_regions strict_pydantic (VStr "json") "production"
              [("api_key", "ARIZE_API_KEY"); ("region", "ARIZE_REGION");
               ("base_domain", "ARIZE_BASE_DOMAIN")])
              "ARIZE_API_KEY" eq_refl) _).
    vm_compute. lia.
Defined.

Module DetectFacts.
  Import PyStr PyStrFacts Schema Manager ExpandFacts Setup SetupFacts.





End DetectFacts.

Module DetectedConfigFacts.
  Import PyStr PyStrFacts Schema Manager ExpandFacts ExpandTreeFacts Setup SetupFacts
    DetectFacts.





















End DetectedConfigFacts.



Module ToSdkFacts.
  Import PyStr PyStrFacts Schema SchemaFacts.

Lemma to_sdk_request_verify {region : Type} `{SDK region} (self : Config)
    (sdk : SDKConfiguration region) :
  to_sdk_config self = Ok sdk ->
  sdk_request_verify sdk = bool_bool_or_str (request_verify (security self)).
Proof.
  unfold to_sdk_config.
  repeat match goal with
    | |- (_ <- ?r ;; _) = Ok _ -> _ => destruct r; cbn [bind]; [|done]
    end.
  by intros [= <-].
Qed.

Lemma at_loc_inr {A} sec (x : vres A) a : at_loc sec x = inr a -> x = inr a.
Proof. by destruct x. Qed.

Lemma validated_security `{Region} `{PydanticLax} (data security : dict) (self : Config) :
  dict_get data "security" = Some (VDict security) ->
  Config_validate data = Ok self ->
  SecurityConfig_validate security = inr (Schema.security self).
Proof.
  intros Hs. unfold Config_validate.
  match goal with |- match ?r with _ => _ end = _ -> _ => destruct r as [|c'] eqn:Hr end;
    [done|].
  intros [= ->].
  repeat (apply vap_inr in Hr as (? & ? & Hr & ? & ->)). simplify_eq. simpl.
  match goal with
  | Hm : model_field data "security" _ _ = inr _ |- _ =>
      unfold model_field in Hm; rewrite Hs in Hm; by apply at_loc_inr in Hm
  end.
Qed.

End ToSdkFacts.

(** X24.  [to_sdk_config] passes [bool(request_verify)] to the SDK.  For a
    document that gives [request_verify] as a boolean this is the boolean;
    for one that gives it as a string, verification is on for every string
    but the empty one, whatever the string says. *)
Theorem request_verify_string_is_truthiness {region : Type} `{Region} `{PydanticLax}
    `{Schema.SDK region} (data security : dict) (self : Schema.Config)
    (sdk : Schema.SDKConfiguration region) :
  dict_get data "security" = Some (VDict security) ->
  Schema.Config_validate data = Ok self ->
  Schema.to_sdk_config self = Ok sdk ->
  (forall verify : string,
     dict_get security "request_verify" = Some (VStr verify) ->
     Schema.sdk_request_verify sdk = negb (bool_decide (verify = "")))
  /\ (forall verify : bool,
        dict_get security "request_verify" = Some (VBool verify) ->
        Schema.sdk_request_verify sdk = verify)
  /\ (dict_get security "request_verify" = None -> Schema.sdk_request_verify sdk = true).
Proof.
  intros Hs Hvalid Hsdk.
  rewrite (ToSdkFacts.to_sdk_request_verify _ _ Hsdk).
  pose proof (ToSdkFacts.validated_security _ _ _ Hs Hvalid) as Hsec.
  unfold Schema.SecurityConfig_validate, Schema.bool_or_str_field in Hsec.
  repeat split.
  - intros verify Hv. rewrite Hv in Hsec. cbn [Schema.vap] in Hsec.
    injection Hsec as <-. cbn [Schema.request_verify Schema.bool_bool_or_str].
    by destruct verify.
  - intros verify Hv. rewrite Hv in Hsec. cbn [Schema.vap] in Hsec.
    by injection Hsec as <-.
  - intros Hv. rewrite Hv in Hsec. cbn [Schema.vap] in Hsec.
    by injection Hsec as <-.
Qed.

Lemma request_verify_string_is_truthiness_witness :
  exists self sdk,
    @Schema.Config_validate sample_regions strict_pydantic verify_false_data = Ok self
    /\ @Schema.to_sdk_config _ sample_sdk self = Ok sdk
    /\ Schema.sdk_request_verify sdk = true.
Proof.
  eexists. eexists. split; [by vm_compute|]. split; [by vm_compute|].
  exact (proj1 (@request_verify_string_is_truthiness _ sample_regions strict_pydantic
                  sample_sdk verify_false_data [("request_verify", VStr "false")] _ _
                  eq_refl eq_refl eq_refl) "false" eq_refl).
Defined.
